(** * mesh3d: data handlers, outlier filters and the reconstruction pipeline

    A shallow embedding of
    - [mesh3d/tools/handlers.py]      (classes [PointCloud] and [Mesh]),
    - [mesh_3d/core/filter.py]        (outlier filters),
    - [mesh3d/mesh3d_reconstruct.py]  (functions [run] and [main]),
    followed by the properties established about them.

    Conventions.  A Python call that may raise is a value of [outcome]; code
    that logs, prints or touches the disk threads a world through the monad
    [M], whose world survives an exception (what was written before a raise
    stays written).  A finite float64 is a rational number; the non finite
    results a numpy division can produce are separate constructors of
    [numpy.float64]. *)

From Stdlib Require Import String Ascii List ZArith QArith Qminmax Bool Lia Lqa.
From Stdlib Require Import DecimalString.
From Stdlib Require Decimal DecimalNat.
Import ListNotations.
Local Open Scope string_scope.
Local Open Scope list_scope.

(* ================================================================== *)
(** * Python exceptions *)

Inductive PyError : Type :=
| ValueError (msg : string)
| TypeError (msg : string)
| KeyError (key : string)
| RuntimeError (msg : string)
| ZeroDivisionError (msg : string)
| NotImplementedError
| ExternalError (msg : string).

Inductive outcome (A : Type) : Type :=
| Ok (a : A)
| Raise (e : PyError).

Arguments Ok {A} a.
Arguments Raise {A} e.

Definition obind {A B : Type} (x : outcome A) (f : A -> outcome B) : outcome B :=
  match x with
  | Ok a => f a
  | Raise e => Raise e
  end.

Definition raised {A : Type} (x : outcome A) : Prop :=
  exists e, x = Raise e.

Declare Scope py_scope.
Delimit Scope py_scope with py.
Notation "'let?' x ':=' c 'in' k" := (obind c (fun x => k))
  (at level 10, x pattern, c at level 100, k at level 200) : py_scope.
Local Open Scope py_scope.

(** [None[...]]: subscripting an unassigned attribute. *)
Definition NoneType_not_subscriptable : PyError :=
  TypeError "'NoneType' object is not subscriptable".

(* ================================================================== *)
(** * numpy.ndarray, two-dimensional *)

(** An array of shape [(length ndarray_rows, ndarray_ncols)]; the number of
    columns is kept apart because an array may have no row. *)
Record ndarray : Type := mk_ndarray {
  ndarray_ncols : nat;
  ndarray_rows : list (list Q)
}.

(** [a.shape]. *)
Definition ndarray_shape (a : ndarray) : nat * nat :=
  (length (ndarray_rows a), ndarray_ncols a).

(** Every row has [ndarray_ncols] cells. *)
Definition ndarray_wf (a : ndarray) : Prop :=
  Forall (fun r => length r = ndarray_ncols a) (ndarray_rows a).

(** [a[:, i]]. *)
Definition ndarray_column (a : ndarray) (i : nat) : list Q :=
  map (fun r => nth i r 0%Q) (ndarray_rows a).

(* ================================================================== *)
(** * pandas.DataFrame *)

Module pandas.

(** A frame is its column labels and its rows; a row is its index label and
    its cells, aligned with the column labels. *)
Record DataFrame : Type := mkDataFrame {
  columns : list string;
  rows : list (Z * list Q)
}.

(** [c in df]: membership among the column labels. *)
Definition contains (df : DataFrame) (c : string) : bool :=
  existsb (String.eqb c) (columns df).

(** [df.head()]: the first five rows, same columns. *)
Definition head (df : DataFrame) : DataFrame :=
  mkDataFrame (columns df) (firstn 5 (rows df)).

(** [df.shape]. *)
Definition shape (df : DataFrame) : nat * nat :=
  (length (rows df), length (columns df)).

(** [df.empty]: true when any axis has length 0. *)
Definition empty (df : DataFrame) : bool :=
  (fst (shape df) =? 0)%nat || (snd (shape df) =? 0)%nat.

Fixpoint position (c : string) (cols : list string) : option nat :=
  match cols with
  | [] => None
  | c' :: cols' =>
      if String.eqb c c' then Some 0%nat
      else option_map S (position c cols')
  end.

(** [df[c].to_numpy()]: one column, [KeyError] when absent. *)
Definition column (df : DataFrame) (c : string) : outcome (list Q) :=
  match position c (columns df) with
  | Some p => Ok (map (fun r => nth p (snd r) 0%Q) (rows df))
  | None => Raise (KeyError c)
  end.

Fixpoint positions (names cols : list string) : outcome (list nat) :=
  match names with
  | [] => Ok []
  | c :: names' =>
      match position c cols with
      | Some p => let? ps := positions names' cols in Ok (p :: ps)
      | None => Raise (KeyError c)
      end
  end.

(** [df[[c1, ..., cn]]]: the sub-frame of these columns, in this order;
    [KeyError] when one of them is absent. *)
Definition select (df : DataFrame) (names : list string) : outcome DataFrame :=
  let? ps := positions names (columns df) in
  Ok (mkDataFrame names
        (map (fun r => (fst r, map (fun p => nth p (snd r) 0%Q) ps)) (rows df))).

(** [df.to_numpy()]. *)
Definition to_numpy (df : DataFrame) : list (list Q) :=
  map snd (rows df).

Fixpoint loc_rows (rs : list (Z * list Q)) (labels : list Z)
  : outcome (list (Z * list Q)) :=
  match labels with
  | [] => Ok []
  | l :: labels' =>
      match filter (fun r => Z.eqb (fst r) l) rs with
      | [] => Raise (KeyError "index label")
      | hit => let? rest := loc_rows rs labels' in Ok (hit ++ rest)
      end
  end.

(** [df.loc[labels]]: the rows carrying these index labels, in the order of
    [labels]; [KeyError] when a label is not in the index. *)
Definition loc (df : DataFrame) (labels : list Z) : outcome DataFrame :=
  let? rs := loc_rows (rows df) labels in
  Ok (mkDataFrame (columns df) rs).

(** [df.index.values[positions]]: the labels at these positions. *)
Fixpoint labels_at (rs : list (Z * list Q)) (ps : list nat) : outcome (list Z) :=
  match ps with
  | [] => Ok []
  | p :: ps' =>
      match nth_error rs p with
      | Some r => let? ls := labels_at rs ps' in Ok (fst r :: ls)
      | None => Raise (ExternalError "IndexError")
      end
  end.

(** [df.drop(index=labels)]: every row whose label is listed goes. *)
Definition drop (df : DataFrame) (labels : list Z) : DataFrame :=
  mkDataFrame (columns df)
    (filter (fun r => negb (existsb (Z.eqb (fst r)) labels)) (rows df)).

(** [pd.RangeIndex(n)]. *)
Definition range_index (n : nat) : list Z := map Z.of_nat (seq 0 n).

(** [pd.DataFrame(data=a, columns=names)] for a 2-D array: the labels must
    be as many as the array has columns; the index is a [RangeIndex]. *)
Definition from_array (a : ndarray) (names : list string) : outcome DataFrame :=
  if (ndarray_ncols a =? length names)%nat then
    Ok (mkDataFrame names
          (combine (range_index (length (ndarray_rows a))) (ndarray_rows a)))
  else
    Raise (ValueError "Shape of passed values does not match the shape the indices imply").

Fixpoint replace_cell (p : nat) (v : Q) (cells : list Q) : list Q :=
  match p, cells with
  | _, [] => []
  | O, _ :: cells' => v :: cells'
  | S p', c :: cells' => c :: replace_cell p' v cells'
  end.

(** [df[c] = vals] for [vals] as long as the index: an existing column is
    overwritten in place, a new one is appended on the right. *)
Definition set_column (df : DataFrame) (c : string) (vals : list Q) : DataFrame :=
  match position c (columns df) with
  | Some p =>
      mkDataFrame (columns df)
        (map (fun rv => (fst (fst rv), replace_cell p (snd rv) (snd (fst rv))))
           (combine (rows df) vals))
  | None =>
      mkDataFrame (columns df ++ [c])
        (map (fun rv => (fst (fst rv), snd (fst rv) ++ [snd rv]))
           (combine (rows df) vals))
  end.

(** [df[names] = a] for a 2-D array [a]: pandas wants one column of [a] per
    name and, column by column, as many values as the index has labels.
    (A frame with an index of length 0 is re-indexed by pandas instead of
    refused; [Mesh.set_df_uvs], the one caller embedded here, compares the
    lengths itself before it assigns and never reaches that case.) *)
Definition setitem (df : DataFrame) (names : list string) (a : ndarray)
  : outcome DataFrame :=
  if negb (ndarray_ncols a =? length names)%nat then
    Raise (ValueError "Columns must be same length as key")
  else if negb (length (ndarray_rows a) =? length (rows df))%nat then
    Raise (ValueError "Length of values does not match length of index")
  else
    Ok (fold_left
          (fun acc ic => set_column acc (snd ic) (ndarray_column a (fst ic)))
          (combine (seq 0 (length names)) names) df).

(** The cells of every row are as many as the columns. *)
Definition aligned (df : DataFrame) : Prop :=
  Forall (fun r => length (snd r) = length (columns df)) (rows df).

(** [df.index]. *)
Definition index (df : DataFrame) : list Z := map fst (rows df).

End pandas.

(* ================================================================== *)
(** * numpy *)

Module numpy.

(** A float64: finite, or one of the three non finite values.  A finite
    value is carried by the rational it stands for; the rounding of a finite
    result is not modelled, its overflow is (see [rounded]). *)
Inductive float64 : Type :=
| finite (q : Q)
| nan
| inf (negative : bool).

(** The least magnitude that rounds to an infinity: half an ulp above the
    largest float64, 2^1024 - 2^970. *)
Definition overflow_threshold : Q := inject_Z (2 ^ 1024 - 2 ^ 970).

(** The float64 an operation yields when its exact result is [q]. *)
Definition rounded (q : Q) : float64 :=
  if Qle_bool overflow_threshold q then inf false
  else if Qle_bool q (- overflow_threshold) then inf true
  else finite q.

(** [np.zeros_like(a)]. *)
Definition zeros_like {A : Type} (a : list (list A)) : list (list Q) :=
  map (map (fun _ => 0%Q)) a.

(** [np.minimum] and [np.maximum] on two values: a nan wins. *)
Definition minimum (x y : float64) : float64 :=
  match x, y with
  | nan, _ => nan
  | _, nan => nan
  | inf true, _ => inf true
  | _, inf true => inf true
  | inf false, _ => y
  | _, inf false => x
  | finite a, finite b => finite (Qmin a b)
  end.

Definition maximum (x y : float64) : float64 :=
  match x, y with
  | nan, _ => nan
  | _, nan => nan
  | inf false, _ => inf false
  | _, inf false => inf false
  | inf true, _ => y
  | _, inf true => x
  | finite a, finite b => finite (Qmax a b)
  end.

(** [a.min()] and [a.max()] over the flattened array; numpy raises
    [ValueError] on a zero-size array. *)
Definition amin (a : list (list float64)) : outcome float64 :=
  match concat a with
  | [] => Raise (ValueError "zero-size array to reduction operation minimum which has no identity")
  | v :: vs => Ok (fold_left minimum vs v)
  end.

Definition amax (a : list (list float64)) : outcome float64 :=
  match concat a with
  | [] => Raise (ValueError "zero-size array to reduction operation maximum which has no identity")
  | v :: vs => Ok (fold_left maximum vs v)
  end.

(** One float64 division [x / y] of finite values: numpy warns and yields
    nan or an infinity on a zero divisor, it does not raise. *)
Definition true_divide (x y : Q) : float64 :=
  if Qeq_bool y 0 then
    (if Qeq_bool x 0 then nan else inf (Qle_bool x 0))
  else finite (x / y).

(** [x - y] on float64: the difference of two finite values may overflow. *)
Definition fsub (x y : float64) : float64 :=
  match x, y with
  | nan, _ => nan
  | _, nan => nan
  | finite a, finite b => rounded (a - b)
  | inf s, inf s' => if Bool.eqb s s' then nan else inf s
  | inf s, finite _ => inf s
  | finite _, inf s => inf (negb s)
  end.

(** [x / y] on float64. *)
Definition fdiv (x y : float64) : float64 :=
  match x, y with
  | nan, _ => nan
  | _, nan => nan
  | finite a, finite b =>
      match true_divide a b with
      | finite q => rounded q
      | r => r
      end
  | finite _, inf _ => finite 0
  | inf s, finite b => inf (if Qle_bool 0 b then s else negb s)
  | inf _, inf _ => nan
  end.

(** [x != 0.0]: true on nan and on the infinities. *)
Definition ne_zero (x : float64) : bool :=
  match x with
  | finite q => negb (Qeq_bool q 0)
  | _ => true
  end.

(** [np.divide(x1, x2, out=out, where=cond)] for a scalar [x2] and a scalar
    [cond]: where the condition holds the quotient is stored, elsewhere the
    cell of [out] is kept. *)
Definition divide (x1 : list (list float64)) (x2 : float64) (out : list (list Q))
  (cond : bool) : list (list float64) :=
  if cond then map (map (fun v => fdiv v x2)) x1
  else map (map finite) out.

(** Arithmetic on values that may be non finite, as far as
    [local_density_analysis] needs it. *)
Definition fadd (x y : float64) : float64 :=
  match x, y with
  | finite a, finite b => finite (a + b)
  | nan, _ | _, nan => nan
  | inf s, inf s' => if Bool.eqb s s' then inf s else nan
  | inf s, finite _ | finite _, inf s => inf s
  end.

Definition fsum (l : list float64) : float64 :=
  fold_left fadd l (finite 0).

Definition fscale (c : Q) (x : float64) : float64 :=
  match x with
  | finite a => finite (c * a)
  | nan => nan
  | inf s => if Qeq_bool c 0 then nan else inf (if Qle_bool c 0 then negb s else s)
  end.

(** [1 - x]. *)
Definition one_minus (x : float64) : float64 :=
  match x with
  | finite a => finite (1 - a)
  | nan => nan
  | inf s => inf (negb s)
  end.

(** [x > c]: false on nan. *)
Definition gt (x : float64) (c : Q) : bool :=
  match x with
  | finite a => negb (Qle_bool a c)
  | nan => false
  | inf s => negb s
  end.

(** [np.exp], given its restriction [e] to finite arguments. *)
Definition exp (e : Q -> Q) (x : float64) : float64 :=
  match x with
  | finite a => finite (e a)
  | nan => nan
  | inf true => finite 0
  | inf false => inf false
  end.

(** [a - s] for a scalar [s]. *)
Definition subtract (a : list (list float64)) (s : float64) : list (list float64) :=
  map (map (fun v => fsub v s)) a.

Fixpoint replace_nth {A : Type} (k : nat) (v : A) (l : list A) : list A :=
  match k, l with
  | _, [] => []
  | O, _ :: l' => v :: l'
  | S k', x :: l' => x :: replace_nth k' v l'
  end.

(** [a[:, k] = col]. *)
Fixpoint set_column (k : nat) (col : list Q) (a : list (list Q)) : list (list Q) :=
  match a, col with
  | row :: a', v :: col' => replace_nth k v row :: set_column k col' a'
  | _, _ => a
  end.

(** Observations on one cell. *)
Definition in_unit_interval (c : float64) : bool :=
  match c with
  | finite q => Qle_bool 0 q && Qle_bool q 1
  | _ => false
  end.

Definition is_zero (c : float64) : bool :=
  match c with
  | finite q => Qeq_bool q 0
  | _ => false
  end.

End numpy.

(* ================================================================== *)
(** * handlers.py *)

Definition COLORS : list string := ["red"; "green"; "blue"; "nir"].
Definition NORMALS : list string := ["n_x"; "n_y"; "n_z"].
Definition UVS : list string :=
  ["uv1_row"; "uv1_col"; "uv2_row"; "uv2_col"; "uv3_row"; "uv3_col"].

(** The part of [open3d.geometry.PointCloud] the handlers touch. *)
Record o3d_PointCloud : Type := mk_o3d_PointCloud {
  o3d_points : list (list Q);
  o3d_colors : list (list numpy.float64);
  o3d_normals : list (list Q)
}.

(** The part of [open3d.geometry.TriangleMesh] the handlers touch. *)
Record o3d_TriangleMesh : Type := mk_o3d_TriangleMesh {
  o3d_vertices : list (list Q);
  o3d_triangles : list (list Q);
  o3d_vertex_colors : list (list numpy.float64);
  o3d_vertex_normals : list (list Q);
  o3d_triangle_uvs : list (list Q);
  o3d_textures : list string
}.

(** Lines 138-157 of [PointCloud.set_o3d_colors], repeated verbatim as lines
    349-368 of [Mesh.set_o3d_vertex_colors]: the RGB array of a frame,
    normalised. *)
Definition rgb_fill (df : pandas.DataFrame) (acc : outcome (list (list Q)))
  (kc : nat * string) : outcome (list (list Q)) :=
  let? colors_arr := acc in
  if pandas.contains df (snd kc) then
    let? col := pandas.column df (snd kc) in
    Ok (numpy.set_column (fst kc) col colors_arr)
  else
    Raise (ValueError ("Open3D only deals with RGB colors. Here '" ++ snd kc ++ "' is missing.")).

Definition rgb_array (df : pandas.DataFrame) : outcome (list (list Q)) :=
  let? xyz := pandas.select df ["x"; "y"; "z"] in
  let colors_arr := numpy.zeros_like (pandas.to_numpy xyz) in
  fold_left (rgb_fill df) [(0%nat, "red"); (1%nat, "green"); (2%nat, "blue")] (Ok colors_arr).

(** The array as float64: the cells of a frame are finite values. *)
Definition as_float64 (a : list (list Q)) : list (list numpy.float64) :=
  map (map numpy.finite) a.

Definition normalize_colors (colors_arr : list (list numpy.float64))
  : outcome (list (list numpy.float64)) :=
  let? lo := numpy.amin colors_arr in
  let? hi := numpy.amax colors_arr in
  Ok (numpy.divide (numpy.subtract colors_arr lo) (numpy.fsub hi lo)
        (numpy.zeros_like colors_arr)
        (numpy.ne_zero (numpy.fsub hi lo))).

Definition normalized_rgb (df : pandas.DataFrame) : outcome (list (list numpy.float64)) :=
  let? colors_arr := rgb_array df in
  normalize_colors (as_float64 colors_arr).

(** The value the normalisation gives the cell [v] of an array whose minimum
    is [lo] and whose maximum is [hi]: the quotient by the range, or 0 when
    the range is 0.  Used to state what [normalize_colors] computes. *)
Definition scaled (lo hi v : Q) : numpy.float64 :=
  numpy.finite (if Qeq_bool (hi - lo) 0 then 0 else (v - lo) / (hi - lo)).

(** The value it gives the cell [v] when the range [hi - lo] overflows: the
    range is an infinity, so the cell is 0, or nan when [v - lo] overflows
    as well.  Used to state what [normalize_colors] computes. *)
Definition overflowed (lo v : Q) : numpy.float64 :=
  if Qle_bool numpy.overflow_threshold (v - lo) then numpy.nan else numpy.finite 0.

Module PointCloud.

Record t : Type := mk {
  df : option pandas.DataFrame;
  o3d_pcd : option o3d_PointCloud
}.

(** [PointCloud(df, o3d_pcd)]; the two [isinstance] checks hold by typing. *)
Definition init (df : option pandas.DataFrame) (o3d_pcd : option o3d_PointCloud) : t :=
  mk df o3d_pcd.

Definition not_assigned : PyError :=
  ValueError "Point cloud (pandas DataFrame) is not assigned.".

Definition has_colors (self : t) : outcome bool :=
  match df self with
  | None => Raise not_assigned
  | Some d => Ok (existsb (fun c => pandas.contains (pandas.head d) c) COLORS)
  end.

Definition has_normals (self : t) : outcome bool :=
  match df self with
  | None => Raise not_assigned
  | Some d => Ok (forallb (fun n => pandas.contains (pandas.head d) n) NORMALS)
  end.

Definition has_classes (self : t) : outcome bool :=
  match df self with
  | None => Raise not_assigned
  | Some d => Ok (pandas.contains (pandas.head d) "classification")
  end.

Definition get_vertices (self : t) : outcome pandas.DataFrame :=
  match df self with
  | None => Raise NoneType_not_subscriptable
  | Some d => pandas.select d ["x"; "y"; "z"]
  end.

Definition get_colors (self : t) : outcome pandas.DataFrame :=
  let? b := has_colors self in
  if negb b then Raise (ValueError "Point cloud has no color.")
  else
    match df self with
    | None => Raise NoneType_not_subscriptable
    | Some d =>
        pandas.select d (filter (fun c => pandas.contains (pandas.head d) c) COLORS)
    end.

Definition get_normals (self : t) : outcome pandas.DataFrame :=
  let? b := has_normals self in
  if negb b then Raise (ValueError "Point cloud has no normals.")
  else
    match df self with
    | None => Raise NoneType_not_subscriptable
    | Some d => pandas.select d NORMALS
    end.

Definition set_o3d_colors (self : t) : outcome t :=
  match o3d_pcd self with
  | None => Raise (ValueError "Open3D Point Cloud is empty.")
  | Some o =>
      match df self with
      | None => Raise NoneType_not_subscriptable
      | Some d =>
          let? colors_arr := normalized_rgb d in
          Ok (mk (df self)
                (Some (mk_o3d_PointCloud (o3d_points o) colors_arr (o3d_normals o))))
      end
  end.

End PointCloud.

Module Mesh.

Record t : Type := mk {
  pcd : PointCloud.t;
  df : option pandas.DataFrame;
  o3d_mesh : option o3d_TriangleMesh;
  image_texture_path : option string
}.

(** [Mesh(pcd, mesh, o3d_pcd, o3d_mesh)]. *)
Definition init (pcd mesh : option pandas.DataFrame)
  (o3d_pcd : option o3d_PointCloud) (o3d_mesh : option o3d_TriangleMesh) : t :=
  mk (PointCloud.init pcd o3d_pcd) mesh o3d_mesh None.

Definition set_image_texture_path (self : t) (image_texture_path : string) : t :=
  mk (pcd self) (df self) (o3d_mesh self) (Some image_texture_path).

Definition not_assigned : PyError :=
  ValueError "Mesh (pandas DataFrame) is not assigned.".

Definition is_not_None {A : Type} (x : option A) : bool :=
  match x with Some _ => true | None => false end.

Definition has_triangles (self : t) : outcome bool :=
  match df self with
  | None => Raise not_assigned
  | Some d =>
      Ok (forallb (fun n => pandas.contains (pandas.head d) n) ["p1"; "p2"; "p3"]
          && negb (pandas.empty d))
  end.

Definition has_texture (self : t) : outcome bool :=
  match df self with
  | None => Raise not_assigned
  | Some d =>
      Ok (is_not_None (image_texture_path self)
          && forallb (fun el => pandas.contains (pandas.head d) el)
               ["uv1_row"; "uv1_col"; "uv2_row"; "uv2_col"; "uv3_row"; "uv3_col"]
          && negb (pandas.empty d))
  end.

Definition has_triangle_uvs (self : t) : outcome bool :=
  match df self with
  | None => Raise not_assigned
  | Some d =>
      Ok (forallb (fun el => pandas.contains (pandas.head d) el)
            ["uv1_row"; "uv1_col"; "uv2_row"; "uv2_col"; "uv3_row"; "uv3_col"]
          && negb (pandas.empty d))
  end.

Definition has_normals (self : t) : outcome bool :=
  match df self with
  | None => Raise not_assigned
  | Some d =>
      Ok (forallb (fun n => pandas.contains (pandas.head d) n) NORMALS
          && negb (pandas.empty d))
  end.

Definition has_classes (self : t) : outcome bool :=
  match df self with
  | None => Raise not_assigned
  | Some d => Ok (pandas.contains (pandas.head d) "classification" && negb (pandas.empty d))
  end.

(** [return self.df[["p1", "p2", "p3"]]]: no capability check. *)
Definition get_triangles (self : t) : outcome pandas.DataFrame :=
  match df self with
  | None => Raise NoneType_not_subscriptable
  | Some d => pandas.select d ["p1"; "p2"; "p3"]
  end.

Definition get_triangle_uvs (self : t) : outcome pandas.DataFrame :=
  let? b := has_triangle_uvs self in
  if negb b then Raise (ValueError "Mesh has no triangle uvs.")
  else
    match df self with
    | None => Raise NoneType_not_subscriptable
    | Some d => pandas.select d UVS
    end.

Definition get_image_texture_path (self : t) : outcome string :=
  match image_texture_path self with
  | None => Raise (ValueError "Mesh has no image texture path defined.")
  | Some p => Ok p
  end.

Definition set_o3d_vertex_colors (self : t) : outcome t :=
  match o3d_mesh self with
  | None => Raise (ValueError "Could not set df from open3d mesh because it is empty.")
  | Some o =>
      match PointCloud.df (pcd self) with
      | None => Raise NoneType_not_subscriptable
      | Some d =>
          let? colors_arr := normalized_rgb d in
          Ok (mk (pcd self) (df self)
                (Some (mk_o3d_TriangleMesh (o3d_vertices o) (o3d_triangles o) colors_arr
                         (o3d_vertex_normals o) (o3d_triangle_uvs o) (o3d_textures o)))
                (image_texture_path self))
      end
  end.

End Mesh.

(* ================================================================== *)
(** * Effects: the log, the standard output and the disk *)

Inductive Level : Type := DEBUG | INFO | WARNING | ERROR.

(** What a run does to the outside, in order. *)
Inductive Event : Type :=
| Log (level : Level) (msg : string)
| Stdout (label : string) (value : numpy.float64)
| Makedirs (path : string)
| SerializeMesh (filepath : string) (mesh : Mesh.t) (extension : string)
| SerializePointCloud (filepath : string) (df : option pandas.DataFrame)
    (extension : option string).

Definition is_warning (e : Event) : bool :=
  match e with
  | Log WARNING _ => true
  | _ => false
  end.

Record World (Disk : Type) : Type := mkWorld {
  trace : list Event;
  disk : Disk
}.

Arguments mkWorld {Disk} trace disk.
Arguments trace {Disk} w.
Arguments disk {Disk} w.

(** State and exceptions; the state survives a raise. *)
Definition M (S A : Type) : Type := S -> outcome A * S.

Definition ret {S A : Type} (a : A) : M S A := fun s => (Ok a, s).

Definition bind {S A B : Type} (m : M S A) (f : A -> M S B) : M S B :=
  fun s =>
    match m s with
    | (Ok a, s') => f a s'
    | (Raise e, s') => (Raise e, s')
    end.

Definition raise {S A : Type} (e : PyError) : M S A := fun s => (Raise e, s).

Definition lift {S A : Type} (x : outcome A) : M S A := fun s => (x, s).

Notation "x <- c ;; k" := (bind c (fun x => k))
  (at level 61, c at next level, right associativity) : py_scope.
Notation "c ;; k" := (bind c (fun _ => k))
  (at level 61, right associativity) : py_scope.

Definition emit {Disk : Type} (e : Event) : M (World Disk) unit :=
  fun w => (Ok tt, mkWorld (trace w ++ [e]) (disk w)).

(** A computation that only ever appends to the trace. *)
Definition grows {D A : Type} (m : M (World D) A) : Prop :=
  forall w, exists t, trace (snd (m w)) = trace w ++ t.

(** [logger.<level>(msg)]. *)
Definition logger {Disk : Type} (level : Level) (msg : string) : M (World Disk) unit :=
  emit (Log level msg).

(** [print(label, value)]. *)
Definition print {Disk : Type} (label : string) (value : numpy.float64)
  : M (World Disk) unit :=
  emit (Stdout label value).

(** [str(n)] for a natural number. *)
Definition str (n : nat) : string :=
  NilZero.string_of_uint (Nat.to_uint n).

(** [s.zfill(width)] for an unsigned [s]. *)
Definition zfill (s : string) (width : nat) : string :=
  String.concat "" (repeat "0" (width - String.length s)) ++ s.

Module os_path.

Definition ends_with_slash (a : string) : bool :=
  match String.get (String.length a - 1) a with
  | Some c => Ascii.eqb c "/"%char
  | None => false
  end.

(** [os.path.join(a, b)] (posixpath). *)
Definition join (a b : string) : string :=
  if String.prefix "/" b then b
  else if (String.length a =? 0)%nat || ends_with_slash a then a ++ b
  else a ++ "/" ++ b.

End os_path.

(** One record of [cfg["state_machine"]]. *)
Record Step : Type := mkStep {
  action : string;
  method : string;
  params : list (string * string);
  save_output : option bool   (* [None]: the key is absent *)
}.

Record Cfg : Type := mkCfg {
  input_path : string;
  output_dir : string;
  output_name : option string;   (* [None]: the key is absent *)
  initial_state : string;
  state_machine : list Step
}.

(** An external call: it may raise, change the disk, and log or print; what
    it logs is returned and appended to the trace, so no collaborator can
    rewrite the past. *)
Definition Ext (Disk A : Type) : Type := Disk -> outcome A * list Event * Disk.

(** The external collaborators: the operating system, the file codecs,
    Open3D, scipy and numpy's exponential, the state machine of
    [mesh3d/state_machine.py] and the configuration module
    [mesh3d/config.py].  The handlers import the codecs from [mesh3d/tools]
    ([mesh_io], [point_cloud_io]) and the filters from
    [mesh_3d/tools/point_cloud_handling]; what a codec does with the file
    path it receives is its own business, so a serialisation is recorded in
    the trace as the call that was made, with its path, and the codec then
    acts on the disk.  Every embedded function takes its collaborators from
    here. *)
Record Env : Type := mkEnv {
  Disk : Type;
  Machine : Type;
  (* os *)
  os_makedirs : string -> M Disk unit;                     (* exist_ok=True *)
  os_listdir : string -> Disk -> outcome (list string);
  os_path_abspath : string -> string;
  os_path_basename : string -> string;
  (* codecs *)
  serialize_mesh : string -> Mesh.t -> string -> M Disk unit;
  serialize_point_cloud :
    string -> option pandas.DataFrame -> option string -> M Disk unit;
  read_input_path : string -> Ext Disk Mesh.t;
  (* Open3D, scipy, numpy *)
  remove_radius_outlier : list (list Q) -> Z -> Q -> outcome (list Z);
  remove_statistical_outlier : list (list Q) -> Z -> Q -> outcome (list Z);
  KDTree_query : list (list Q) -> list Q -> Z -> outcome (list Q);
  np_exp : Q -> Q;
  (* state_machine.Mesh3DMachine *)
  Mesh3DMachine : Mesh.t -> string -> Machine;
  mesh_data : Machine -> Mesh.t;
  machine_initial_state : Machine -> string;
  check_transitions : Machine -> Cfg -> Ext Disk unit;
  machine_run : Machine -> Step -> Cfg -> Ext Disk Machine;
  (* config *)
  check_config : string -> Ext Disk Cfg;
  save_config_file : string -> Cfg -> Ext Disk unit;
  logger_add : string -> Ext Disk unit
}.

(** Run an external call inside a world. *)
Definition ext {Disk A : Type} (m : Ext Disk A) : M (World Disk) A :=
  fun w =>
    match m (disk w) with
    | (r, events, d) => (r, mkWorld (trace w ++ events) d)
    end.

(** Run a disk operation inside a world. *)
Definition on_disk {Disk A : Type} (m : M Disk A) : M (World Disk) A :=
  fun w => let (r, d) := m (disk w) in (r, mkWorld (trace w) d).

Definition listdir (E : Env) (path : string) : M (World (Disk E)) (list string) :=
  fun w => (os_listdir E path (disk w), w).

Definition makedirs (E : Env) (path : string) : M (World (Disk E)) unit :=
  emit (Makedirs path) ;; on_disk (os_makedirs E path).

(** [PointCloud.serialize(filepath, **kwargs)]. *)
Definition PointCloud_serialize (E : Env) (self : PointCloud.t) (filepath : string)
  (extension : option string) : M (World (Disk E)) unit :=
  emit (SerializePointCloud filepath (PointCloud.df self) extension) ;;
  on_disk (serialize_point_cloud E filepath (PointCloud.df self) extension).

(** [Mesh.serialize(filepath, extension=...)]. *)
Definition Mesh_serialize (E : Env) (self : Mesh.t) (filepath : string)
  (extension : string) : M (World (Disk E)) unit :=
  emit (SerializeMesh filepath self extension) ;;
  on_disk (serialize_mesh E filepath self extension).

(* ================================================================== *)
(** * handlers.py: the setters *)

(** A method that mutates [self]: the new state on success; on a raise the
    state is left as it was when the raise happened. *)
Definition update {S : Type} (f : S -> outcome S) : M S unit :=
  fun s =>
    match f s with
    | Ok s' => (Ok tt, s')
    | Raise e => (Raise e, s)
    end.

(** Evaluate a property of [self]. *)
Definition ask {S A : Type} (f : S -> outcome A) : M S A :=
  fun s => (f s, s).

(** [PointCloud.set_df_from_vertices(vertices)]. *)
Definition PointCloud_set_df_from_vertices (self : PointCloud.t) (vertices : ndarray)
  : outcome PointCloud.t :=
  let? df := pandas.from_array vertices ["x"; "y"; "z"] in
  Ok (PointCloud.mk (Some df) (PointCloud.o3d_pcd self)).

(** [PointCloud.set_o3d_normals()]. *)
Definition PointCloud_set_o3d_normals (self : PointCloud.t) : outcome PointCloud.t :=
  match PointCloud.o3d_pcd self with
  | None => Raise (ValueError "Open3D Point Cloud is empty.")
  | Some o =>
      match PointCloud.df self with
      | None => Raise NoneType_not_subscriptable
      | Some d =>
          let? normals := pandas.select d NORMALS in
          Ok (PointCloud.mk (PointCloud.df self)
                (Some (mk_o3d_PointCloud (o3d_points o) (o3d_colors o)
                         (pandas.to_numpy normals))))
      end
  end.

(** The first statement of [set_o3d_pcd_from_df]: a new Open3D cloud holding
    the points only. *)
Definition PointCloud_new_o3d_pcd (self : PointCloud.t) : outcome PointCloud.t :=
  match PointCloud.df self with
  | None => Raise NoneType_not_subscriptable
  | Some d =>
      let? xyz := pandas.select d ["x"; "y"; "z"] in
      Ok (PointCloud.mk (PointCloud.df self)
            (Some (mk_o3d_PointCloud (pandas.to_numpy xyz) [] [])))
  end.

(** [PointCloud.set_o3d_pcd_from_df()]. *)
Definition PointCloud_set_o3d_pcd_from_df : M PointCloud.t unit :=
  update PointCloud_new_o3d_pcd ;;
  has_colors <- ask PointCloud.has_colors ;;
  (if has_colors : bool then update PointCloud.set_o3d_colors else ret tt) ;;
  has_normals <- ask PointCloud.has_normals ;;
  (if has_normals : bool then update PointCloud_set_o3d_normals else ret tt).

(** [Mesh.set_df_from_vertices(vertices)]. *)
Definition Mesh_set_df_from_vertices (self : Mesh.t) (vertices : ndarray)
  : outcome Mesh.t :=
  let? df := pandas.from_array vertices ["p1"; "p2"; "p3"] in
  Ok (Mesh.mk (Mesh.pcd self) (Some df) (Mesh.o3d_mesh self)
        (Mesh.image_texture_path self)).

(** [Mesh.set_df_uvs(uvs)]; [self.df.shape] on an unassigned face table is
    an AttributeError. *)
Definition Mesh_set_df_uvs (self : Mesh.t) (uvs : ndarray) : outcome Mesh.t :=
  match Mesh.df self with
  | None =>
      Raise (ExternalError "AttributeError: 'NoneType' object has no attribute 'shape'")
  | Some d =>
      if negb (fst (ndarray_shape uvs) =? fst (pandas.shape d))%nat then
        Raise (ValueError
                 ("Inconsistent number of triangles between triangle vertex indexes ("
                  ++ str (fst (pandas.shape d)) ++ " triangles) and uvs ("
                  ++ str (fst (ndarray_shape uvs)) ++ " data)."))
      else if negb (snd (ndarray_shape uvs) =? 6)%nat then
        Raise (ValueError
                 ("UVs should be a numpy ndarray or a list of list with exactly 6 columns "
                  ++ "(3 vertices associated to a pair of image texture coordinates (row, col). "
                  ++ "Here found " ++ str (snd (ndarray_shape uvs)) ++ "."))
      else
        let? d' := pandas.setitem d UVS uvs in
        Ok (Mesh.mk (Mesh.pcd self) (Some d') (Mesh.o3d_mesh self)
              (Mesh.image_texture_path self))
  end.

(** [Mesh.set_o3d_vertex_normals()]. *)
Definition Mesh_set_o3d_vertex_normals (self : Mesh.t) : outcome Mesh.t :=
  match Mesh.o3d_mesh self with
  | None => Raise (ValueError "Could not set df from open3d mesh because it is empty.")
  | Some o =>
      match PointCloud.df (Mesh.pcd self) with
      | None => Raise NoneType_not_subscriptable
      | Some d =>
          let? normals := pandas.select d NORMALS in
          Ok (Mesh.mk (Mesh.pcd self) (Mesh.df self)
                (Some (mk_o3d_TriangleMesh (o3d_vertices o) (o3d_triangles o)
                         (o3d_vertex_colors o) (pandas.to_numpy normals)
                         (o3d_triangle_uvs o) (o3d_textures o)))
                (Mesh.image_texture_path self))
      end
  end.

(* ================================================================== *)
(** * filter.py *)

Module filter.

(** [point_cloud_handling.serialize_point_cloud(path, df_pcd)]. *)
Definition debug_serialize (E : Env) (path : string) (df_pcd : pandas.DataFrame)
  : M (World (Disk E)) unit :=
  emit (SerializePointCloud path (Some df_pcd) None) ;;
  on_disk (serialize_point_cloud E path (Some df_pcd) None).

(** A bare [raise] outside an [except] block. *)
Definition bare_raise : PyError :=
  RuntimeError "No active exception to reraise".

(** Lines 84-100, shared word for word by the two Open3D filters (lines
    207-223): keep the valid points, refuse an empty result, optionally dump
    the cloud, return it. *)
Definition keep_valid_points (E : Env) (df_pcd : pandas.DataFrame)
  (ind_valid_pts : list Z) (serialize : bool) (dump : string)
  : M (World (Disk E)) pandas.DataFrame :=
  df_pcd <- lift (pandas.loc df_pcd ind_valid_pts) ;;
  (if pandas.empty df_pcd then
     logger ERROR "Point cloud output by the outlier filtering step is empty." ;;
     raise bare_raise
   else ret tt) ;;
  (if serialize then debug_serialize E dump df_pcd else ret tt) ;;
  ret df_pcd.

Definition radius_filtering_outliers_o3 (E : Env) (df_pcd : pandas.DataFrame)
  (radius : Q) (nb_points : Z) (serialize : bool)
  : M (World (Disk E)) pandas.DataFrame :=
  data <- lift (pandas.select df_pcd ["x"; "y"; "z"]) ;;
  let data := pandas.to_numpy data in
  ind_valid_pts <- lift (remove_radius_outlier E data nb_points radius) ;;
  keep_valid_points E df_pcd ind_valid_pts serialize
    "/home/data/radiuso3dpyramidedekmin_04.las".

Definition statistical_filtering_outliers_o3d (E : Env) (df_pcd : pandas.DataFrame)
  (nb_neighbors : Z) (std_factor : Q) (serialize : bool)
  : M (World (Disk E)) pandas.DataFrame :=
  data <- lift (pandas.select df_pcd ["x"; "y"; "z"]) ;;
  let data := pandas.to_numpy data in
  ind_valid_pts <- lift (remove_statistical_outlier E data nb_neighbors std_factor) ;;
  keep_valid_points E df_pcd ind_valid_pts serialize
    "/home/data/statso3dpyramide.las".

Definition Qsum (l : list Q) : Q := fold_left Qplus l 0%Q.

(** What the loop of [local_density_analysis] accumulates. *)
Record density_acc : Type := mk_acc {
  remove_pts : list nat;
  moy : list numpy.float64;
  deltas : list Q
}.

(** One turn of the loop (lines 254-269) for the point [idx]. *)
Definition density_step (E : Env) (cloud_xyz : list (list Q)) (nb_neighbors : Z)
  (acc : density_acc) (idx : nat) (point : list Q) : outcome density_acc :=
  let? distances := KDTree_query E cloud_xyz point nb_neighbors in
  let mean_neighbors_distances :=
    numpy.true_divide (Qsum distances) (inject_Z nb_neighbors) in
  if (nb_neighbors =? 0)%Z then Raise (ZeroDivisionError "division by zero")
  else
    let ratio d :=
      match mean_neighbors_distances with
      | numpy.finite m => numpy.true_divide (- d) m
      | _ => numpy.nan
      end in
    let density :=
      numpy.fscale (1 / inject_Z nb_neighbors)
        (numpy.fsum (map (fun d => numpy.exp (np_exp E) (ratio d)) distances)) in
    let proba := numpy.one_minus density in
    let delta :=
      match mean_neighbors_distances with
      | numpy.finite m => ((1 # 10) * m)%Q
      | _ => 0%Q
      end in
    Ok (mk_acc
          (if numpy.gt proba (6 # 10) then remove_pts acc ++ [idx] else remove_pts acc)
          (moy acc ++ [proba])
          (deltas acc ++ [delta])).

Fixpoint density_loop (E : Env) (cloud_xyz : list (list Q)) (nb_neighbors : Z)
  (acc : density_acc) (idx : nat) (todo : list (list Q)) : outcome density_acc :=
  match todo with
  | [] => Ok acc
  | point :: todo' =>
      let? acc' := density_step E cloud_xyz nb_neighbors acc idx point in
      density_loop E cloud_xyz nb_neighbors acc' (S idx) todo'
  end.

(** [sum(l) / len(l)] on Python numbers. *)
Definition average (l : list numpy.float64) : outcome numpy.float64 :=
  match l with
  | [] => Raise (ZeroDivisionError "division by zero")
  | _ => Ok (numpy.fscale (1 / inject_Z (Z.of_nat (length l))) (numpy.fsum l))
  end.

(** The function ends without a [return]: its value is Python's [None],
    rendered by [None] of the option type. *)
Definition local_density_analysis (E : Env) (df_pcd : pandas.DataFrame)
  (nb_neighbors : Z) (serialize : bool)
  : M (World (Disk E)) (option pandas.DataFrame) :=
  cloud_xyz <- lift (pandas.select df_pcd ["x"; "y"; "z"]) ;;
  let cloud_xyz := pandas.to_numpy cloud_xyz in
  acc <- lift (density_loop E cloud_xyz nb_neighbors (mk_acc [] [] []) 0 cloud_xyz) ;;
  labels <- lift (pandas.labels_at (pandas.rows df_pcd) (remove_pts acc)) ;;
  let df_pcd := pandas.drop df_pcd labels in
  m <- lift (average (moy acc)) ;;
  print "" m ;;
  d <- lift (average (map numpy.finite (deltas acc))) ;;
  print "delta" d ;;
  (if serialize then debug_serialize E "/home/data/localdensity4.las" df_pcd
   else ret tt) ;;
  ret None.

End filter.

(* ================================================================== *)
(** * mesh3d_reconstruct.py *)

Module mesh3d_reconstruct.

Definition intermediate_folder (cfg : Cfg) : string :=
  os_path.join (output_dir cfg) "intermediate_results".

Definition intermediate_filepath (cfg : Cfg) (k : nat) (step : Step) : string :=
  os_path.join (intermediate_folder cfg)
    (zfill (str (k + 1)) 2 ++ "_" ++ action step ++ "_" ++ method step).

Definition nonempty {A : Type} (l : list A) : bool :=
  match l with [] => false | _ => true end.

(** Lines 74-111: the intermediate results of step [k], once the machine
    holds the step's output. *)
Definition save_intermediate (E : Env) (cfg : Cfg) (k : nat) (step : Step)
  (mesh3d_machine : Machine E) : M (World (Disk E)) unit :=
  makedirs E (intermediate_folder cfg) ;;
  (if (k =? 0)%nat then
     entries <- listdir E (intermediate_folder cfg) ;;
     if nonempty entries then
       logger WARNING ("Directory '" ++ intermediate_folder cfg ++ "' is not empty. "
                       ++ "Some files might be overwritten.")
     else ret tt
   else ret tt) ;;
  extension <-
    (match Mesh.df (mesh_data E mesh3d_machine) with
     | Some _ =>
         let extension := "ply" in
         Mesh_serialize E (mesh_data E mesh3d_machine)
           (intermediate_filepath cfg k step ++ "." ++ extension) extension ;;
         ret extension
     | None =>
         let extension := "laz" in
         PointCloud_serialize E (Mesh.pcd (mesh_data E mesh3d_machine))
           (intermediate_filepath cfg k step ++ "." ++ extension) (Some extension) ;;
         ret extension
     end) ;;
  logger DEBUG ("Step #" ++ str (k + 1) ++ ": Results saved in '"
                ++ intermediate_filepath cfg k step ++ "." ++ extension ++ "'.").

(** One turn of the loop of [run] (lines 63-111). *)
Definition run_step (E : Env) (cfg : Cfg) (k : nat) (step : Step)
  (mesh3d_machine : Machine E) : M (World (Disk E)) (Machine E) :=
  logger INFO ("Step #" ++ str (k + 1) ++ ": " ++ action step ++ " with "
               ++ method step ++ " method") ;;
  mesh3d_machine <- ext (machine_run E mesh3d_machine step cfg) ;;
  (match save_output step with
   | Some true => save_intermediate E cfg k step mesh3d_machine
   | _ => ret tt
   end) ;;
  ret mesh3d_machine.

(** [for k, step in enumerate(cfg["state_machine"])], from index [k] on. *)
Fixpoint run_steps (E : Env) (cfg : Cfg) (k : nat) (steps : list Step)
  (mesh3d_machine : Machine E) : M (World (Disk E)) (Machine E) :=
  match steps with
  | [] => ret mesh3d_machine
  | step :: steps' =>
      mesh3d_machine <- run_step E cfg k step mesh3d_machine ;;
      run_steps E cfg (S k) steps' mesh3d_machine
  end.

(** [run(mesh3d_machine, cfg)].  The machine is a mutable object the caller
    keeps a reference to: the result pairs the machine as the call leaves it
    with the returned [mesh3d_machine.mesh_data]. *)
Definition run (E : Env) (mesh3d_machine : Machine E) (cfg : Cfg)
  : M (World (Disk E)) (Machine E * Mesh.t) :=
  mesh3d_machine <-
    (match state_machine cfg with
     | [] =>
         logger WARNING "State machine is empty. Returning the initial data." ;;
         ret mesh3d_machine
     | _ =>
         logger DEBUG ("Initial state: " ++ machine_initial_state E mesh3d_machine) ;;
         ext (check_transitions E mesh3d_machine cfg) ;;
         run_steps E cfg 0 (state_machine cfg) mesh3d_machine
     end) ;;
  ret (mesh3d_machine, mesh_data E mesh3d_machine).

(** Lines 159-182 of [main]: the final serialisation of [out_mesh]. *)
Definition serialize_output (E : Env) (cfg : Cfg) (out_mesh : Mesh.t)
  : M (World (Disk E)) unit :=
  let output_name :=
    match output_name cfg with
    | None => "output_mesh3d"
    | Some n => n
    end in
  let extension := if Mesh.is_not_None (Mesh.df out_mesh) then "ply" else "laz" in
  let out_filename := (output_name ++ "." ++ extension)%string in
  if Mesh.is_not_None (Mesh.df out_mesh) then
    Mesh_serialize E out_mesh (os_path.join (output_dir cfg) out_filename) extension ;;
    logger INFO ("Mesh serialized as a '" ++ extension ++ "' file")
  else
    PointCloud_serialize E (Mesh.pcd out_mesh)
      (os_path.join (output_dir cfg) out_filename) (Some extension) ;;
    logger INFO ("Point cloud serialized as a '" ++ extension ++ "' file").

Definition main (E : Env) (cfg_path : string) : M (World (Disk E)) unit :=
  cfg <- ext (check_config E cfg_path) ;;
  let cfg := mkCfg (input_path cfg) (os_path_abspath E (output_dir cfg))
               (output_name cfg) (initial_state cfg) (state_machine cfg) in
  makedirs E (output_dir cfg) ;;
  ext (save_config_file E
         (os_path.join (output_dir cfg) (os_path_basename E cfg_path)) cfg) ;;
  ext (logger_add E (os_path.join (output_dir cfg) "{time}_logs.txt")) ;;
  logger INFO "Configuration file checked." ;;
  mesh <- ext (read_input_path E (input_path cfg)) ;;
  let mesh3d_machine := Mesh3DMachine E mesh (initial_state cfg) in
  r <- run E mesh3d_machine cfg ;;
  let out_mesh := snd r in
  serialize_output E cfg out_mesh.

End mesh3d_reconstruct.

(* ================================================================== *)
(** * mesh_io.py (package mesh_3d) *)

Module mesh_io.

(** [s.split(sep)] for a one-character separator. *)
Fixpoint split (sep : ascii) (s : string) : list string :=
  match s with
  | EmptyString => [EmptyString]
  | String c s' =>
      if Ascii.eqb c sep then EmptyString :: split sep s'
      else
        match split sep s' with
        | h :: t => String c h :: t
        | [] => [String c EmptyString]
        end
  end.

(** [filepath.split(".")[-1]]. *)
Definition extension_of (filepath : string) : string :=
  last (split "." filepath) EmptyString.

(** [s[:-n]]. *)
Definition drop_last (n : nat) (s : string) : string :=
  String.substring 0 (String.length s - n) s.

(** [a.astype(np.int64)] on one finite value: truncation towards zero. *)
Definition astype_int64 (q : Q) : Q :=
  inject_Z (Z.quot (Qnum q) (Z.pos (Qden q))).

(** The file functions of Open3D and of [point_cloud_io] the module calls. *)
Record IO (Disk : Type) : Type := mkIO {
  o3d_io_write_triangle_mesh : string -> o3d_TriangleMesh -> bool -> M Disk unit;
  o3d_io_read_triangle_mesh : string -> Disk -> o3d_TriangleMesh;
  pcd_io_df2csv : string -> option pandas.DataFrame -> M Disk unit;
  deserialize_point_cloud : string -> Disk -> outcome pandas.DataFrame
}.

Arguments o3d_io_write_triangle_mesh {Disk} i.
Arguments o3d_io_read_triangle_mesh {Disk} i.
Arguments pcd_io_df2csv {Disk} i.
Arguments deserialize_point_cloud {Disk} i.

(** [mesh2o3d(mesh)]. *)
Definition mesh2o3d (mesh : Mesh.t) : outcome o3d_TriangleMesh :=
  match PointCloud.df (Mesh.pcd mesh) with
  | None => Raise NoneType_not_subscriptable
  | Some pcd =>
      let? vertices := pandas.select pcd ["x"; "y"; "z"] in
      match Mesh.df mesh with
      | None => Raise NoneType_not_subscriptable
      | Some faces =>
          let? triangles := pandas.select faces ["p1"; "p2"; "p3"] in
          Ok (mk_o3d_TriangleMesh (pandas.to_numpy vertices)
                (map (map astype_int64) (pandas.to_numpy triangles)) [] [] [] [])
      end
  end.

(** [write_triangle_mesh_o3d(filepath, mesh, compressed)] for a [Mesh]
    (the branch for a dict is not embedded). *)
Definition write_triangle_mesh_o3d {Disk : Type} (io : IO Disk) (filepath : string)
  (mesh : Mesh.t) (compressed : bool) : M Disk unit :=
  o3d_mesh <- lift (mesh2o3d mesh) ;;
  o3d_io_write_triangle_mesh io filepath o3d_mesh compressed.

(** [mesh2ply(filepath, mesh)]. *)
Definition mesh2ply {Disk : Type} (io : IO Disk) (filepath : string) (mesh : Mesh.t)
  : M Disk unit :=
  if negb (String.eqb (extension_of filepath) "ply") then
    raise (ValueError ("Filepath extension should be '.ply', but found: '"
                       ++ extension_of filepath ++ "'."))
  else
    let filepath_mesh := (drop_last 4 filepath ++ "_mesh.ply")%string in
    write_triangle_mesh_o3d io filepath_mesh mesh true.

(** [serialize_mesh(filepath, mesh, extension)]. *)
Definition serialize_mesh {Disk : Type} (io : IO Disk) (filepath : string)
  (mesh : Mesh.t) (extension : string) : M Disk unit :=
  if negb (String.eqb (extension_of filepath) extension) then
    raise (ValueError ("Filepath extension ('" ++ extension_of filepath
                       ++ "') is inconsistent with the extension asked ('"
                       ++ extension ++ "')."))
  else if String.eqb extension "ply" then mesh2ply io filepath mesh
  else if String.eqb extension "csv" then pcd_io_df2csv io filepath (Mesh.df mesh)
  else raise NotImplementedError.

(** [ply2mesh(filepath)]: the face table is built from the (n, 3) array of
    the triangles with the single label "p1, p2, p3". *)
Definition ply2mesh {Disk : Type} (io : IO Disk) (filepath : string) (d : Disk)
  : outcome Mesh.t :=
  if negb (String.eqb (extension_of filepath) "ply") then
    Raise (ValueError ("Filepath extension should be '.ply', but found: '"
                       ++ extension_of filepath ++ "'."))
  else
    let out := Mesh.init None None None None in
    let? pcd_df := deserialize_point_cloud io filepath d in
    let out := Mesh.mk (PointCloud.mk (Some pcd_df) (PointCloud.o3d_pcd (Mesh.pcd out)))
                 (Mesh.df out) (Mesh.o3d_mesh out) (Mesh.image_texture_path out) in
    let? faces :=
      pandas.from_array
        (mk_ndarray 3 (o3d_triangles (o3d_io_read_triangle_mesh io filepath d)))
        ["p1, p2, p3"] in
    Ok (Mesh.mk (Mesh.pcd out) (Some faces) (Mesh.o3d_mesh out)
          (Mesh.image_texture_path out)).

(** [deserialize_mesh(filepath)]. *)
Definition deserialize_mesh {Disk : Type} (io : IO Disk) (filepath : string) (d : Disk)
  : outcome Mesh.t :=
  let extension := extension_of filepath in
  if String.eqb extension "ply" then ply2mesh io filepath d
  else Raise NotImplementedError.

End mesh_io.

(* ================================================================== *)
(** * Concrete instances *)

Module Examples.

(** A disk that is the list of the paths written so far, codecs that write at
    the path they are given, an Open3D that keeps the points listed in
    [valid], a KD-tree whose neighbours are all at distance 1, and a machine
    that holds its mesh and leaves it as it is. *)
Definition toy (valid : list Z) : Env := {|
  Disk := list string;
  Machine := Mesh.t;
  os_makedirs := fun _ d => (Ok tt, d);
  os_listdir := fun path d => Ok (filter (String.prefix (path ++ "/")) d);
  os_path_abspath := fun p => p;
  os_path_basename := fun p => p;
  serialize_mesh := fun filepath _ _ d => (Ok tt, filepath :: d);
  serialize_point_cloud := fun filepath _ _ d => (Ok tt, filepath :: d);
  read_input_path := fun _ d => (Ok (Mesh.init None None None None), [], d);
  remove_radius_outlier := fun _ _ _ => Ok valid;
  remove_statistical_outlier := fun _ _ _ => Ok valid;
  KDTree_query := fun _ _ k => Ok (repeat 1%Q (Z.to_nat k));
  np_exp := fun _ => (1 # 3)%Q;
  Mesh3DMachine := fun mesh _ => mesh;
  mesh_data := fun m => m;
  machine_initial_state := fun _ => "initial_state";
  check_transitions := fun _ _ d => (Ok tt, [], d);
  machine_run := fun m _ _ d => (Ok m, [], d);
  check_config := fun _ d => (Raise (ExternalError "no configuration"), [], d);
  save_config_file := fun _ _ d => (Ok tt, [], d);
  logger_add := fun _ d => (Ok tt, [], d)
|}.

(** The same, with a validation and a step method of one's choice. *)
Definition toy_with
  (check : Mesh.t -> Cfg -> Ext (list string) unit)
  (step : Mesh.t -> Step -> Cfg -> Ext (list string) Mesh.t) : Env := {|
  Disk := list string;
  Machine := Mesh.t;
  os_makedirs := os_makedirs (toy []);
  os_listdir := os_listdir (toy []);
  os_path_abspath := os_path_abspath (toy []);
  os_path_basename := os_path_basename (toy []);
  serialize_mesh := serialize_mesh (toy []);
  serialize_point_cloud := serialize_point_cloud (toy []);
  read_input_path := read_input_path (toy []);
  remove_radius_outlier := remove_radius_outlier (toy []);
  remove_statistical_outlier := remove_statistical_outlier (toy []);
  KDTree_query := KDTree_query (toy []);
  np_exp := np_exp (toy []);
  Mesh3DMachine := fun mesh _ => mesh;
  mesh_data := fun m => m;
  machine_initial_state := fun _ => "initial_pcd";
  check_transitions := check;
  machine_run := step;
  check_config := check_config (toy []);
  save_config_file := save_config_file (toy []);
  logger_add := logger_add (toy [])
|}.

(** A validation that refuses every configuration. *)
Definition refusing : Env :=
  toy_with
    (fun _ _ d => (Raise (ValueError "invalid transition"),
                   [Log ERROR "invalid transition"], d))
    (fun m _ _ d => (Ok m, [], d)).

(** A machine whose method "poisson" raises. *)
Definition fragile : Env :=
  toy_with
    (fun _ _ d => (Ok tt, [], d))
    (fun m step _ d =>
       if String.eqb (method step) "poisson"
       then (Raise (RuntimeError "poisson failed"), [Log ERROR "poisson failed"], d)
       else (Ok m, [], d)).

(** The toy collaborators once the configuration file holds [cfg] and the
    input file holds [mesh]. *)
Definition configured (cfg : Cfg) (mesh : Mesh.t) : Env := {|
  Disk := list string;
  Machine := Mesh.t;
  os_makedirs := os_makedirs (toy []);
  os_listdir := os_listdir (toy []);
  os_path_abspath := os_path_abspath (toy []);
  os_path_basename := os_path_basename (toy []);
  serialize_mesh := serialize_mesh (toy []);
  serialize_point_cloud := serialize_point_cloud (toy []);
  read_input_path := fun _ d => (Ok mesh, [Log DEBUG "input read"], d);
  remove_radius_outlier := remove_radius_outlier (toy []);
  remove_statistical_outlier := remove_statistical_outlier (toy []);
  KDTree_query := KDTree_query (toy []);
  np_exp := np_exp (toy []);
  Mesh3DMachine := fun mesh _ => mesh;
  mesh_data := fun m => m;
  machine_initial_state := fun _ => "initial_pcd";
  check_transitions := check_transitions (toy []);
  machine_run := machine_run (toy []);
  check_config := fun _ d => (Ok cfg, [], d);
  save_config_file := fun path _ d => (Ok tt, [], path :: d);
  logger_add := logger_add (toy [])
|}.

(** File functions that record the path they write at and read nothing. *)
Definition recording : mesh_io.IO (list string) := {|
  mesh_io.o3d_io_write_triangle_mesh := fun filepath _ _ d => (Ok tt, filepath :: d);
  mesh_io.o3d_io_read_triangle_mesh := fun _ _ => mk_o3d_TriangleMesh [] [] [] [] [] [];
  mesh_io.pcd_io_df2csv := fun filepath _ d => (Ok tt, filepath :: d);
  mesh_io.deserialize_point_cloud :=
    fun _ _ => Ok (pandas.mkDataFrame ["x"; "y"; "z"] [])
|}.

(** Two points; the red channel is constant, green and blue span 0..10. *)
Definition flat_red : pandas.DataFrame :=
  pandas.mkDataFrame ["x"; "y"; "z"; "red"; "green"; "blue"]
    [ (0%Z, [0; 0; 0; 5; 0; 0]%Q);
      (1%Z, [1; 1; 1; 5; 10; 10]%Q) ].

(** One point whose colours span more than a float64 can hold: red is
    -1e308, green 0, blue 1e308. *)
Definition wide : pandas.DataFrame :=
  pandas.mkDataFrame ["x"; "y"; "z"; "red"; "green"; "blue"]
    [ (0%Z, [0; 0; 0; inject_Z (- 10 ^ 308); 0; inject_Z (10 ^ 308)]%Q) ].

(** Three points without any optional attribute. *)
Definition xyz_only : pandas.DataFrame :=
  pandas.mkDataFrame ["x"; "y"; "z"]
    [ (0%Z, [0; 0; 0]%Q); (1%Z, [1; 0; 0]%Q); (2%Z, [0; 1; 0]%Q) ].

(** Two points whose only colour is the near infrared. *)
Definition nir_only : pandas.DataFrame :=
  pandas.mkDataFrame ["x"; "y"; "z"; "nir"]
    [ (0%Z, [0; 0; 0; 7]%Q); (1%Z, [1; 1; 1; 9]%Q) ].

(** Two triangles over four vertices, as an array. *)
Definition two_triangles : ndarray :=
  mk_ndarray 3 [ [0; 1; 2]%Q; [1; 2; 3]%Q ].

(** Their texture coordinates, one row of six per triangle. *)
Definition two_triangles_uvs : ndarray :=
  mk_ndarray 6 [ [0; 0; 1; 0; 0; 1]%Q; [1; 0; 1; 1; 0; 1]%Q ].

(** The face table of [two_triangles]. *)
Definition two_faces : pandas.DataFrame :=
  pandas.mkDataFrame ["p1"; "p2"; "p3"]
    [ (0%Z, [0; 1; 2]%Q); (1%Z, [1; 2; 3]%Q) ].

(** A cloud that lost its z column. *)
Definition no_z : pandas.DataFrame :=
  pandas.mkDataFrame ["x"; "y"; "red"]
    [ (0%Z, [0; 0; 5]%Q); (1%Z, [1; 0; 6]%Q) ].

(** A face table with the triangle columns and no row. *)
Definition no_faces : pandas.DataFrame :=
  pandas.mkDataFrame ["p1"; "p2"; "p3"] [].

(** One triangle with its texture coordinates. *)
Definition textured_faces : pandas.DataFrame :=
  pandas.mkDataFrame
    ["p1"; "p2"; "p3"; "uv1_row"; "uv1_col"; "uv2_row"; "uv2_col"; "uv3_row"; "uv3_col"]
    [ (0%Z, [0; 1; 2; 0; 0; 1; 0; 0; 1]%Q) ].

Definition empty_o3d_pcd : o3d_PointCloud := mk_o3d_PointCloud [] [] [].
Definition empty_o3d_mesh : o3d_TriangleMesh := mk_o3d_TriangleMesh [] [] [] [] [] [].

(** A mesh over [xyz_only] whose face table is [no_faces]. *)
Definition faceless_mesh : Mesh.t :=
  Mesh.init (Some xyz_only) (Some no_faces) None None.

(** A point cloud carried by a mesh handler: no face table at all. *)
Definition cloud_only : Mesh.t :=
  Mesh.init (Some xyz_only) None None None.

Definition filter_radius (save : option bool) : Step :=
  mkStep "filter" "radius_o3d" [] save.

Definition cfg_of (steps : list Step) : Cfg :=
  mkCfg "/in/cloud.laz" "/out" None "initial_pcd" steps.

Definition filter_statistical (save : option bool) : Step :=
  mkStep "filter" "statistical_o3d" [] save.

(** A machine whose method "delaunay_2d" turns what it holds into the mesh
    of [two_faces] over [xyz_only]. *)
Definition meshing : Env :=
  toy_with
    (fun _ _ d => (Ok tt, [], d))
    (fun m step _ d =>
       if String.eqb (method step) "delaunay_2d"
       then (Ok (Mesh.init (Some xyz_only) (Some two_faces) None None),
             [Log DEBUG "meshed"], d)
       else (Ok m, [], d)).

Definition mesh_delaunay (save : option bool) : Step :=
  mkStep "mesh" "delaunay_2d" [] save.

(** Nothing logged yet, nothing on the disk. *)
Definition fresh : World (list string) := mkWorld [] [].

(** Nothing logged yet; the folder of the intermediate results holds a file
    of an earlier run. *)
Definition used : World (list string) :=
  mkWorld [] ["/out/intermediate_results/01_filter_radius_o3d.laz"].

End Examples.

(* ================================================================== *)
(** * Properties of the handlers *)

Section FrameFacts.

Variable d : pandas.DataFrame.

Lemma contains_head (c : string) :
  pandas.contains (pandas.head d) c = pandas.contains d c.
Proof. reflexivity. Qed.

Lemma contains_In (c : string) :
  pandas.contains d c = true <-> In c (pandas.columns d).
Proof.
  unfold pandas.contains. rewrite existsb_exists. split.
  - intros [c' [Hin Heq]]. apply String.eqb_eq in Heq. now subst.
  - intros Hin. exists c. split; [assumption | apply String.eqb_refl].
Qed.

Lemma any_contains (names : list string) :
  existsb (fun c => pandas.contains (pandas.head d) c) names = true
  <-> exists c, In c names /\ In c (pandas.columns d).
Proof.
  rewrite existsb_exists. split; intros [c [H1 H2]]; exists c; split; trivial;
    rewrite contains_head in *; now apply contains_In.
Qed.

Lemma all_contains (names : list string) :
  forallb (fun c => pandas.contains (pandas.head d) c) names = true
  <-> forall c, In c names -> In c (pandas.columns d).
Proof.
  rewrite forallb_forall. split; intros H c Hc; specialize (H c Hc);
    rewrite contains_head in *; now apply contains_In.
Qed.

Lemma empty_no_rows :
  pandas.rows d = [] -> pandas.empty d = true.
Proof. unfold pandas.empty, pandas.shape. intros ->. reflexivity. Qed.

Lemma not_empty_rows :
  pandas.empty d = false -> pandas.rows d <> [].
Proof. intros H Hr. apply empty_no_rows in Hr. congruence. Qed.

Lemma not_empty_iff :
  pandas.columns d <> [] ->
  (pandas.empty d = false <-> pandas.rows d <> []).
Proof.
  intros Hc. split; [apply not_empty_rows|].
  unfold pandas.empty, pandas.shape; simpl.
  destruct (pandas.rows d), (pandas.columns d); simpl; congruence.
Qed.

End FrameFacts.

(** C1.  For a point cloud whose frame is assigned, [has_colors] answers, and
    answers true exactly when one of red, green, blue, nir is a column;
    [has_normals] answers, and answers true exactly when n_x, n_y and n_z all
    are columns; a cloud built over a frame with none of these columns has
    neither colours nor normals. *)
Theorem has_colors_any_has_normals_all :
  forall (d : pandas.DataFrame) (o : option o3d_PointCloud),
    let pc := PointCloud.init (Some d) o in
    (exists b, PointCloud.has_colors pc = Ok b /\
               (b = true <-> exists c, In c COLORS /\ In c (pandas.columns d)))
    /\ (exists b, PointCloud.has_normals pc = Ok b /\
                  (b = true <-> forall n, In n NORMALS -> In n (pandas.columns d)))
    /\ ((forall c, In c (COLORS ++ NORMALS) -> ~ In c (pandas.columns d)) ->
        PointCloud.has_colors pc = Ok false /\ PointCloud.has_normals pc = Ok false).
Proof.
  intros d o pc. repeat split.
  - eexists. split; [reflexivity | apply any_contains].
  - eexists. split; [reflexivity | apply all_contains].
  - cbv beta iota delta [pc PointCloud.has_colors PointCloud.init PointCloud.df]. f_equal.
    apply not_true_is_false. intros Hany. apply any_contains in Hany.
    destruct Hany as [c [Hc Hin]]. apply (H c); [apply in_or_app; now left | exact Hin].
  - cbv beta iota delta [pc PointCloud.has_normals PointCloud.init PointCloud.df]. f_equal.
    apply not_true_is_false. intros Hall.
    assert (Hn : In "n_x" (pandas.columns d)).
    { apply (proj1 (all_contains d NORMALS) Hall). simpl; auto. }
    apply (H "n_x"); [apply in_or_app; right; simpl; auto | exact Hn].
Qed.

(** A cloud built over [xyz_only] has neither colours nor normals. *)
Lemma xyz_only_has_no_colors_no_normals :
  PointCloud.has_colors (PointCloud.init (Some Examples.xyz_only) None) = Ok false
  /\ PointCloud.has_normals (PointCloud.init (Some Examples.xyz_only) None) = Ok false.
Proof.
  apply (proj2 (proj2 (has_colors_any_has_normals_all Examples.xyz_only None))).
  intros c Hc Hin. simpl in Hc, Hin.
  destruct Hin as [<-|[<-|[<-|[]]]];
    repeat (destruct Hc as [Hc|Hc]; [discriminate Hc|]); exact Hc.
Defined.

(** C2.  For a mesh whose face table is assigned, [has_texture] answers, and
    answers true exactly when the image texture path is set, the six UV
    columns are present and the face table has a row; it is false as soon as
    one of the three fails. *)
Theorem has_texture_iff_path_uvs_faces :
  forall (pcd : PointCloud.t) (d : pandas.DataFrame)
         (o : option o3d_TriangleMesh) (path : option string),
    let m := Mesh.mk pcd (Some d) o path in
    exists b, Mesh.has_texture m = Ok b
      /\ (b = true <->
          path <> None
          /\ (forall c, In c UVS -> In c (pandas.columns d))
          /\ pandas.rows d <> [])
      /\ (path = None -> b = false)
      /\ ((exists c, In c UVS /\ ~ In c (pandas.columns d)) -> b = false)
      /\ (pandas.rows d = [] -> b = false).
Proof.
  intros pcd d o path m. eexists. split; [reflexivity|].
  simpl Mesh.image_texture_path.
  assert (Hiff :
    Mesh.is_not_None path
    && forallb (fun el => pandas.contains (pandas.head d) el) UVS
    && negb (pandas.empty d) = true
    <-> path <> None /\ (forall c, In c UVS -> In c (pandas.columns d))
        /\ pandas.rows d <> []).
  { rewrite !andb_true_iff, all_contains, negb_true_iff. split.
    - intros [[Hp Hu] He]. repeat split; trivial.
      + destruct path; [discriminate | discriminate Hp].
      + now apply not_empty_rows.
    - intros [Hp [Hu Hr]]. repeat split; trivial.
      + destruct path; [reflexivity | congruence].
      + apply not_empty_iff; trivial.
        intros Hc. specialize (Hu "uv1_row"). rewrite Hc in Hu. apply Hu. simpl; auto. }
  split; [exact Hiff|].
  repeat split; intros H; apply not_true_is_false; intros Ht; apply Hiff in Ht;
    destruct Ht as [Hp [Hu Hr]].
  - contradiction.
  - destruct H as [c [Hc Hn]]. auto.
  - contradiction.
Qed.

(** A mesh over [textured_faces] with a texture path has a texture. *)
Lemma textured_faces_have_texture :
  Mesh.has_texture
    (Mesh.mk (PointCloud.init (Some Examples.xyz_only) None)
       (Some Examples.textured_faces) None (Some "texture.jpg"))
  = Ok true.
Proof.
  destruct (has_texture_iff_path_uvs_faces (PointCloud.init (Some Examples.xyz_only) None)
              Examples.textured_faces None (Some "texture.jpg")) as [b [Hb [Hiff _]]].
  rewrite Hb. f_equal. apply Hiff. split; [discriminate|]. split; [|discriminate].
  intros c Hc. simpl in Hc. simpl.
  repeat (destruct Hc as [<-|Hc]; [auto 10|]). contradiction.
Defined.

(** C10.  With no frame assigned, [has_colors], [has_normals] and
    [has_classes] raise the ValueError that says so, whatever the Open3D side
    holds; each of them yields a boolean exactly when a frame is assigned. *)
Theorem predicates_raise_when_unassigned :
  forall (pc : PointCloud.t),
    let unassigned := ValueError "Point cloud (pandas DataFrame) is not assigned." in
    (PointCloud.has_colors (PointCloud.mk None (PointCloud.o3d_pcd pc)) = Raise unassigned
     /\ PointCloud.has_normals (PointCloud.mk None (PointCloud.o3d_pcd pc)) = Raise unassigned
     /\ PointCloud.has_classes (PointCloud.mk None (PointCloud.o3d_pcd pc)) = Raise unassigned)
    /\ ((exists b, PointCloud.has_colors pc = Ok b) <-> PointCloud.df pc <> None)
    /\ ((exists b, PointCloud.has_normals pc = Ok b) <-> PointCloud.df pc <> None)
    /\ ((exists b, PointCloud.has_classes pc = Ok b) <-> PointCloud.df pc <> None).
Proof.
  intros [d o] unassigned. split; [repeat split|].
  unfold PointCloud.has_colors, PointCloud.has_normals, PointCloud.has_classes.
  simpl. destruct d as [d|]; repeat split;
    try (intros _; congruence); try (intros _; eexists; reflexivity);
    try (intros [b Hb]; discriminate Hb);
    intros H; exfalso; apply H; reflexivity.
Qed.

(** ** Guarded accessors *)

Lemma position_In (c : string) (cols : list string) :
  In c cols -> exists p, pandas.position c cols = Some p.
Proof.
  induction cols as [|c' cols IH]; simpl; [contradiction|].
  intros [->|Hin].
  - rewrite String.eqb_refl. now exists 0%nat.
  - destruct (String.eqb c c'); [now exists 0%nat|].
    destruct (IH Hin) as [p ->]. now exists (S p).
Qed.

Lemma position_Some_In (c : string) (cols : list string) (p : nat) :
  pandas.position c cols = Some p -> In c cols.
Proof.
  revert p. induction cols as [|c' cols IH]; simpl; [discriminate|].
  intros p. destruct (String.eqb c c') eqn:Heq.
  - apply String.eqb_eq in Heq. now left.
  - destruct (pandas.position c cols); [|discriminate]. intros _. right. now apply (IH n).
Qed.

Lemma positions_In (names cols : list string) :
  (forall c, In c names -> In c cols) ->
  exists ps, pandas.positions names cols = Ok ps.
Proof.
  induction names as [|c names IH]; intros H; simpl.
  - now exists [].
  - destruct (position_In c cols) as [p ->]; [apply H; now left|].
    destruct IH as [ps ->]; [intros c' Hc'; apply H; now right|].
    now exists (p :: ps).
Qed.

Lemma get_colors_guarded (pc : PointCloud.t) :
  PointCloud.has_colors pc = Ok false ->
  PointCloud.get_colors pc = Raise (ValueError "Point cloud has no color.").
Proof. unfold PointCloud.get_colors. now intros ->. Qed.

Lemma get_normals_guarded (pc : PointCloud.t) :
  PointCloud.has_normals pc = Ok false ->
  PointCloud.get_normals pc = Raise (ValueError "Point cloud has no normals.").
Proof. unfold PointCloud.get_normals. now intros ->. Qed.

Lemma get_triangle_uvs_guarded (m : Mesh.t) :
  Mesh.has_triangle_uvs m = Ok false ->
  Mesh.get_triangle_uvs m = Raise (ValueError "Mesh has no triangle uvs.").
Proof. unfold Mesh.get_triangle_uvs. now intros ->. Qed.

(** X1.  The accessors that are guarded: [get_colors], [get_normals] and
    [get_triangle_uvs] raise their own ValueError as soon as the predicate
    they test is false. *)
Theorem guarded_accessors_raise :
  forall (pc : PointCloud.t) (m : Mesh.t),
    (PointCloud.has_colors pc = Ok false ->
     PointCloud.get_colors pc = Raise (ValueError "Point cloud has no color."))
    /\ (PointCloud.has_normals pc = Ok false ->
        PointCloud.get_normals pc = Raise (ValueError "Point cloud has no normals."))
    /\ (Mesh.has_triangle_uvs m = Ok false ->
        Mesh.get_triangle_uvs m = Raise (ValueError "Mesh has no triangle uvs.")).
Proof.
  intros pc m. repeat split.
  - apply get_colors_guarded.
  - apply get_normals_guarded.
  - apply get_triangle_uvs_guarded.
Qed.

(** C3.  [get_triangles] has no guard: on the mesh [faceless_mesh], whose
    face table has the columns p1, p2, p3 and no row, [has_triangles] is
    false and [get_triangles] returns the empty table; the same holds for
    every face table with the three columns and no row. *)
Theorem get_triangles_returns_on_empty_face_table :
  (Mesh.has_triangles Examples.faceless_mesh = Ok false
   /\ Mesh.get_triangles Examples.faceless_mesh = Ok Examples.no_faces)
  /\ forall (pcd : PointCloud.t) (d : pandas.DataFrame)
            (o : option o3d_TriangleMesh) (path : option string),
       (forall c, In c ["p1"; "p2"; "p3"] -> In c (pandas.columns d)) ->
       pandas.rows d = [] ->
       Mesh.has_triangles (Mesh.mk pcd (Some d) o path) = Ok false
       /\ Mesh.get_triangles (Mesh.mk pcd (Some d) o path)
          = Ok (pandas.mkDataFrame ["p1"; "p2"; "p3"] []).
Proof.
  split; [split; reflexivity|].
  intros pcd d o path Hcols Hrows. split.
  - unfold Mesh.has_triangles; cbn [Mesh.df].
    rewrite (empty_no_rows d Hrows). now rewrite andb_false_r.
  - unfold Mesh.get_triangles, pandas.select; cbn [Mesh.df].
    destruct (positions_In ["p1"; "p2"; "p3"] (pandas.columns d) Hcols) as [ps ->].
    cbn [obind]. now rewrite Hrows.
Qed.

(** ** Colour normalisation *)

Section MinMax.

Lemma fold_min_le (vs : list Q) (v x : Q) :
  In x (v :: vs) -> fold_left Qmin vs v <= x.
Proof.
  revert v x. induction vs as [|u vs IH]; intros v x [Hx|Hx]; simpl.
  - subst. apply Qle_refl.
  - contradiction.
  - subst. apply Qle_trans with (Qmin x u); [apply IH; now left | apply Q.le_min_l].
  - destruct Hx as [->|Hx].
    + apply Qle_trans with (Qmin v x); [apply IH; now left | apply Q.le_min_r].
    + apply IH. now right.
Qed.

Lemma fold_max_ge (vs : list Q) (v x : Q) :
  In x (v :: vs) -> x <= fold_left Qmax vs v.
Proof.
  revert v x. induction vs as [|u vs IH]; intros v x [Hx|Hx]; simpl.
  - subst. apply Qle_refl.
  - contradiction.
  - subst. apply Qle_trans with (Qmax x u); [apply Q.le_max_l | apply IH; now left].
  - destruct Hx as [->|Hx].
    + apply Qle_trans with (Qmax v x); [apply Q.le_max_r | apply IH; now left].
    + apply IH. now right.
Qed.

Lemma fold_min_attained (vs : list Q) (v : Q) :
  exists x, In x (v :: vs) /\ x == fold_left Qmin vs v.
Proof.
  revert v. induction vs as [|u vs IH]; intros v; simpl.
  - exists v. split; [now left | reflexivity].
  - destruct (IH (Qmin v u)) as [x [[Hx|Hx] Heq]].
    + destruct (Q.min_dec v u) as [Hm|Hm].
      * exists v. split; [now left|]. rewrite <- Heq, <- Hx. now symmetry.
      * exists u. split; [right; now left|]. rewrite <- Heq, <- Hx. now symmetry.
    + exists x. split; [right; now right | exact Heq].
Qed.

Lemma fold_max_attained (vs : list Q) (v : Q) :
  exists x, In x (v :: vs) /\ x == fold_left Qmax vs v.
Proof.
  revert v. induction vs as [|u vs IH]; intros v; simpl.
  - exists v. split; [now left | reflexivity].
  - destruct (IH (Qmax v u)) as [x [[Hx|Hx] Heq]].
    + destruct (Q.max_dec v u) as [Hm|Hm].
      * exists v. split; [now left|]. rewrite <- Heq, <- Hx. now symmetry.
      * exists u. split; [right; now left|]. rewrite <- Heq, <- Hx. now symmetry.
    + exists x. split; [right; now right | exact Heq].
Qed.

End MinMax.

Lemma fold_minimum_finite (vs : list Q) (v : Q) :
  fold_left numpy.minimum (map numpy.finite vs) (numpy.finite v)
  = numpy.finite (fold_left Qmin vs v).
Proof. revert v. induction vs as [|u vs IH]; intros v; cbn; [reflexivity | apply IH]. Qed.

Lemma fold_maximum_finite (vs : list Q) (v : Q) :
  fold_left numpy.maximum (map numpy.finite vs) (numpy.finite v)
  = numpy.finite (fold_left Qmax vs v).
Proof. revert v. induction vs as [|u vs IH]; intros v; cbn; [reflexivity | apply IH]. Qed.

(** What [amin] and [amax] return on an array of finite values with a
    cell. *)
Lemma amin_amax_spec (a : list (list Q)) :
  concat a <> [] ->
  exists lo hi,
    numpy.amin (as_float64 a) = Ok (numpy.finite lo)
    /\ numpy.amax (as_float64 a) = Ok (numpy.finite hi)
    /\ (forall v, In v (concat a) -> lo <= v <= hi)
    /\ (exists u, In u (concat a) /\ u == lo)
    /\ (exists u, In u (concat a) /\ u == hi).
Proof.
  unfold numpy.amin, numpy.amax, as_float64. rewrite <- concat_map.
  destruct (concat a) as [|v vs]; [congruence|].
  intros _. exists (fold_left Qmin vs v), (fold_left Qmax vs v). cbn [map].
  rewrite fold_minimum_finite, fold_maximum_finite.
  repeat split; trivial.
  - now apply fold_min_le.
  - now apply fold_max_ge.
  - apply fold_min_attained.
  - apply fold_max_attained.
Qed.

Lemma unit_interval (lo hi v : Q) :
  lo <= v <= hi -> ~ hi - lo == 0 ->
  0 <= (v - lo) / (hi - lo) <= 1.
Proof.
  intros [Hlo Hhi] Hne.
  assert (Hpos : 0 < hi - lo).
  { apply QOrderedType.QOrder.le_neq_lt; [lra | intros H; apply Hne; now symmetry]. }
  split.
  - apply Qle_shift_div_l; [exact Hpos | lra].
  - apply Qle_shift_div_r; [exact Hpos | lra].
Qed.

Lemma threshold_above_one : 1 < numpy.overflow_threshold.
Proof. unfold numpy.overflow_threshold, Qlt. vm_compute. reflexivity. Qed.

(** Below the threshold an exact result is kept. *)
Lemma rounded_below (q : Q) :
  - numpy.overflow_threshold < q < numpy.overflow_threshold ->
  numpy.rounded q = numpy.finite q.
Proof.
  unfold numpy.rounded. remember numpy.overflow_threshold as T. intros [Hlow Hhigh].
  destruct (Qle_bool T q) eqn:H1; [apply Qle_bool_iff in H1; lra|].
  destruct (Qle_bool q (- T)) eqn:H2; [apply Qle_bool_iff in H2; lra|].
  reflexivity.
Qed.

Lemma rounded_above (q : Q) :
  numpy.overflow_threshold <= q -> numpy.rounded q = numpy.inf false.
Proof.
  unfold numpy.rounded. intros H. apply Qle_bool_iff in H. now rewrite H.
Qed.

Lemma map_map_ext_in {A B : Type} (f g : A -> B) (a : list (list A)) :
  (forall v, In v (concat a) -> f v = g v) ->
  map (map f) a = map (map g) a.
Proof.
  intros H. apply map_ext_in. intros row Hrow. apply map_ext_in. intros v Hv.
  apply H. apply in_concat. now exists row.
Qed.

(** One cell when the range does not overflow. *)
Lemma cell_scaled (lo hi v : Q) :
  lo <= v <= hi -> hi - lo < numpy.overflow_threshold ->
  Qeq_bool (hi - lo) 0 = false ->
  numpy.fdiv (numpy.fsub (numpy.finite v) (numpy.finite lo)) (numpy.finite (hi - lo))
  = scaled lo hi v.
Proof.
  intros Hv Hrange Hne. pose proof threshold_above_one as Hone.
  cbn [numpy.fsub]. rewrite rounded_below by lra. cbn [numpy.fdiv].
  unfold numpy.true_divide, scaled. rewrite Hne.
  apply rounded_below.
  assert (Hne' : ~ hi - lo == 0) by now apply Qeq_bool_neq.
  destruct (unit_interval lo hi v Hv Hne'). lra.
Qed.

(** One cell when the range overflows. *)
Lemma cell_overflowed (lo hi v : Q) :
  lo <= v <= hi ->
  numpy.fdiv (numpy.fsub (numpy.finite v) (numpy.finite lo)) (numpy.inf false)
  = overflowed lo v.
Proof.
  intros Hv. pose proof threshold_above_one as Hone.
  cbn [numpy.fsub]. unfold numpy.rounded, overflowed.
  remember numpy.overflow_threshold as T.
  destruct (Qle_bool T (v - lo)); [reflexivity|].
  destruct (Qle_bool (v - lo) (- T)) eqn:H2; [apply Qle_bool_iff in H2; lra|].
  reflexivity.
Qed.

(** What [normalize_colors] computes on an array of finite values whose
    minimum is [lo] and whose maximum is [hi]. *)
Lemma normalize_colors_cells (a : list (list Q)) (lo hi : Q) :
  numpy.amin (as_float64 a) = Ok (numpy.finite lo) ->
  numpy.amax (as_float64 a) = Ok (numpy.finite hi) ->
  (forall v, In v (concat a) -> lo <= v <= hi) ->
  lo <= hi ->
  (hi - lo < numpy.overflow_threshold ->
   normalize_colors (as_float64 a) = Ok (map (map (scaled lo hi)) a))
  /\ (numpy.overflow_threshold <= hi - lo ->
      normalize_colors (as_float64 a) = Ok (map (map (overflowed lo)) a)).
Proof.
  intros Hlo Hhi Hb Hle. pose proof threshold_above_one as Hone.
  unfold normalize_colors. rewrite Hlo, Hhi. cbn [obind].
  unfold numpy.divide, numpy.subtract, numpy.zeros_like, as_float64.
  cbn [numpy.fsub]. split; intros Hrange.
  - rewrite rounded_below by lra. cbn [numpy.ne_zero]. f_equal.
    destruct (Qeq_bool (hi - lo) 0) eqn:Hne; cbn [negb]; rewrite !map_map.
    + apply map_ext. intros row. rewrite !map_map. apply map_ext. intros v.
      unfold scaled. now rewrite Hne.
    + transitivity
        (map (map (fun v => numpy.fdiv (numpy.fsub (numpy.finite v) (numpy.finite lo))
                              (numpy.finite (hi - lo)))) a).
      { apply map_ext. intros row. now rewrite !map_map. }
      apply map_map_ext_in. intros v Hv. apply cell_scaled; auto.
  - rewrite rounded_above by exact Hrange. cbn [numpy.ne_zero]. f_equal.
    rewrite !map_map.
    transitivity
      (map (map (fun v => numpy.fdiv (numpy.fsub (numpy.finite v) (numpy.finite lo))
                            (numpy.inf false))) a).
    { apply map_ext. intros row. now rewrite !map_map. }
    apply map_map_ext_in. intros v Hv. apply cell_overflowed with hi. auto.
Qed.

(** On a non empty array [normalize_colors] returns. *)
Lemma normalize_colors_returns (a : list (list numpy.float64)) :
  concat a <> [] -> exists colors, normalize_colors a = Ok colors.
Proof.
  intros Hne. unfold normalize_colors, numpy.amin, numpy.amax.
  destruct (concat a); [congruence|]. cbn [obind]. eexists. reflexivity.
Qed.

Lemma set_column_map {R : Type} (k : nat) (f : R -> Q) (g : R -> list Q) (rs : list R) :
  numpy.set_column k (map f rs) (map g rs)
  = map (fun r => numpy.replace_nth k (f r) (g r)) rs.
Proof.
  induction rs as [|r rs IH]; simpl; [reflexivity | now rewrite IH].
Qed.

Lemma position_contains (d : pandas.DataFrame) (c : string) (p : nat) :
  pandas.position c (pandas.columns d) = Some p -> pandas.contains d c = true.
Proof. intros H. apply contains_In. now apply position_Some_In with p. Qed.

(** With x, y, z and the three RGB columns present, the array the setters
    normalise is the RGB sub-frame. *)
Lemma rgb_array_is_rgb_frame (d xyz rgb : pandas.DataFrame) :
  pandas.select d ["x"; "y"; "z"] = Ok xyz ->
  pandas.select d ["red"; "green"; "blue"] = Ok rgb ->
  rgb_array d = Ok (pandas.to_numpy rgb).
Proof.
  unfold rgb_array, pandas.select. cbn [pandas.positions].
  destruct (pandas.position "x" (pandas.columns d)) as [px|]; [|discriminate].
  destruct (pandas.position "y" (pandas.columns d)) as [py|]; [|discriminate].
  destruct (pandas.position "z" (pandas.columns d)) as [pz|]; [|discriminate].
  destruct (pandas.position "red" (pandas.columns d)) as [pr|] eqn:Hr; [|discriminate].
  destruct (pandas.position "green" (pandas.columns d)) as [pg|] eqn:Hg; [|discriminate].
  destruct (pandas.position "blue" (pandas.columns d)) as [pb|] eqn:Hb; [|discriminate].
  cbn [obind]. intros _ Hrgb. injection Hrgb as <-.
  unfold pandas.to_numpy, numpy.zeros_like. cbn [pandas.rows fold_left].
  unfold rgb_fill. cbn [fst snd obind].
  rewrite (position_contains d "red" pr Hr), (position_contains d "green" pg Hg),
    (position_contains d "blue" pb Hb).
  unfold pandas.column. rewrite Hr, Hg, Hb. cbn [obind].
  rewrite !map_map. cbn [snd map].
  rewrite set_column_map. cbn [numpy.replace_nth obind].
  rewrite set_column_map. cbn [numpy.replace_nth obind].
  rewrite set_column_map. cbn [numpy.replace_nth].
  reflexivity.
Qed.

Lemma rgb_frame_has_cells (d rgb : pandas.DataFrame) :
  pandas.select d ["red"; "green"; "blue"] = Ok rgb ->
  pandas.rows d <> [] ->
  concat (pandas.to_numpy rgb) <> [].
Proof.
  unfold pandas.select. destruct (pandas.positions _ _) as [ps|] eqn:Hps; [|discriminate].
  cbn [obind]. intros Hrgb Hrows. injection Hrgb as <-.
  cbn [pandas.positions] in Hps.
  destruct (pandas.position "red" _); [|discriminate].
  destruct (pandas.position "green" _); [|discriminate].
  destruct (pandas.position "blue" _); [|discriminate].
  cbn [obind] in Hps. injection Hps as <-.
  unfold pandas.to_numpy. cbn [pandas.rows].
  destruct (pandas.rows d); [congruence | discriminate].
Qed.

Lemma normalized_rgb_cells (d xyz rgb : pandas.DataFrame) :
  pandas.select d ["x"; "y"; "z"] = Ok xyz ->
  pandas.select d ["red"; "green"; "blue"] = Ok rgb ->
  pandas.rows d <> [] ->
  exists lo hi colors,
    numpy.amin (as_float64 (pandas.to_numpy rgb)) = Ok (numpy.finite lo)
    /\ numpy.amax (as_float64 (pandas.to_numpy rgb)) = Ok (numpy.finite hi)
    /\ normalized_rgb d = Ok colors
    /\ (hi - lo < numpy.overflow_threshold ->
        colors = map (map (scaled lo hi)) (pandas.to_numpy rgb))
    /\ (numpy.overflow_threshold <= hi - lo ->
        colors = map (map (overflowed lo)) (pandas.to_numpy rgb))
    /\ (forall v, In v (concat (pandas.to_numpy rgb)) -> lo <= v <= hi)
    /\ (exists u, In u (concat (pandas.to_numpy rgb)) /\ u == lo)
    /\ (exists u, In u (concat (pandas.to_numpy rgb)) /\ u == hi).
Proof.
  intros Hxyz Hrgb Hrows.
  destruct (amin_amax_spec (pandas.to_numpy rgb)) as [lo [hi [Hlo [Hhi [Hb [Hl Hh]]]]]].
  { now apply rgb_frame_has_cells with d. }
  assert (Hle : lo <= hi).
  { destruct Hl as [u [Hu _]]. destruct (Hb u Hu). lra. }
  destruct (normalize_colors_cells (pandas.to_numpy rgb) lo hi Hlo Hhi Hb Hle)
    as [Hin Hover].
  assert (Hn : normalized_rgb d = normalize_colors (as_float64 (pandas.to_numpy rgb))).
  { unfold normalized_rgb. now rewrite (rgb_array_is_rgb_frame d xyz rgb Hxyz Hrgb). }
  destruct (Qlt_le_dec (hi - lo) numpy.overflow_threshold) as [Hrange|Hrange].
  - exists lo, hi, (map (map (scaled lo hi)) (pandas.to_numpy rgb)).
    repeat split; trivial; try (now apply Hb).
    + rewrite Hn. now apply Hin.
    + intros Hcontra. exfalso. lra.
  - exists lo, hi, (map (map (overflowed lo)) (pandas.to_numpy rgb)).
    repeat split; trivial; try (now apply Hb).
    + rewrite Hn. now apply Hover.
    + intros Hcontra. exfalso. lra.
Qed.

Lemma Forall_concat {A : Type} (P : A -> Prop) (a : list (list A)) :
  (forall v, In v (concat a) -> P v) -> Forall (Forall P) a.
Proof.
  intros H. apply Forall_forall. intros row Hrow. apply Forall_forall.
  intros v Hv. apply H. apply in_concat. now exists row.
Qed.

Lemma Exists_concat {A B : Type} (f : A -> B) (P : B -> Prop) (a : list (list A)) (u : A) :
  In u (concat a) -> P (f u) -> Exists (Exists P) (map (map f) a).
Proof.
  intros Hu HP. apply in_concat in Hu. destruct Hu as [row [Hrow Hu]].
  apply Exists_exists. exists (map f row). split; [now apply in_map|].
  apply Exists_exists. exists (f u). split; [now apply in_map | exact HP].
Qed.




(** A nan among the colours of an array spreads to every cell, and an
    infinite colour gives nan where it stands. *)
Lemma normalize_colors_spreads_nan :
  normalize_colors [[numpy.nan; numpy.finite 0; numpy.finite 1]]
  = Ok [[numpy.nan; numpy.nan; numpy.nan]]
  /\ normalize_colors [[numpy.inf false; numpy.finite 0; numpy.finite 1]]
     = Ok [[numpy.nan; numpy.finite 0; numpy.finite 0]].
Proof. split; vm_compute; reflexivity. Qed.

(* ================================================================== *)
(** * Properties of the filters *)

(** C6.  When the points an Open3D outlier filter keeps select an empty
    frame, the filter logs the error and raises (a bare [raise], hence a
    RuntimeError): nothing is returned, nothing is dumped, the input frame is
    not used as a fallback.  This holds for the radius and for the
    statistical filter, and neither ever returns an empty frame. *)
Theorem empty_filter_output_raises :
  forall (E : Env) (df_pcd xyz : pandas.DataFrame) (w : World (Disk E)),
    pandas.select df_pcd ["x"; "y"; "z"] = Ok xyz ->
    let failed : outcome pandas.DataFrame * World (Disk E) :=
      (Raise (RuntimeError "No active exception to reraise"),
       mkWorld
         (trace w ++ [Log ERROR "Point cloud output by the outlier filtering step is empty."])
         (disk w)) in
    (forall radius nb_points serialize ind out,
        remove_radius_outlier E (pandas.to_numpy xyz) nb_points radius = Ok ind ->
        pandas.loc df_pcd ind = Ok out ->
        pandas.empty out = true ->
        filter.radius_filtering_outliers_o3 E df_pcd radius nb_points serialize w = failed)
    /\ (forall nb_neighbors std_factor serialize ind out,
        remove_statistical_outlier E (pandas.to_numpy xyz) nb_neighbors std_factor = Ok ind ->
        pandas.loc df_pcd ind = Ok out ->
        pandas.empty out = true ->
        filter.statistical_filtering_outliers_o3d E df_pcd nb_neighbors std_factor serialize w
        = failed)
    /\ (forall radius nb_points serialize out w',
        filter.radius_filtering_outliers_o3 E df_pcd radius nb_points serialize w = (Ok out, w') ->
        pandas.empty out = false)
    /\ (forall nb_neighbors std_factor serialize out w',
        filter.statistical_filtering_outliers_o3d E df_pcd nb_neighbors std_factor serialize w
        = (Ok out, w') ->
        pandas.empty out = false).
Proof.
  intros E df_pcd xyz w Hxyz failed.
  assert (Hkeep : forall ind serialize dump out w',
    filter.keep_valid_points E df_pcd ind serialize dump w = (Ok out, w') ->
    pandas.empty out = false).
  { intros ind serialize dump out w'.
    unfold filter.keep_valid_points, filter.debug_serialize, bind, lift, logger, emit,
      raise, ret, on_disk.
    destruct (pandas.loc df_pcd ind) as [kept|e]; [|discriminate].
    destruct (pandas.empty kept) eqn:Hempty; [discriminate|].
    destruct serialize; cbn [disk trace].
    - destruct (serialize_point_cloud E dump (Some kept) None (disk w)) as [[[]|e] d'];
        [|discriminate]. now intros [= <- _].
    - now intros [= <- _]. }
  repeat split.
  - intros radius nb_points serialize ind out Hind Hloc Hempty.
    unfold filter.radius_filtering_outliers_o3, filter.keep_valid_points, bind, lift.
    rewrite Hxyz, Hind, Hloc, Hempty. reflexivity.
  - intros nb_neighbors std_factor serialize ind out Hind Hloc Hempty.
    unfold filter.statistical_filtering_outliers_o3d, filter.keep_valid_points, bind, lift.
    rewrite Hxyz, Hind, Hloc, Hempty. reflexivity.
  - intros radius nb_points serialize out w'.
    unfold filter.radius_filtering_outliers_o3, bind at 1 2, lift at 1 2. rewrite Hxyz.
    destruct (remove_radius_outlier E _ _ _) as [ind|e]; [|discriminate]. apply Hkeep.
  - intros nb_neighbors std_factor serialize out w'.
    unfold filter.statistical_filtering_outliers_o3d, bind at 1 2, lift at 1 2. rewrite Hxyz.
    destruct (remove_statistical_outlier E _ _ _) as [ind|e]; [|discriminate]. apply Hkeep.
Qed.

(** An Open3D that keeps no point of [xyz_only]: the radius filter raises. *)
Lemma empty_filter_output_raises_xyz_only :
  filter.radius_filtering_outliers_o3 (Examples.toy []) Examples.xyz_only 1 5 true
    Examples.fresh
  = (Raise (RuntimeError "No active exception to reraise"),
     mkWorld [Log ERROR "Point cloud output by the outlier filtering step is empty."] []).
Proof.
  exact (proj1 (empty_filter_output_raises (Examples.toy []) Examples.xyz_only
                  Examples.xyz_only Examples.fresh eq_refl)
           1 5%Z true [] (pandas.mkDataFrame ["x"; "y"; "z"] [])
           eq_refl eq_refl eq_refl).
Defined.

(* ================================================================== *)
(** * Properties of the pipeline *)

(** C5.  With an empty step list [run] logs one warning and returns the data
    the machine holds: the machine is the one it was given (no transition was
    taken, whatever the machine's collaborators would do), the disk is
    untouched, and the warning is the only event added to the trace. *)
Theorem run_without_steps_returns_input :
  forall (E : Env) (mesh3d_machine : Machine E) (cfg : Cfg) (w : World (Disk E)),
    state_machine cfg = [] ->
    mesh3d_reconstruct.run E mesh3d_machine cfg w
    = (Ok (mesh3d_machine, mesh_data E mesh3d_machine),
       mkWorld
         (trace w ++ [Log WARNING "State machine is empty. Returning the initial data."])
         (disk w)).
Proof.
  intros E mesh3d_machine cfg w Hsteps.
  unfold mesh3d_reconstruct.run. rewrite Hsteps. reflexivity.
Qed.

(** The cloud [cloud_only] comes back from a run without steps, on a disk
    that already holds a file. *)
Lemma run_without_steps_returns_cloud_only :
  mesh3d_reconstruct.run (Examples.toy []) Examples.cloud_only (Examples.cfg_of [])
    Examples.used
  = (Ok (Examples.cloud_only, Examples.cloud_only),
     mkWorld [Log WARNING "State machine is empty. Returning the initial data."]
       ["/out/intermediate_results/01_filter_radius_o3d.laz"]).
Proof.
  exact (run_without_steps_returns_input (Examples.toy []) Examples.cloud_only
           (Examples.cfg_of []) Examples.used eq_refl).
Defined.

(** C7, as the code has it.  The final serialisation looks at whether the
    face table is assigned, not at whether it has rows: with no face table
    the cloud is serialised, under <output_name>.laz; with a face table, of
    any size, the mesh is serialised, under <output_name>.ply.  In both cases
    this is the first event of the call and nothing but a log line follows
    (none if the codec raised). *)
Theorem output_routed_by_face_table_presence :
  forall (E : Env) (cfg : Cfg) (out_mesh : Mesh.t) (w : World (Disk E)),
    let name := match output_name cfg with Some n => n | None => "output_mesh3d" end in
    let w' := snd (mesh3d_reconstruct.serialize_output E cfg out_mesh w) in
    match Mesh.df out_mesh with
    | None =>
        let filepath := os_path.join (output_dir cfg) (name ++ ".laz") in
        trace w' =
        trace w
        ++ SerializePointCloud filepath (PointCloud.df (Mesh.pcd out_mesh)) (Some "laz")
           :: match fst (serialize_point_cloud E filepath
                           (PointCloud.df (Mesh.pcd out_mesh)) (Some "laz") (disk w)) with
              | Ok _ => [Log INFO "Point cloud serialized as a 'laz' file"]
              | Raise _ => []
              end
    | Some _ =>
        let filepath := os_path.join (output_dir cfg) (name ++ ".ply") in
        trace w' =
        trace w
        ++ SerializeMesh filepath out_mesh "ply"
           :: match fst (serialize_mesh E filepath out_mesh "ply" (disk w)) with
              | Ok _ => [Log INFO "Mesh serialized as a 'ply' file"]
              | Raise _ => []
              end
    end.
Proof.
  intros E cfg out_mesh w name w'. subst w'.
  unfold mesh3d_reconstruct.serialize_output, Mesh_serialize, PointCloud_serialize,
    bind, logger, emit, on_disk.
  fold name.
  destruct (Mesh.df out_mesh) as [faces|]; cbn [Mesh.is_not_None disk trace].
  - destruct (serialize_mesh E _ out_mesh "ply" (disk w)) as [[[]|e] d'];
      cbn [fst snd trace]; rewrite <- ?app_assoc; reflexivity.
  - destruct (serialize_point_cloud E _ _ (Some "laz") (disk w)) as [[[]|e] d'];
      cbn [fst snd trace]; rewrite <- ?app_assoc; reflexivity.
Qed.

(** C7, as stated, fails on [faceless_mesh]: its face table is empty
    ([has_triangles] is false), yet it goes through the mesh path and gets
    the ply extension. *)
Lemma empty_face_table_goes_to_ply :
  pandas.empty Examples.no_faces = true
  /\ Mesh.has_triangles Examples.faceless_mesh = Ok false
  /\ mesh3d_reconstruct.serialize_output (Examples.toy []) (Examples.cfg_of [])
       Examples.faceless_mesh Examples.fresh
     = (Ok tt,
        mkWorld
          [SerializeMesh "/out/output_mesh3d.ply" Examples.faceless_mesh "ply";
           Log INFO "Mesh serialized as a 'ply' file"]
          ["/out/output_mesh3d.ply"]).
Proof. repeat split. Qed.

(** ** The trace only grows *)

Section Growth.

Context {D : Type}.

Lemma grows_ret {A : Type} (a : A) : grows (D := D) (ret a).
Proof. intros w. exists []. cbn. now rewrite app_nil_r. Qed.

Lemma grows_raise {A : Type} (e : PyError) : grows (D := D) (A := A) (raise e).
Proof. intros w. exists []. cbn. now rewrite app_nil_r. Qed.

Lemma grows_lift {A : Type} (x : outcome A) : grows (D := D) (lift x).
Proof. intros w. exists []. cbn. now rewrite app_nil_r. Qed.

Lemma grows_emit (e : Event) : grows (D := D) (emit e).
Proof. intros w. now exists [e]. Qed.

Lemma grows_on_disk {A : Type} (m : M D A) : grows (on_disk m).
Proof.
  intros w. exists []. unfold on_disk. destruct (m (disk w)). cbn. now rewrite app_nil_r.
Qed.

Lemma grows_ext {A : Type} (m : Ext D A) : grows (ext m).
Proof.
  intros w. unfold ext. destruct (m (disk w)) as [[r events] d]. now exists events.
Qed.

Lemma grows_bind {A B : Type} (m : M (World D) A) (f : A -> M (World D) B) :
  grows m -> (forall a, grows (f a)) -> grows (bind m f).
Proof.
  intros Hm Hf w. unfold bind. destruct (Hm w) as [t Ht].
  destruct (m w) as [[a|e] w1]; cbn [snd] in *.
  - destruct (Hf a w1) as [t' Ht']. exists (t ++ t'). now rewrite Ht', Ht, app_assoc.
  - now exists t.
Qed.

Lemma In_later {A : Type} {m : M (World D) A} {w w' : World D} {r : outcome A} :
  grows m -> m w = (r, w') ->
  forall e, In e (trace w) -> In e (trace w').
Proof.
  intros Hm Hrun e He. destruct (Hm w) as [t Ht]. rewrite Hrun in Ht. cbn in Ht.
  rewrite Ht, in_app_iff. now left.
Qed.

Lemma bind_Ok_inv {S A B : Type} (m : M S A) (f : A -> M S B) (s s' : S) (b : B) :
  bind m f s = (Ok b, s') ->
  exists a s1, m s = (Ok a, s1) /\ f a s1 = (Ok b, s').
Proof.
  unfold bind. destruct (m s) as [[a|e] s1]; [|discriminate].
  intros H. now exists a, s1.
Qed.

End Growth.

Lemma grows_listdir (E : Env) (path : string) : grows (listdir E path).
Proof. intros w. exists []. cbn. now rewrite app_nil_r. Qed.

Create HintDb grows.
#[local] Hint Resolve grows_ret grows_raise grows_lift grows_emit grows_on_disk
  grows_ext grows_listdir : grows.

Ltac solve_grows :=
  repeat first
    [ apply grows_bind; [|intros ?]
    | solve [auto with grows]
    | match goal with
      | |- grows (if ?b then _ else _) => destruct b
      | |- grows (match ?x with _ => _ end) => destruct x
      end ].

Lemma save_intermediate_grows (E : Env) (cfg : Cfg) (k : nat) (step : Step)
  (m : Machine E) :
  grows (mesh3d_reconstruct.save_intermediate E cfg k step m).
Proof.
  unfold mesh3d_reconstruct.save_intermediate, makedirs, Mesh_serialize,
    PointCloud_serialize, logger.
  solve_grows.
Qed.

Lemma run_step_grows (E : Env) (cfg : Cfg) (k : nat) (step : Step) (m : Machine E) :
  grows (mesh3d_reconstruct.run_step E cfg k step m).
Proof.
  unfold mesh3d_reconstruct.run_step, logger.
  apply grows_bind; [solve_grows | intros _].
  apply grows_bind; [solve_grows | intros m'].
  apply grows_bind; [| intros _; solve_grows].
  destruct (save_output step) as [[|]|]; [apply save_intermediate_grows | solve_grows | solve_grows].
Qed.

Lemma run_steps_grows (E : Env) (cfg : Cfg) (steps : list Step) :
  forall (k : nat) (m : Machine E), grows (mesh3d_reconstruct.run_steps E cfg k steps m).
Proof.
  induction steps as [|step steps IH]; intros k m; cbn [mesh3d_reconstruct.run_steps].
  - solve_grows.
  - apply grows_bind; [apply run_step_grows | intros m'; apply IH].
Qed.

Lemma run_steps_app (E : Env) (cfg : Cfg) (pre post : list Step) :
  forall (k : nat) (m : Machine E) (w : World (Disk E)),
    mesh3d_reconstruct.run_steps E cfg k (pre ++ post) m w
    = bind (mesh3d_reconstruct.run_steps E cfg k pre m)
        (fun m' => mesh3d_reconstruct.run_steps E cfg (k + length pre) post m') w.
Proof.
  induction pre as [|step pre IH]; intros k m w.
  - cbn. now rewrite Nat.add_0_r.
  - cbn [app mesh3d_reconstruct.run_steps length].
    replace (k + S (length pre))%nat with (S k + length pre)%nat by lia.
    unfold bind.
    destruct (mesh3d_reconstruct.run_step E cfg k step m w) as [[m1|e] w1]; [|reflexivity].
    rewrite IH. reflexivity.
Qed.

(** What the trace holds once the intermediate results of a step are saved. *)
Lemma save_intermediate_saved (E : Env) (cfg : Cfg) (k : nat) (step : Step)
  (m : Machine E) (w w' : World (Disk E)) :
  mesh3d_reconstruct.save_intermediate E cfg k step m w = (Ok tt, w') ->
  In (Makedirs (mesh3d_reconstruct.intermediate_folder cfg)) (trace w')
  /\ match Mesh.df (mesh_data E m) with
     | Some _ =>
         In (SerializeMesh (mesh3d_reconstruct.intermediate_filepath cfg k step ++ ".ply")
               (mesh_data E m) "ply") (trace w')
     | None =>
         In (SerializePointCloud
               (mesh3d_reconstruct.intermediate_filepath cfg k step ++ ".laz")
               (PointCloud.df (Mesh.pcd (mesh_data E m))) (Some "laz")) (trace w')
     end.
Proof.
  unfold mesh3d_reconstruct.save_intermediate. intros H.
  apply bind_Ok_inv in H. destruct H as [[] [w1 [Hmk H]]].
  apply bind_Ok_inv in H. destruct H as [[] [w2 [Hwarn H]]].
  apply bind_Ok_inv in H. destruct H as [extension [w3 [Hser Hlog]]].
  assert (Hmk' : In (Makedirs (mesh3d_reconstruct.intermediate_folder cfg)) (trace w1)).
  { unfold makedirs in Hmk. apply bind_Ok_inv in Hmk. destruct Hmk as [[] [w0 [Hemit Hdisk]]].
    injection Hemit as <-. apply (In_later (grows_on_disk _) Hdisk).
    cbn. rewrite in_app_iff. right. now left. }
  assert (H12 : forall e, In e (trace w1) -> In e (trace w2)).
  { match type of Hwarn with
    | ?warn _ = _ => assert (Hg : grows warn) by (unfold logger; solve_grows)
    end.
    intros e. apply (In_later Hg Hwarn). }
  assert (H3 : forall e, In e (trace w3) -> In e (trace w')).
  { intros e. apply (In_later (grows_emit _) Hlog). }
  assert (H23 : forall e, In e (trace w2) -> In e (trace w3)).
  { match type of Hser with
    | ?ser _ = _ =>
        assert (Hg : grows ser) by (unfold Mesh_serialize, PointCloud_serialize; solve_grows)
    end.
    intros e. apply (In_later Hg Hser). }
  split; [auto|].
  destruct (Mesh.df (mesh_data E m)).
  - apply bind_Ok_inv in Hser. destruct Hser as [[] [w4 [Hser Hret]]].
    apply H3. apply (In_later (grows_ret _) Hret).
    unfold Mesh_serialize in Hser. apply bind_Ok_inv in Hser.
    destruct Hser as [[] [w5 [Hemit Hdisk]]]. injection Hemit as <-.
    apply (In_later (grows_on_disk _) Hdisk).
    cbn. rewrite in_app_iff. right. left. reflexivity.
  - apply bind_Ok_inv in Hser. destruct Hser as [[] [w4 [Hser Hret]]].
    apply H3. apply (In_later (grows_ret _) Hret).
    unfold PointCloud_serialize in Hser. apply bind_Ok_inv in Hser.
    destruct Hser as [[] [w5 [Hemit Hdisk]]]. injection Hemit as <-.
    apply (In_later (grows_on_disk _) Hdisk).
    cbn. rewrite in_app_iff. right. left. reflexivity.
Qed.

Lemma bind_trace_extends {D A B : Type} (m : M (World D) A) (f : A -> M (World D) B)
  (w : World D) :
  (forall a, grows (f a)) ->
  exists t, trace (snd (bind m f w)) = trace (snd (m w)) ++ t.
Proof.
  intros Hf. unfold bind. destruct (m w) as [[a|e] w1]; cbn [snd].
  - apply Hf.
  - exists []. now rewrite app_nil_r.
Qed.

Lemma ext_Ok_inv {D A : Type} (m : Ext D A) (w w' : World D) (a : A) :
  ext m w = (Ok a, w') ->
  exists events d, m (disk w) = (Ok a, events, d) /\ w' = mkWorld (trace w ++ events) d.
Proof.
  unfold ext. destruct (m (disk w)) as [[r events] d]. intros H. injection H as -> <-.
  now exists events, d.
Qed.

(** In a sequence of steps that completes, a step that saves has the entity
    the machine holds once its method has returned serialised under its
    name. *)
Lemma run_steps_saved (E : Env) (cfg : Cfg) (steps : list Step) :
  forall (k0 : nat) (m m' : Machine E) (w w' : World (Disk E)),
    mesh3d_reconstruct.run_steps E cfg k0 steps m w = (Ok m', w') ->
    forall (i : nat) (step : Step),
      nth_error steps i = Some step ->
      save_output step = Some true ->
      In (Makedirs (mesh3d_reconstruct.intermediate_folder cfg)) (trace w')
      /\ exists (pre post : list Step) (mk : Machine E) (wk : World (Disk E))
                (m1 : Machine E) (stepped : list Event) (d2 : Disk E),
           steps = pre ++ step :: post
           /\ length pre = i
           /\ mesh3d_reconstruct.run_steps E cfg k0 pre m w = (Ok mk, wk)
           /\ machine_run E mk step cfg (disk wk) = (Ok m1, stepped, d2)
           /\ match Mesh.df (mesh_data E m1) with
              | Some _ =>
                  In (SerializeMesh
                        (mesh3d_reconstruct.intermediate_filepath cfg (k0 + i) step ++ ".ply")
                        (mesh_data E m1) "ply") (trace w')
              | None =>
                  In (SerializePointCloud
                        (mesh3d_reconstruct.intermediate_filepath cfg (k0 + i) step ++ ".laz")
                        (PointCloud.df (Mesh.pcd (mesh_data E m1))) (Some "laz")) (trace w')
              end.
Proof.
  induction steps as [|s steps IH]; intros k0 m m' w w' Hrun i step Hnth Hsave.
  - destruct i; discriminate.
  - cbn [mesh3d_reconstruct.run_steps] in Hrun.
    apply bind_Ok_inv in Hrun. destruct Hrun as [m1 [w1 [Hstep Hrest]]].
    destruct i as [|i]; cbn [nth_error] in Hnth.
    + injection Hnth as ->. rewrite Nat.add_0_r.
      unfold mesh3d_reconstruct.run_step in Hstep.
      apply bind_Ok_inv in Hstep. destruct Hstep as [[] [wa [Hlog Hstep]]].
      apply bind_Ok_inv in Hstep. destruct Hstep as [m2 [wb [Hext Hstep]]].
      apply bind_Ok_inv in Hstep. destruct Hstep as [[] [wc [Hsaved Hret]]].
      injection Hret as <- <-. rewrite Hsave in Hsaved.
      apply save_intermediate_saved in Hsaved. destruct Hsaved as [Hmk Hser].
      pose proof (In_later (run_steps_grows E cfg steps (S k0) m2) Hrest) as Hlater.
      split; [now apply Hlater|].
      apply ext_Ok_inv in Hext. destruct Hext as [stepped [d2 [Hext _]]].
      injection Hlog as <-. cbn [disk] in Hext.
      exists [], steps, m, w, m2, stepped, d2.
      repeat split; trivial.
      destruct (Mesh.df (mesh_data E m2)); now apply Hlater.
    + replace (k0 + S i)%nat with (S k0 + i)%nat by lia.
      destruct (IH (S k0) m1 m' w1 w' Hrest i step Hnth Hsave)
        as [Hmk [pre [post [mk [wk [m2 [stepped [d2 [Hsplit [Hlen [Hpre [Hrunk Hser]]]]]]]]]]]].
      split; [exact Hmk|].
      exists (s :: pre), post, mk, wk, m2, stepped, d2.
      repeat split; trivial.
      * cbn [app]. now rewrite Hsplit.
      * cbn [length]. now rewrite Hlen.
      * cbn [mesh3d_reconstruct.run_steps]. unfold bind. now rewrite Hstep.
Qed.

(** The trace of the intermediate results of step [k], once the folder is
    created and, for the first step, listed: the warning stands between the
    creation of the folder and the serialisation exactly when the step is
    the first of the list and the folder lists an entry. *)
Lemma save_intermediate_trace (E : Env) (cfg : Cfg) (k : nat) (step : Step)
  (m : Machine E) (w : World (Disk E)) (d1 : Disk E) (entries : list string) :
  os_makedirs E (mesh3d_reconstruct.intermediate_folder cfg) (disk w) = (Ok tt, d1) ->
  (k = 0%nat -> os_listdir E (mesh3d_reconstruct.intermediate_folder cfg) d1 = Ok entries) ->
  exists tail,
    trace (snd (mesh3d_reconstruct.save_intermediate E cfg k step m w))
    = trace w
      ++ Makedirs (mesh3d_reconstruct.intermediate_folder cfg)
         :: (if (k =? 0)%nat && mesh3d_reconstruct.nonempty entries
             then [Log WARNING ("Directory '" ++ mesh3d_reconstruct.intermediate_folder cfg
                                ++ "' is not empty. Some files might be overwritten.")]
             else [])
         ++ match Mesh.df (mesh_data E m) with
            | Some _ =>
                SerializeMesh
                  (mesh3d_reconstruct.intermediate_filepath cfg k step ++ ".ply")
                  (mesh_data E m) "ply"
            | None =>
                SerializePointCloud
                  (mesh3d_reconstruct.intermediate_filepath cfg k step ++ ".laz")
                  (PointCloud.df (Mesh.pcd (mesh_data E m))) (Some "laz")
            end
         :: tail.
Proof.
  intros Hmk Hls.
  unfold mesh3d_reconstruct.save_intermediate, makedirs, listdir, Mesh_serialize,
    PointCloud_serialize, logger, bind, emit, on_disk, ret.
  cbn [trace disk]. rewrite Hmk. cbn [trace disk].
  assert (Hwarn : forall (A : Type) (x y : A),
            (if (k =? 0)%nat && mesh3d_reconstruct.nonempty entries then x else y)
            = match k with
              | O => if mesh3d_reconstruct.nonempty entries then x else y
              | S _ => y
              end).
  { intros A x y. now destruct k. }
  rewrite Hwarn. clear Hwarn.
  destruct k as [|k]; cbn [Nat.eqb trace disk].
  - rewrite (Hls eq_refl). cbn [trace disk].
    destruct (mesh3d_reconstruct.nonempty entries); cbn [trace disk];
      destruct (Mesh.df (mesh_data E m));
      match goal with
      | |- context [serialize_mesh E ?f ?x ?e ?d] =>
          destruct (serialize_mesh E f x e d) as [[[]|err] d2]
      | |- context [serialize_point_cloud E ?f ?x ?e ?d] =>
          destruct (serialize_point_cloud E f x e d) as [[[]|err] d2]
      end; cbn [snd trace]; eexists; rewrite <- !app_assoc; cbn [app]; reflexivity.
  - destruct (Mesh.df (mesh_data E m));
      match goal with
      | |- context [serialize_mesh E ?f ?x ?e ?d] =>
          destruct (serialize_mesh E f x e d) as [[[]|err] d2]
      | |- context [serialize_point_cloud E ?f ?x ?e ?d] =>
          destruct (serialize_point_cloud E f x e d) as [[[]|err] d2]
      end; cbn [snd trace]; eexists; rewrite <- !app_assoc; cbn [app]; reflexivity.
Qed.

(** The trace of the intermediate results of the first step when the folder
    is not empty. *)
Lemma save_intermediate_first_warns (E : Env) (cfg : Cfg) (step : Step)
  (m : Machine E) (w : World (Disk E)) (d1 : Disk E) (entries : list string) :
  os_makedirs E (mesh3d_reconstruct.intermediate_folder cfg) (disk w) = (Ok tt, d1) ->
  os_listdir E (mesh3d_reconstruct.intermediate_folder cfg) d1 = Ok entries ->
  entries <> [] ->
  exists tail,
    trace (snd (mesh3d_reconstruct.save_intermediate E cfg 0 step m w))
    = trace w
      ++ Makedirs (mesh3d_reconstruct.intermediate_folder cfg)
         :: Log WARNING ("Directory '" ++ mesh3d_reconstruct.intermediate_folder cfg
                         ++ "' is not empty. Some files might be overwritten.")
         :: match Mesh.df (mesh_data E m) with
            | Some _ =>
                SerializeMesh
                  (mesh3d_reconstruct.intermediate_filepath cfg 0 step ++ ".ply")
                  (mesh_data E m) "ply"
            | None =>
                SerializePointCloud
                  (mesh3d_reconstruct.intermediate_filepath cfg 0 step ++ ".laz")
                  (PointCloud.df (Mesh.pcd (mesh_data E m))) (Some "laz")
            end
         :: tail.
Proof.
  intros Hmk Hls Hne.
  unfold mesh3d_reconstruct.save_intermediate, makedirs, listdir, Mesh_serialize,
    PointCloud_serialize, logger, bind, emit, on_disk, ret.
  cbn [trace disk Nat.eqb]. rewrite Hmk. cbn [trace disk]. rewrite Hls.
  destruct entries as [|entry entries]; [congruence|]. cbn [mesh3d_reconstruct.nonempty trace disk].
  destruct (Mesh.df (mesh_data E m)).
  - match goal with
    | |- context [serialize_mesh E ?f ?x ?e ?d] =>
        destruct (serialize_mesh E f x e d) as [[[]|err] d2]
    end; cbn [snd trace]; eexists; rewrite <- !app_assoc; cbn [app]; reflexivity.
  - match goal with
    | |- context [serialize_point_cloud E ?f ?x ?e ?d] =>
        destruct (serialize_point_cloud E f x e d) as [[[]|err] d2]
    end; cbn [snd trace]; eexists; rewrite <- !app_assoc; cbn [app]; reflexivity.
Qed.

Lemma bind_Ok_run {S A B : Type} (m : M S A) (f : A -> M S B) (s s1 : S) (a : A) :
  m s = (Ok a, s1) -> bind m f s = f a s1.
Proof. unfold bind. now intros ->. Qed.




Lemma bind_returns_None {S A B : Type} (m : M S A) (f : A -> M S (option B)) :
  (forall a s, fst (f a s) = Ok None \/ raised (fst (f a s))) ->
  forall s, fst (bind m f s) = Ok None \/ raised (fst (bind m f s)).
Proof.
  intros Hf s. unfold bind. destruct (m s) as [[a|e] s1]; [apply Hf|].
  right. now exists e.
Qed.

(** C9.  [local_density_analysis] has no [return]: whatever its input, it
    either raises or returns None, never a frame; on the three points of
    [xyz_only] with one neighbour it returns None after printing two numbers.
    With [serialize] set, the radius filter also writes its result to a fixed
    path before returning it. *)
Theorem local_density_analysis_returns_None :
  (forall (E : Env) (df_pcd : pandas.DataFrame) (nb_neighbors : Z) (serialize : bool)
          (w : World (Disk E)),
      fst (filter.local_density_analysis E df_pcd nb_neighbors serialize w) = Ok None
      \/ raised (fst (filter.local_density_analysis E df_pcd nb_neighbors serialize w)))
  /\ filter.local_density_analysis (Examples.toy []) Examples.xyz_only 1 false Examples.fresh
     = (Ok None,
        mkWorld [Stdout "" (numpy.finite (54 # 81));
                 Stdout "delta" (numpy.finite (300 # 3000))] [])
  /\ filter.radius_filtering_outliers_o3 (Examples.toy [0%Z; 2%Z]) Examples.xyz_only 1 5 true
       Examples.fresh
     = (Ok (pandas.mkDataFrame ["x"; "y"; "z"] [(0%Z, [0; 0; 0]); (2%Z, [0; 1; 0])]),
        mkWorld
          [SerializePointCloud "/home/data/radiuso3dpyramidedekmin_04.las"
             (Some (pandas.mkDataFrame ["x"; "y"; "z"] [(0%Z, [0; 0; 0]); (2%Z, [0; 1; 0])]))
             None]
          ["/home/data/radiuso3dpyramidedekmin_04.las"]).
Proof.
  split; [|split; reflexivity].
  intros E df_pcd nb_neighbors serialize.
  unfold filter.local_density_analysis.
  repeat (apply bind_returns_None; intros ?).
  intros w. left. reflexivity.
Qed.

(* ================================================================== *)
(** * Further properties of the handlers *)

(** ** Selecting columns *)

Lemma position_None_not_In (c : string) (cols : list string) :
  pandas.position c cols = None -> ~ In c cols.
Proof.
  intros Hnone Hin. destruct (position_In c cols Hin) as [p Hp]. congruence.
Qed.

Lemma positions_spec (names cols : list string) :
  (exists ps, pandas.positions names cols = Ok ps /\ length ps = length names)
  \/ (exists c, In c names /\ ~ In c cols
                /\ pandas.positions names cols = Raise (KeyError c)).
Proof.
  induction names as [|c names IH]; simpl.
  - left. now exists [].
  - destruct (pandas.position c cols) as [p|] eqn:Hp.
    + destruct IH as [[ps [-> Hlen]]|[c' [Hin [Hnot ->]]]].
      * left. exists (p :: ps). simpl. auto.
      * right. exists c'. auto.
    + right. exists c. repeat split; auto. now apply position_None_not_In.
Qed.

(** What [df[[names]]] gives: the sub-frame, or a KeyError on a label that
    is not a column. *)
Lemma select_spec (d : pandas.DataFrame) (names : list string) :
  (exists out, pandas.select d names = Ok out
               /\ pandas.columns out = names
               /\ pandas.index out = pandas.index d
               /\ length (pandas.rows out) = length (pandas.rows d)
               /\ pandas.aligned out)
  \/ (exists c, In c names /\ ~ In c (pandas.columns d)
                /\ pandas.select d names = Raise (KeyError c)).
Proof.
  unfold pandas.select.
  destruct (positions_spec names (pandas.columns d))
    as [[ps [-> Hlen]]|[c [Hin [Hnot ->]]]]; cbn [obind].
  - left. eexists. split; [reflexivity|]. cbn [pandas.columns pandas.rows].
    unfold pandas.index, pandas.aligned. cbn [pandas.columns pandas.rows].
    rewrite map_map, length_map. repeat split; trivial.
    apply Forall_forall. intros r Hr. apply in_map_iff in Hr.
    destruct Hr as [r0 [<- _]]. cbn [snd]. now rewrite length_map.
  - right. now exists c.
Qed.

Lemma select_present (d : pandas.DataFrame) (names : list string) :
  (forall c, In c names -> In c (pandas.columns d)) ->
  exists out, pandas.select d names = Ok out
              /\ pandas.columns out = names
              /\ pandas.index out = pandas.index d
              /\ length (pandas.rows out) = length (pandas.rows d)
              /\ pandas.aligned out.
Proof.
  intros Hall. destruct (select_spec d names) as [Hok|[c [Hin [Hnot _]]]]; [exact Hok|].
  exfalso. apply Hnot. now apply Hall.
Qed.

Lemma select_Ok_present (d out : pandas.DataFrame) (names : list string) :
  pandas.select d names = Ok out ->
  forall c, In c names -> In c (pandas.columns d).
Proof.
  intros Hsel. destruct (select_spec d names) as [_|[c [Hin [Hnot Hraise]]]].
  - generalize dependent out. unfold pandas.select.
    destruct (pandas.positions names (pandas.columns d)) as [ps|e] eqn:Hps;
      [|discriminate].
    intros _ _. revert ps Hps. induction names as [|c names IH]; intros ps Hps c' Hc'.
    + contradiction.
    + simpl in Hps. destruct (pandas.position c (pandas.columns d)) as [p|] eqn:Hp;
        [|discriminate].
      destruct (pandas.positions names (pandas.columns d)) as [ps'|e] eqn:Hps';
        [|discriminate].
      destruct Hc' as [<-|Hc'].
      * now apply position_Some_In with p.
      * now apply (IH ps').
  - congruence.
Qed.

(** X2.  Without a face table every predicate of [Mesh] raises the ValueError
    that says so, whatever the rest of the mesh holds, the point cloud
    included; each of the five yields a boolean exactly when a face table is
    assigned. *)
Theorem mesh_predicates_raise_when_unassigned :
  forall (m : Mesh.t),
    let unassigned := ValueError "Mesh (pandas DataFrame) is not assigned." in
    let bare := Mesh.mk (Mesh.pcd m) None (Mesh.o3d_mesh m) (Mesh.image_texture_path m) in
    (Mesh.has_triangles bare = Raise unassigned
     /\ Mesh.has_texture bare = Raise unassigned
     /\ Mesh.has_triangle_uvs bare = Raise unassigned
     /\ Mesh.has_normals bare = Raise unassigned
     /\ Mesh.has_classes bare = Raise unassigned)
    /\ ((exists b, Mesh.has_triangles m = Ok b) <-> Mesh.df m <> None)
    /\ ((exists b, Mesh.has_texture m = Ok b) <-> Mesh.df m <> None)
    /\ ((exists b, Mesh.has_triangle_uvs m = Ok b) <-> Mesh.df m <> None)
    /\ ((exists b, Mesh.has_normals m = Ok b) <-> Mesh.df m <> None)
    /\ ((exists b, Mesh.has_classes m = Ok b) <-> Mesh.df m <> None).
Proof.
  intros [pcd d o path] unassigned bare. split; [repeat split|].
  unfold Mesh.has_triangles, Mesh.has_texture, Mesh.has_triangle_uvs, Mesh.has_normals,
    Mesh.has_classes.
  cbn [Mesh.df]. destruct d as [d|]; repeat split;
    try (intros _; congruence); try (intros _; eexists; reflexivity);
    try (intros [b Hb]; discriminate Hb);
    intros H; exfalso; apply H; reflexivity.
Qed.

(** X3.  On a face table with no row (or no column) every predicate of
    [Mesh] is false: triangles, texture, UVs, normals and classes all need a
    non empty table, whatever its columns and whatever the texture path. *)
Theorem mesh_predicates_false_on_empty_table :
  forall (pcd : PointCloud.t) (d : pandas.DataFrame)
         (o : option o3d_TriangleMesh) (path : option string),
    pandas.empty d = true ->
    let m := Mesh.mk pcd (Some d) o path in
    Mesh.has_triangles m = Ok false
    /\ Mesh.has_texture m = Ok false
    /\ Mesh.has_triangle_uvs m = Ok false
    /\ Mesh.has_normals m = Ok false
    /\ Mesh.has_classes m = Ok false.
Proof.
  intros pcd d o path Hempty m.
  unfold m, Mesh.has_triangles, Mesh.has_texture, Mesh.has_triangle_uvs, Mesh.has_normals,
    Mesh.has_classes.
  cbn [Mesh.df]. rewrite Hempty. cbn [negb]. now rewrite !andb_false_r.
Qed.

(** A table with all the columns and no row. *)
Lemma mesh_predicates_false_on_rowless_table :
  let d := pandas.mkDataFrame
             ("p1" :: "p2" :: "p3" :: "classification" :: NORMALS ++ UVS) [] in
  let m := Mesh.mk (PointCloud.init (Some Examples.xyz_only) None) (Some d) None
             (Some "texture.jpg") in
  Mesh.has_triangles m = Ok false
  /\ Mesh.has_texture m = Ok false
  /\ Mesh.has_triangle_uvs m = Ok false
  /\ Mesh.has_normals m = Ok false
  /\ Mesh.has_classes m = Ok false.
Proof.
  exact (mesh_predicates_false_on_empty_table
           (PointCloud.init (Some Examples.xyz_only) None)
           (pandas.mkDataFrame
              ("p1" :: "p2" :: "p3" :: "classification" :: NORMALS ++ UVS) [])
           None (Some "texture.jpg") eq_refl).
Defined.

(** X4.  The guards are sufficient: once its predicate is true an accessor
    returns, it never fails on a missing column.  [get_colors] returns the
    colour columns that are present, in the order red, green, blue, nir;
    [get_normals], [get_triangles] and [get_triangle_uvs] return their three,
    three and six columns; every result keeps the index of the frame it was
    taken from, and the face tables returned have a row. *)
Theorem accessors_return_under_their_guard :
  forall (d faces : pandas.DataFrame) (o : option o3d_PointCloud)
         (pcd : PointCloud.t) (om : option o3d_TriangleMesh) (path : option string),
    let pc := PointCloud.mk (Some d) o in
    let m := Mesh.mk pcd (Some faces) om path in
    (PointCloud.has_colors pc = Ok true ->
     exists out, PointCloud.get_colors pc = Ok out
       /\ pandas.columns out = filter (pandas.contains d) COLORS
       /\ pandas.columns out <> []
       /\ pandas.index out = pandas.index d)
    /\ (PointCloud.has_normals pc = Ok true ->
        exists out, PointCloud.get_normals pc = Ok out
          /\ pandas.columns out = NORMALS
          /\ pandas.index out = pandas.index d)
    /\ (Mesh.has_triangles m = Ok true ->
        exists out, Mesh.get_triangles m = Ok out
          /\ pandas.columns out = ["p1"; "p2"; "p3"]
          /\ pandas.index out = pandas.index faces
          /\ pandas.rows out <> [])
    /\ (Mesh.has_triangle_uvs m = Ok true ->
        exists out, Mesh.get_triangle_uvs m = Ok out
          /\ pandas.columns out = UVS
          /\ pandas.index out = pandas.index faces
          /\ pandas.rows out <> []).
Proof.
  intros d faces o pcd om path pc m.
  assert (Hrows : forall (f out : pandas.DataFrame),
            pandas.empty f = false ->
            length (pandas.rows out) = length (pandas.rows f) ->
            pandas.rows out <> []).
  { intros f out He Hlen Hnil. apply (not_empty_rows f He).
    rewrite Hnil in Hlen. destruct (pandas.rows f); [reflexivity | discriminate]. }
  repeat split.
  - intros Hhas.
    assert (Hany : existsb (fun c => pandas.contains (pandas.head d) c) COLORS = true)
      by (injection Hhas as Hhas; exact Hhas).
    unfold PointCloud.get_colors. rewrite Hhas. cbn [obind negb PointCloud.df pc].
    destruct (select_present d (filter (fun c => pandas.contains (pandas.head d) c) COLORS))
      as [out [Hsel [Hcols [Hidx _]]]].
    { intros c Hc. apply filter_In in Hc. destruct Hc as [_ Hc]. now apply contains_In. }
    exists out. repeat split; trivial. rewrite Hcols.
    apply existsb_exists in Hany. destruct Hany as [c [Hc Hpresent]].
    intros Hnil.
    assert (Hin : In c (filter (fun c => pandas.contains (pandas.head d) c) COLORS))
      by (apply filter_In; auto).
    rewrite Hnil in Hin. contradiction.
  - intros Hhas.
    assert (Hall : forallb (fun n => pandas.contains (pandas.head d) n) NORMALS = true)
      by (injection Hhas as Hhas; exact Hhas).
    unfold PointCloud.get_normals. rewrite Hhas. cbn [obind negb PointCloud.df pc].
    destruct (select_present d NORMALS) as [out [Hsel [Hcols [Hidx _]]]].
    { now apply all_contains. }
    exists out. auto.
  - intros Hhas. unfold Mesh.get_triangles. cbn [Mesh.df m].
    assert (Hboth : forallb (fun n => pandas.contains (pandas.head faces) n)
                      ["p1"; "p2"; "p3"] && negb (pandas.empty faces) = true)
      by (injection Hhas as Hhas; exact Hhas).
    clear Hhas. rename Hboth into Hhas.
    apply andb_true_iff in Hhas. destruct Hhas as [Hall Hne]. apply negb_true_iff in Hne.
    destruct (select_present faces ["p1"; "p2"; "p3"]) as [out [Hsel [Hcols [Hidx [Hlen _]]]]].
    { now apply all_contains. }
    exists out. repeat split; trivial. now apply (Hrows faces).
  - intros Hhas. unfold Mesh.get_triangle_uvs. rewrite Hhas. cbn [obind negb Mesh.df m].
    assert (Hboth : forallb (fun n => pandas.contains (pandas.head faces) n) UVS
                    && negb (pandas.empty faces) = true)
      by (injection Hhas as Hhas; exact Hhas).
    clear Hhas. rename Hboth into Hhas.
    apply andb_true_iff in Hhas. destruct Hhas as [Hall Hne]. apply negb_true_iff in Hne.
    destruct (select_present faces UVS) as [out [Hsel [Hcols [Hidx [Hlen _]]]]].
    { now apply all_contains. }
    exists out. repeat split; trivial. now apply (Hrows faces).
Qed.

(** On [flat_red], [get_colors] returns the three channels it has. *)
Lemma get_colors_of_flat_red :
  exists out,
    PointCloud.get_colors (PointCloud.mk (Some Examples.flat_red) None) = Ok out
    /\ pandas.columns out = ["red"; "green"; "blue"]
    /\ pandas.columns out <> []
    /\ pandas.index out = [0%Z; 1%Z].
Proof.
  exact (proj1 (accessors_return_under_their_guard Examples.flat_red Examples.no_faces
                  None (PointCloud.init None None) None None) eq_refl).
Defined.

(** X5.  [get_vertices] and [get_triangles] are not guarded by a predicate:
    on an assigned frame they return exactly when their three columns are all
    present, whatever the number of rows, and otherwise raise a KeyError on a
    column that is missing; on an unassigned frame they raise a TypeError. *)
Theorem unguarded_accessors_need_their_columns :
  forall (d : pandas.DataFrame) (o : option o3d_PointCloud)
         (pcd : PointCloud.t) (om : option o3d_TriangleMesh) (path : option string),
    let pc := PointCloud.mk (Some d) o in
    let m := Mesh.mk pcd (Some d) om path in
    ((exists out, PointCloud.get_vertices pc = Ok out)
     <-> forall c, In c ["x"; "y"; "z"] -> In c (pandas.columns d))
    /\ ((forall out, PointCloud.get_vertices pc <> Ok out) ->
        exists c, In c ["x"; "y"; "z"] /\ ~ In c (pandas.columns d)
                  /\ PointCloud.get_vertices pc = Raise (KeyError c))
    /\ ((exists out, Mesh.get_triangles m = Ok out)
        <-> forall c, In c ["p1"; "p2"; "p3"] -> In c (pandas.columns d))
    /\ ((forall out, Mesh.get_triangles m <> Ok out) ->
        exists c, In c ["p1"; "p2"; "p3"] /\ ~ In c (pandas.columns d)
                  /\ Mesh.get_triangles m = Raise (KeyError c))
    /\ PointCloud.get_vertices (PointCloud.mk None o)
       = Raise (TypeError "'NoneType' object is not subscriptable")
    /\ Mesh.get_triangles (Mesh.mk pcd None om path)
       = Raise (TypeError "'NoneType' object is not subscriptable").
Proof.
  intros d o pcd om path pc m.
  assert (Hiff : forall names,
    ((exists out, pandas.select d names = Ok out)
     <-> forall c, In c names -> In c (pandas.columns d))
    /\ ((forall out, pandas.select d names <> Ok out) ->
        exists c, In c names /\ ~ In c (pandas.columns d)
                  /\ pandas.select d names = Raise (KeyError c))).
  { intros names. split; [split|].
    - intros [out Hout]. now apply select_Ok_present with out.
    - intros Hall. destruct (select_present d names Hall) as [out [Hout _]]. now exists out.
    - intros Hnever. destruct (select_spec d names) as [[out [Hout _]]|Hraise].
      + now destruct (Hnever out).
      + exact Hraise. }
  unfold PointCloud.get_vertices, Mesh.get_triangles. cbn [PointCloud.df Mesh.df pc m].
  destruct (Hiff ["x"; "y"; "z"]) as [H1 H2]. destruct (Hiff ["p1"; "p2"; "p3"]) as [H3 H4].
  repeat split; try apply H1; try apply H3; trivial.
Qed.

(** ** Conversions to Open3D *)

Lemma contains_position (d : pandas.DataFrame) (c : string) :
  pandas.contains d c = true ->
  exists p, pandas.position c (pandas.columns d) = Some p.
Proof. intros H. apply position_In. now apply contains_In. Qed.

Definition missing_channel (c : string) : PyError :=
  ValueError ("Open3D only deals with RGB colors. Here '" ++ c ++ "' is missing.").

(** The array of the three channels cannot be built without the three of
    them: the first one absent, in the order red, green, blue, is reported. *)
Lemma normalized_rgb_missing (d xyz : pandas.DataFrame) :
  pandas.select d ["x"; "y"; "z"] = Ok xyz ->
  (pandas.contains d "red" = false -> normalized_rgb d = Raise (missing_channel "red"))
  /\ (pandas.contains d "red" = true -> pandas.contains d "green" = false ->
      normalized_rgb d = Raise (missing_channel "green"))
  /\ (pandas.contains d "red" = true -> pandas.contains d "green" = true ->
      pandas.contains d "blue" = false ->
      normalized_rgb d = Raise (missing_channel "blue")).
Proof.
  intros Hxyz. unfold normalized_rgb, rgb_array. rewrite Hxyz.
  cbn [obind fold_left]. unfold rgb_fill. cbn [fst snd obind].
  repeat split.
  - intros ->. reflexivity.
  - intros Hr Hg. rewrite Hr, Hg.
    destruct (contains_position d "red" Hr) as [pr Hpr].
    unfold pandas.column. rewrite Hpr. reflexivity.
  - intros Hr Hg Hb. rewrite Hr, Hg, Hb.
    destruct (contains_position d "red" Hr) as [pr Hpr].
    destruct (contains_position d "green" Hg) as [pg Hpg].
    unfold pandas.column. rewrite Hpr, Hpg. reflexivity.
Qed.

Lemma normalized_rgb_no_row (d xyz rgb : pandas.DataFrame) :
  pandas.select d ["x"; "y"; "z"] = Ok xyz ->
  pandas.select d ["red"; "green"; "blue"] = Ok rgb ->
  pandas.rows d = [] ->
  normalized_rgb d
  = Raise (ValueError
             "zero-size array to reduction operation minimum which has no identity").
Proof.
  intros Hxyz Hrgb Hrows. unfold normalized_rgb.
  rewrite (rgb_array_is_rgb_frame d xyz rgb Hxyz Hrgb). cbn [obind].
  unfold pandas.select in Hrgb.
  destruct (pandas.positions _ (pandas.columns d)) as [ps|e]; [|discriminate].
  cbn [obind] in Hrgb. injection Hrgb as <-. rewrite Hrows. reflexivity.
Qed.

(** X6.  Writing the colours to Open3D, for a point cloud
    ([set_o3d_colors]) and for a mesh ([set_o3d_vertex_colors]), needs more
    than [has_colors]: it raises the ValueError that names the first of red,
    green, blue that is not a column, so a cloud whose only colour is nir has
    colours and cannot be written; with the three channels and no row it
    raises numpy's ValueError on the minimum of an empty array; and without
    an Open3D object it raises before looking at the frame. *)
Theorem o3d_colors_need_rgb_and_a_row :
  forall (d xyz : pandas.DataFrame) (o : o3d_PointCloud) (om : o3d_TriangleMesh)
         (p : option o3d_PointCloud) (faces : option pandas.DataFrame)
         (path : option string),
    pandas.select d ["x"; "y"; "z"] = Ok xyz ->
    let pc := PointCloud.mk (Some d) (Some o) in
    let m := Mesh.mk (PointCloud.mk (Some d) p) faces (Some om) path in
    let missing (c : string) : PyError :=
      ValueError ("Open3D only deals with RGB colors. Here '" ++ c ++ "' is missing.") in
    (pandas.contains d "red" = false ->
     PointCloud.set_o3d_colors pc = Raise (missing "red")
     /\ Mesh.set_o3d_vertex_colors m = Raise (missing "red"))
    /\ (pandas.contains d "red" = true -> pandas.contains d "green" = false ->
        PointCloud.set_o3d_colors pc = Raise (missing "green")
        /\ Mesh.set_o3d_vertex_colors m = Raise (missing "green"))
    /\ (pandas.contains d "red" = true -> pandas.contains d "green" = true ->
        pandas.contains d "blue" = false ->
        PointCloud.set_o3d_colors pc = Raise (missing "blue")
        /\ Mesh.set_o3d_vertex_colors m = Raise (missing "blue"))
    /\ (pandas.contains d "red" = true -> pandas.contains d "green" = true ->
        pandas.contains d "blue" = true -> pandas.rows d = [] ->
        PointCloud.set_o3d_colors pc
        = Raise (ValueError
                   "zero-size array to reduction operation minimum which has no identity")
        /\ Mesh.set_o3d_vertex_colors m
           = Raise (ValueError
                      "zero-size array to reduction operation minimum which has no identity"))
    /\ PointCloud.set_o3d_colors (PointCloud.mk (Some d) None)
       = Raise (ValueError "Open3D Point Cloud is empty.")
    /\ Mesh.set_o3d_vertex_colors (Mesh.mk (PointCloud.mk (Some d) p) faces None path)
       = Raise (ValueError "Could not set df from open3d mesh because it is empty.").
Proof.
  intros d xyz o om p faces path Hxyz pc m missing.
  destruct (normalized_rgb_missing d xyz Hxyz) as [Hred [Hgreen Hblue]].
  unfold PointCloud.set_o3d_colors, Mesh.set_o3d_vertex_colors.
  cbn [PointCloud.o3d_pcd PointCloud.df Mesh.o3d_mesh Mesh.pcd pc m].
  repeat split.
  - now rewrite (Hred H).
  - now rewrite (Hred H).
  - now rewrite (Hgreen H H0).
  - now rewrite (Hgreen H H0).
  - now rewrite (Hblue H H0 H1).
  - now rewrite (Hblue H H0 H1).
  - destruct (select_present d ["red"; "green"; "blue"]) as [rgb [Hrgb _]].
    { intros c [<-|[<-|[<-|[]]]]; now apply contains_In. }
    now rewrite (normalized_rgb_no_row d xyz rgb Hxyz Hrgb H2).
  - destruct (select_present d ["red"; "green"; "blue"]) as [rgb [Hrgb _]].
    { intros c [<-|[<-|[<-|[]]]]; now apply contains_In. }
    now rewrite (normalized_rgb_no_row d xyz rgb Hxyz Hrgb H2).
Qed.

(** [nir_only] has colours, and they cannot be written to Open3D. *)
Lemma nir_only_cannot_be_written :
  PointCloud.has_colors (PointCloud.mk (Some Examples.nir_only) (Some Examples.empty_o3d_pcd))
  = Ok true
  /\ PointCloud.set_o3d_colors
       (PointCloud.mk (Some Examples.nir_only) (Some Examples.empty_o3d_pcd))
     = Raise (ValueError "Open3D only deals with RGB colors. Here 'red' is missing.").
Proof.
  split; [reflexivity|].
  exact (proj1 (proj1 (o3d_colors_need_rgb_and_a_row Examples.nir_only
                         (pandas.mkDataFrame ["x"; "y"; "z"]
                            [(0%Z, [0; 0; 0]); (1%Z, [1; 1; 1])])
                         Examples.empty_o3d_pcd Examples.empty_o3d_mesh None None None
                         eq_refl)
                  eq_refl)).
Defined.

Lemma set_o3d_pcd_from_df_run (d xyz : pandas.DataFrame) (o0 : option o3d_PointCloud) :
  pandas.select d ["x"; "y"; "z"] = Ok xyz ->
  PointCloud_set_o3d_pcd_from_df (PointCloud.mk (Some d) o0)
  = let fresh := PointCloud.mk (Some d) (Some (mk_o3d_PointCloud (pandas.to_numpy xyz) [] [])) in
    let coloured :=
      if existsb (fun c => pandas.contains (pandas.head d) c) COLORS
      then update PointCloud.set_o3d_colors fresh else (Ok tt, fresh) in
    match coloured with
    | (Ok _, s) =>
        if forallb (fun n => pandas.contains (pandas.head d) n) NORMALS
        then update PointCloud_set_o3d_normals s else (Ok tt, s)
    | (Raise e, s) => (Raise e, s)
    end.
Proof.
  intros Hxyz.
  unfold PointCloud_set_o3d_pcd_from_df, bind, ask, ret.
  unfold update at 1. unfold PointCloud_new_o3d_pcd. cbn [PointCloud.df].
  rewrite Hxyz. cbn [obind]. cbn [PointCloud.has_colors PointCloud.df].
  destruct (existsb (fun c => pandas.contains (pandas.head d) c) COLORS).
  - destruct (update PointCloud.set_o3d_colors _) as [[[]|e] s] eqn:Hupd; [|reflexivity].
    assert (Hdf : PointCloud.df s = Some d).
    { unfold update in Hupd. destruct (PointCloud.set_o3d_colors _) as [s'|e] eqn:Hset;
        [|discriminate]. injection Hupd as <-.
      unfold PointCloud.set_o3d_colors in Hset. cbn [PointCloud.o3d_pcd PointCloud.df] in Hset.
      destruct (normalized_rgb d); [|discriminate]. cbn [obind] in Hset.
      now injection Hset as <-. }
    unfold PointCloud.has_normals. rewrite Hdf.
    match goal with |- context [if ?b then _ else _] => destruct b end; reflexivity.
  - unfold PointCloud.has_normals. cbn [PointCloud.df].
    match goal with |- context [if ?b then _ else _] => destruct b end; reflexivity.
Qed.

(** X7.  [set_o3d_pcd_from_df] always starts from a new Open3D cloud made of
    the x, y, z columns: whatever Open3D object the handler held is replaced,
    also when the call raises later.  With neither colours nor normals the
    cloud holds the points only; with normals and no colour the three normal
    columns are copied; with red, green, blue and at least one row the
    normalised colours are stored; with some colour column but not the three
    RGB ones the call raises and leaves the cloud with its points only.
    Without the x, y, z columns it raises a KeyError and changes nothing. *)
Theorem set_o3d_pcd_from_df_rebuilds_the_cloud :
  forall (d : pandas.DataFrame) (o0 : option o3d_PointCloud),
    let pc := PointCloud.mk (Some d) o0 in
    (forall e, pandas.select d ["x"; "y"; "z"] = Raise e ->
               PointCloud_set_o3d_pcd_from_df pc = (Raise e, pc))
    /\ (forall xyz, pandas.select d ["x"; "y"; "z"] = Ok xyz ->
        let with_o3d colors normals :=
          PointCloud.mk (Some d)
            (Some (mk_o3d_PointCloud (pandas.to_numpy xyz) colors normals)) in
        (exists o, PointCloud.o3d_pcd (snd (PointCloud_set_o3d_pcd_from_df pc)) = Some o
                   /\ o3d_points o = pandas.to_numpy xyz
                   /\ length (o3d_points o) = length (pandas.rows d))
        /\ (PointCloud.has_colors pc = Ok false -> PointCloud.has_normals pc = Ok false ->
            PointCloud_set_o3d_pcd_from_df pc = (Ok tt, with_o3d [] []))
        /\ (PointCloud.has_colors pc = Ok false -> PointCloud.has_normals pc = Ok true ->
            exists normals,
              pandas.select d NORMALS = Ok normals
              /\ PointCloud_set_o3d_pcd_from_df pc
                 = (Ok tt, with_o3d [] (pandas.to_numpy normals)))
        /\ (forall rgb, pandas.select d ["red"; "green"; "blue"] = Ok rgb ->
            pandas.rows d <> [] -> PointCloud.has_normals pc = Ok false ->
            exists colors,
              normalized_rgb d = Ok colors
              /\ PointCloud_set_o3d_pcd_from_df pc = (Ok tt, with_o3d colors []))
        /\ (PointCloud.has_colors pc = Ok true ->
            (exists c, In c ["red"; "green"; "blue"] /\ pandas.contains d c = false) ->
            exists c, In c ["red"; "green"; "blue"] /\ pandas.contains d c = false
              /\ PointCloud_set_o3d_pcd_from_df pc
                 = (Raise (ValueError ("Open3D only deals with RGB colors. Here '" ++ c
                                       ++ "' is missing.")),
                    with_o3d [] []))).
Proof.
  intros d o0 pc. split.
  - intros e He. unfold PointCloud_set_o3d_pcd_from_df, bind, update at 1.
    unfold PointCloud_new_o3d_pcd. cbn [PointCloud.df pc]. now rewrite He.
  - intros xyz Hxyz with_o3d.
    pose proof (set_o3d_pcd_from_df_run d xyz o0 Hxyz) as Hrun. cbv zeta in Hrun.
    fold pc in Hrun.
    assert (Hcol : forall b, PointCloud.has_colors pc = Ok b ->
              existsb (fun c => pandas.contains (pandas.head d) c) COLORS = b)
      by (intros b Hb; injection Hb as Hb; exact Hb).
    assert (Hnor : forall b, PointCloud.has_normals pc = Ok b ->
              forallb (fun n => pandas.contains (pandas.head d) n) NORMALS = b)
      by (intros b Hb; injection Hb as Hb; exact Hb).
    split; [|split; [|split; [|split]]].
    + rewrite Hrun.
      assert (Hlen : length (pandas.to_numpy xyz) = length (pandas.rows d)).
      { destruct (select_spec d ["x"; "y"; "z"]) as [[out [Hout [_ [_ [Hlen _]]]]]|[c [_ [_ Hc]]]];
          [|congruence].
        rewrite Hxyz in Hout. injection Hout as <-. unfold pandas.to_numpy.
        now rewrite length_map. }
      destruct (existsb _ COLORS).
      * unfold update at 1. unfold PointCloud.set_o3d_colors.
        cbn [PointCloud.o3d_pcd PointCloud.df].
        destruct (normalized_rgb d) as [colors|e]; cbn [obind].
        -- destruct (forallb _ NORMALS).
           ++ unfold update, PointCloud_set_o3d_normals. cbn [PointCloud.o3d_pcd PointCloud.df].
              destruct (pandas.select d NORMALS); cbn [obind snd PointCloud.o3d_pcd];
                eexists; repeat split; trivial.
           ++ cbn [snd PointCloud.o3d_pcd]. eexists; repeat split; trivial.
        -- cbn [snd PointCloud.o3d_pcd]. eexists; repeat split; trivial.
      * destruct (forallb _ NORMALS).
        -- unfold update, PointCloud_set_o3d_normals. cbn [PointCloud.o3d_pcd PointCloud.df].
           destruct (pandas.select d NORMALS); cbn [obind snd PointCloud.o3d_pcd];
             eexists; repeat split; trivial.
        -- cbn [snd PointCloud.o3d_pcd]. eexists; repeat split; trivial.
    + intros Hc Hn. rewrite Hrun, (Hcol _ Hc), (Hnor _ Hn). reflexivity.
    + intros Hc Hn. rewrite Hrun, (Hcol _ Hc), (Hnor _ Hn).
      destruct (select_present d NORMALS) as [normals [Hsel _]].
      { apply all_contains. now apply Hnor. }
      exists normals. split; [exact Hsel|].
      unfold update, PointCloud_set_o3d_normals. cbn [PointCloud.o3d_pcd PointCloud.df].
      rewrite Hsel. reflexivity.
    + intros rgb Hrgb Hrows Hn.
      destruct (normalized_rgb_cells d xyz rgb Hxyz Hrgb Hrows)
        as [lo [hi [colors [_ [_ [Hnorm _]]]]]].
      exists colors. split; [exact Hnorm|].
      rewrite Hrun, (Hnor _ Hn).
      assert (Hany : existsb (fun c => pandas.contains (pandas.head d) c) COLORS = true).
      { apply existsb_exists. exists "red". split; [simpl; auto|].
        rewrite contains_head. apply contains_In.
        apply (select_Ok_present d rgb _ Hrgb). simpl; auto. }
      rewrite Hany. unfold update, PointCloud.set_o3d_colors.
      cbn [PointCloud.o3d_pcd PointCloud.df]. rewrite Hnorm. reflexivity.
    + intros Hc [c [Hin Habsent]].
      destruct (normalized_rgb_missing d xyz Hxyz) as [Hred [Hgreen Hblue]].
      assert (Hfirst : exists c', In c' ["red"; "green"; "blue"]
                /\ pandas.contains d c' = false
                /\ normalized_rgb d = Raise (missing_channel c')).
      { destruct (pandas.contains d "red") eqn:Hr.
        - destruct (pandas.contains d "green") eqn:Hg.
          + destruct (pandas.contains d "blue") eqn:Hb.
            * destruct Hin as [<-|[<-|[<-|[]]]]; congruence.
            * exists "blue". repeat split; simpl; auto.
          + exists "green". repeat split; simpl; auto.
        - exists "red". repeat split; simpl; auto. }
      destruct Hfirst as [c' [Hin' [Habs' Hraise]]].
      exists c'. repeat split; trivial.
      rewrite Hrun, (Hcol _ Hc). unfold update, PointCloud.set_o3d_colors.
      cbn [PointCloud.o3d_pcd PointCloud.df]. rewrite Hraise. reflexivity.
Qed.

(** On [nir_only] the conversion raises and leaves a cloud without colours. *)
Lemma set_o3d_pcd_from_df_on_nir_only :
  exists c, In c ["red"; "green"; "blue"] /\ pandas.contains Examples.nir_only c = false
    /\ PointCloud_set_o3d_pcd_from_df (PointCloud.mk (Some Examples.nir_only) None)
       = (Raise (ValueError ("Open3D only deals with RGB colors. Here '" ++ c
                             ++ "' is missing.")),
          PointCloud.mk (Some Examples.nir_only)
            (Some (mk_o3d_PointCloud [[0; 0; 0]; [1; 1; 1]] [] []))).
Proof.
  apply (proj2 (proj2 (proj2 (proj2
           (proj2 (set_o3d_pcd_from_df_rebuilds_the_cloud Examples.nir_only None)
              (pandas.mkDataFrame ["x"; "y"; "z"] [(0%Z, [0; 0; 0]); (1%Z, [1; 1; 1])])
              eq_refl))))).
  - reflexivity.
  - exists "red". split; [simpl; auto | reflexivity].
Defined.

(** ** Frames built from arrays *)

Lemma map_snd_combine_same {A B : Type} (l1 : list A) (l2 : list B) :
  length l1 = length l2 -> map snd (combine l1 l2) = l2.
Proof.
  revert l2. induction l1 as [|a l1 IH]; intros [|b l2] Hlen; simpl in *; try congruence.
  f_equal. apply IH. congruence.
Qed.

Lemma map_fst_combine_same {A B : Type} (l1 : list A) (l2 : list B) :
  length l1 = length l2 -> map fst (combine l1 l2) = l1.
Proof.
  revert l2. induction l1 as [|a l1 IH]; intros [|b l2] Hlen; simpl in *; try congruence.
  f_equal. apply IH. congruence.
Qed.

Lemma range_index_length (n : nat) : length (pandas.range_index n) = n.
Proof. unfold pandas.range_index. now rewrite length_map, length_seq. Qed.

Lemma three_cells (r : list Q) :
  length r = 3%nat -> [nth 0 r 0; nth 1 r 0; nth 2 r 0] = r.
Proof. destruct r as [|a [|b [|c [|e r]]]]; simpl; intros H; try discriminate. reflexivity. Qed.

(** A frame built from an array of three columns gives the array back when
    its three columns are selected. *)
Lemma from_array_three (a : ndarray) (c1 c2 c3 : string) (d : pandas.DataFrame) :
  pandas.positions [c1; c2; c3] [c1; c2; c3] = Ok [0; 1; 2]%nat ->
  ndarray_wf a -> ndarray_ncols a = 3%nat ->
  pandas.from_array a [c1; c2; c3] = Ok d ->
  exists out, pandas.select d [c1; c2; c3] = Ok out
              /\ pandas.to_numpy out = ndarray_rows a
              /\ pandas.index out = pandas.range_index (length (ndarray_rows a)).
Proof.
  intros Hpos Hwf Hcols. unfold pandas.from_array. rewrite Hcols. cbn [length Nat.eqb].
  intros [= <-]. unfold pandas.select. cbn [pandas.columns pandas.rows]. rewrite Hpos.
  cbn [obind]. eexists. split; [reflexivity|].
  unfold pandas.to_numpy, pandas.index. cbn [pandas.rows]. rewrite !map_map. cbn [fst snd map].
  split.
  - transitivity (map snd (combine (pandas.range_index (length (ndarray_rows a)))
                             (ndarray_rows a)));
      [|apply map_snd_combine_same, range_index_length].
    apply map_ext_in. intros [l r] Hin. cbn [snd]. apply three_cells.
    apply in_combine_r in Hin. unfold ndarray_wf in Hwf. rewrite Forall_forall in Hwf.
    rewrite (Hwf r Hin). exact Hcols.
  - change (map (fun x => fst x) ?l) with (map fst l).
    apply map_fst_combine_same, range_index_length.
Qed.

(** X8.  [set_df_from_vertices], on a point cloud and on a mesh, replaces
    the frame by one built from the array alone: it raises a ValueError
    unless the array has three columns; afterwards the index is 0, 1, ...,
    the point cloud has no colour, no normal and no class whatever it had
    before, the mesh has no UVs and no texture, and [get_vertices]
    (respectively [get_triangles]) returns the array that was given; the
    Open3D objects and the texture path are left as they were. *)
Theorem set_df_from_vertices_replaces_the_frame :
  forall (self : PointCloud.t) (m : Mesh.t) (vertices : ndarray),
    (ndarray_ncols vertices <> 3%nat ->
     (exists msg, PointCloud_set_df_from_vertices self vertices = Raise (ValueError msg))
     /\ (exists msg, Mesh_set_df_from_vertices m vertices = Raise (ValueError msg)))
    /\ (ndarray_ncols vertices = 3%nat ->
        (exists pc',
            PointCloud_set_df_from_vertices self vertices = Ok pc'
            /\ PointCloud.o3d_pcd pc' = PointCloud.o3d_pcd self
            /\ PointCloud.has_colors pc' = Ok false
            /\ PointCloud.has_normals pc' = Ok false
            /\ PointCloud.has_classes pc' = Ok false
            /\ (ndarray_wf vertices ->
                exists out, PointCloud.get_vertices pc' = Ok out
                  /\ pandas.to_numpy out = ndarray_rows vertices
                  /\ pandas.index out
                     = pandas.range_index (length (ndarray_rows vertices))))
        /\ (exists m',
            Mesh_set_df_from_vertices m vertices = Ok m'
            /\ Mesh.pcd m' = Mesh.pcd m
            /\ Mesh.o3d_mesh m' = Mesh.o3d_mesh m
            /\ Mesh.image_texture_path m' = Mesh.image_texture_path m
            /\ Mesh.has_triangle_uvs m' = Ok false
            /\ Mesh.has_texture m' = Ok false
            /\ (ndarray_wf vertices ->
                exists out, Mesh.get_triangles m' = Ok out
                  /\ pandas.to_numpy out = ndarray_rows vertices
                  /\ pandas.index out
                     = pandas.range_index (length (ndarray_rows vertices))))).
Proof.
  intros self m vertices. split.
  - intros Hne. unfold PointCloud_set_df_from_vertices, Mesh_set_df_from_vertices,
      pandas.from_array. cbn [length].
    destruct (ndarray_ncols vertices =? 3)%nat eqn:Heq.
    + apply Nat.eqb_eq in Heq. contradiction.
    + cbn [obind]. split; eexists; reflexivity.
  - intros Hcols. split.
    + destruct (pandas.from_array vertices ["x"; "y"; "z"]) as [d|e] eqn:Hd.
      * exists (PointCloud.mk (Some d) (PointCloud.o3d_pcd self)).
        unfold PointCloud_set_df_from_vertices. rewrite Hd. cbn [obind].
        assert (Hc : pandas.columns d = ["x"; "y"; "z"]).
        { unfold pandas.from_array in Hd. rewrite Hcols in Hd. cbn in Hd.
          now injection Hd as <-. }
        unfold PointCloud.has_colors, PointCloud.has_normals, PointCloud.has_classes,
          PointCloud.get_vertices, pandas.contains, pandas.head.
        cbn [PointCloud.df PointCloud.o3d_pcd pandas.columns]. rewrite Hc.
        repeat split.
        intros Hwf. now apply from_array_three.
      * unfold pandas.from_array in Hd. rewrite Hcols in Hd. discriminate Hd.
    + destruct (pandas.from_array vertices ["p1"; "p2"; "p3"]) as [d|e] eqn:Hd.
      * exists (Mesh.mk (Mesh.pcd m) (Some d) (Mesh.o3d_mesh m) (Mesh.image_texture_path m)).
        unfold Mesh_set_df_from_vertices. rewrite Hd. cbn [obind].
        assert (Hc : pandas.columns d = ["p1"; "p2"; "p3"]).
        { unfold pandas.from_array in Hd. rewrite Hcols in Hd. cbn in Hd.
          now injection Hd as <-. }
        unfold Mesh.has_triangle_uvs, Mesh.has_texture, Mesh.get_triangles,
          pandas.contains, pandas.head.
        cbn [Mesh.df Mesh.pcd Mesh.o3d_mesh Mesh.image_texture_path pandas.columns].
        rewrite Hc. cbn [forallb existsb String.eqb Ascii.eqb Bool.eqb andb orb].
        rewrite ?andb_false_r. repeat split.
        intros Hwf. now apply from_array_three.
      * unfold pandas.from_array in Hd. rewrite Hcols in Hd. discriminate Hd.
Qed.

(** The triangles of [two_triangles] come back from [get_triangles]. *)
Lemma set_df_from_vertices_two_triangles :
  exists m',
    Mesh_set_df_from_vertices Examples.cloud_only Examples.two_triangles = Ok m'
    /\ exists out, Mesh.get_triangles m' = Ok out
         /\ pandas.to_numpy out = [[0; 1; 2]; [1; 2; 3]]
         /\ pandas.index out = [0%Z; 1%Z].
Proof.
  destruct (proj2 (proj2 (set_df_from_vertices_replaces_the_frame
                            (PointCloud.init None None) Examples.cloud_only
                            Examples.two_triangles) eq_refl))
    as [m' [Hset [_ [_ [_ [_ [_ Hget]]]]]]].
  exists m'. split; [exact Hset|]. apply Hget.
  repeat constructor.
Defined.

(** ** Assigning columns *)

Lemma position_bound (c : string) (cols : list string) (p : nat) :
  pandas.position c cols = Some p -> (p < length cols)%nat /\ nth p cols "" = c.
Proof.
  revert p. induction cols as [|c' cols IH]; simpl; [discriminate|].
  intros p. destruct (String.eqb c c') eqn:Heq.
  - intros [= <-]. apply String.eqb_eq in Heq. split; [lia | now subst].
  - destruct (pandas.position c cols) as [q|]; [|discriminate].
    intros [= <-]. destruct (IH q eq_refl). split; [lia | assumption].
Qed.

Lemma position_app_l (c : string) (cols more : list string) (p : nat) :
  pandas.position c cols = Some p -> pandas.position c (cols ++ more) = Some p.
Proof.
  revert p. induction cols as [|c' cols IH]; simpl; [discriminate|].
  intros p. destruct (String.eqb c c'); [trivial|].
  destruct (pandas.position c cols) as [q|]; [|discriminate].
  intros [= <-]. now rewrite (IH q eq_refl).
Qed.

Lemma position_app_new (c : string) (cols : list string) :
  pandas.position c cols = None ->
  pandas.position c (cols ++ [c]) = Some (length cols).
Proof.
  induction cols as [|c' cols IH]; simpl.
  - now rewrite String.eqb_refl.
  - destruct (String.eqb c c'); [discriminate|].
    destruct (pandas.position c cols); [discriminate|]. intros _. now rewrite IH.
Qed.

Lemma position_app_other (c c' : string) (cols : list string) :
  c' <> c -> pandas.position c' cols = None ->
  pandas.position c' (cols ++ [c]) = None.
Proof.
  intros Hne. induction cols as [|c0 cols IH]; simpl.
  - intros _. apply String.eqb_neq in Hne. now rewrite Hne.
  - destruct (String.eqb c' c0); [discriminate|].
    destruct (pandas.position c' cols); [discriminate|]. intros _. now rewrite IH.
Qed.

Lemma replace_cell_length (p : nat) (v : Q) (cells : list Q) :
  length (pandas.replace_cell p v cells) = length cells.
Proof.
  revert p. induction cells as [|c cells IH]; intros [|p]; simpl; auto.
Qed.

Lemma replace_cell_same (p : nat) (v : Q) (cells : list Q) :
  (p < length cells)%nat -> nth p (pandas.replace_cell p v cells) 0 = v.
Proof.
  revert p. induction cells as [|c cells IH]; intros [|p]; simpl; try lia; trivial.
  intros H. apply IH. lia.
Qed.

Lemma replace_cell_other (p q : nat) (v : Q) (cells : list Q) :
  q <> p -> nth q (pandas.replace_cell p v cells) 0 = nth q cells 0.
Proof.
  revert p q. induction cells as [|c cells IH]; intros [|p] [|q]; simpl; try congruence.
  intros H. apply IH. congruence.
Qed.

Section SetColumn.

Variables (d : pandas.DataFrame) (c : string) (vals : list Q).
Hypothesis Haligned : pandas.aligned d.
Hypothesis Hlen : length vals = length (pandas.rows d).

Lemma set_column_index :
  pandas.index (pandas.set_column d c vals) = pandas.index d.
Proof.
  unfold pandas.set_column, pandas.index.
  destruct (pandas.position c (pandas.columns d)); cbn [pandas.rows];
    rewrite map_map; cbn [fst];
    change (map (fun x => fst (fst x)) ?l) with (map (fun x => fst (fst x)) l);
    rewrite <- (map_map fst fst); now rewrite map_fst_combine_same.
Qed.

Lemma set_column_rows_length :
  length (pandas.rows (pandas.set_column d c vals)) = length (pandas.rows d).
Proof.
  rewrite <- (length_map fst). change (map fst ?l) with (pandas.index (pandas.mkDataFrame [] l)).
  change (pandas.index (pandas.mkDataFrame [] (pandas.rows (pandas.set_column d c vals))))
    with (pandas.index (pandas.set_column d c vals)).
  rewrite set_column_index. unfold pandas.index. apply length_map.
Qed.

Lemma set_column_aligned : pandas.aligned (pandas.set_column d c vals).
Proof.
  unfold pandas.aligned, pandas.set_column in *. rewrite Forall_forall in *.
  destruct (pandas.position c (pandas.columns d)); cbn [pandas.rows pandas.columns];
    intros r Hr; apply in_map_iff in Hr; destruct Hr as [[r0 v] [<- Hin]];
    apply in_combine_l in Hin; cbn [fst snd].
  - rewrite replace_cell_length. now apply Haligned.
  - rewrite !length_app. cbn [length]. now rewrite (Haligned r0 Hin).
Qed.

Lemma set_column_columns (c' : string) :
  In c' (pandas.columns (pandas.set_column d c vals))
  <-> In c' (pandas.columns d) \/ c' = c.
Proof.
  unfold pandas.set_column.
  destruct (pandas.position c (pandas.columns d)) as [p|] eqn:Hp; cbn [pandas.columns].
  - split; [auto|]. intros [H| ->]; [exact H|]. now apply position_Some_In with p.
  - rewrite in_app_iff. simpl. intuition.
Qed.

Lemma column_rows (p : nat) (f : list Q -> Q -> list Q) :
  (forall r v, In (r, v) (combine (pandas.rows d) vals) ->
     nth p (f (snd r) v) 0 = v) ->
  map (fun r => nth p (snd r) 0)
    (map (fun rv => (fst (fst rv), f (snd (fst rv)) (snd rv))) (combine (pandas.rows d) vals))
  = vals.
Proof.
  intros Hf. rewrite map_map. cbn [snd].
  transitivity (map snd (combine (pandas.rows d) vals));
    [|now apply map_snd_combine_same].
  apply map_ext_in. intros [r v] Hin. cbn [fst snd]. now apply Hf.
Qed.

Lemma set_column_same :
  pandas.column (pandas.set_column d c vals) c = Ok vals.
Proof.
  unfold pandas.column, pandas.set_column.
  destruct (pandas.position c (pandas.columns d)) as [p|] eqn:Hp;
    cbn [pandas.columns pandas.rows].
  - rewrite Hp. f_equal. apply (column_rows p (fun cells v => pandas.replace_cell p v cells)).
    intros r v Hin. apply replace_cell_same. apply in_combine_l in Hin.
    unfold pandas.aligned in Haligned. rewrite Forall_forall in Haligned.
    rewrite (Haligned r Hin). now apply (position_bound c).
  - rewrite (position_app_new c _ Hp). f_equal.
    apply (column_rows (length (pandas.columns d)) (fun cells v => cells ++ [v])).
    intros r v Hin. apply in_combine_l in Hin.
    unfold pandas.aligned in Haligned. rewrite Forall_forall in Haligned.
    rewrite <- (Haligned r Hin). now rewrite nth_middle.
Qed.

Lemma set_column_other (c' : string) :
  c' <> c ->
  pandas.column (pandas.set_column d c vals) c' = pandas.column d c'.
Proof.
  intros Hne. unfold pandas.column, pandas.set_column.
  assert (Hrows : forall (q : nat) (f : list Q -> Q -> list Q),
    (forall r v, In (r, v) (combine (pandas.rows d) vals) ->
       nth q (f (snd r) v) 0 = nth q (snd r) 0) ->
    map (fun r => nth q (snd r) 0)
      (map (fun rv => (fst (fst rv), f (snd (fst rv)) (snd rv)))
         (combine (pandas.rows d) vals))
    = map (fun r => nth q (snd r) 0) (pandas.rows d)).
  { intros q f Hf. rewrite map_map. cbn [snd].
    rewrite <- (map_fst_combine_same (pandas.rows d) vals) at 2 by now symmetry.
    rewrite map_map. apply map_ext_in. intros [r v] Hin. cbn [fst snd]. now apply Hf. }
  destruct (pandas.position c (pandas.columns d)) as [p|] eqn:Hp;
    cbn [pandas.columns pandas.rows].
  - destruct (pandas.position c' (pandas.columns d)) as [q|] eqn:Hq; [|reflexivity].
    f_equal. apply (Hrows q (fun cells v => pandas.replace_cell p v cells)).
    intros r v _. apply replace_cell_other. intros ->.
    destruct (position_bound c _ _ Hp) as [_ H1].
    destruct (position_bound c' _ _ Hq) as [_ H2]. congruence.
  - destruct (pandas.position c' (pandas.columns d)) as [q|] eqn:Hq.
    + rewrite (position_app_l c' _ [c] q Hq). f_equal.
      apply (Hrows q (fun cells v => cells ++ [v])).
      intros r v Hin. apply in_combine_l in Hin. apply app_nth1.
      unfold pandas.aligned in Haligned. rewrite Forall_forall in Haligned.
      rewrite (Haligned r Hin). now apply (position_bound c').
    + now rewrite (position_app_other c c' _ Hne Hq).
Qed.

End SetColumn.

(** What [df[names] = a] leaves behind, column by column. *)
Lemma setitem_fold (a : ndarray) (l : list (nat * string)) :
  forall d : pandas.DataFrame,
    pandas.aligned d ->
    length (ndarray_rows a) = length (pandas.rows d) ->
    NoDup (map snd l) ->
    let d' := fold_left
                (fun acc ic => pandas.set_column acc (snd ic) (ndarray_column a (fst ic)))
                l d in
    pandas.aligned d'
    /\ pandas.index d' = pandas.index d
    /\ length (pandas.rows d') = length (pandas.rows d)
    /\ (forall i c, In (i, c) l -> pandas.column d' c = Ok (ndarray_column a i))
    /\ (forall c', ~ In c' (map snd l) -> pandas.column d' c' = pandas.column d c')
    /\ (forall c', In c' (pandas.columns d')
                   <-> In c' (pandas.columns d) \/ In c' (map snd l)).
Proof.
  induction l as [|[i c] l IH]; intros d Haligned Hlen Hnodup; cbn [fold_left fst snd].
  - cbn. repeat split; auto; tauto.
  - cbn [map snd] in Hnodup. inversion Hnodup as [|? ? Hnotin Hnodup']; subst.
    assert (Hcol : length (ndarray_column a i) = length (pandas.rows d))
      by (unfold ndarray_column; now rewrite length_map).
    pose proof (set_column_aligned d c (ndarray_column a i) Haligned) as Ha1.
    pose proof (set_column_rows_length d c _ Hcol) as Hl1.
    pose proof (set_column_index d c _ Hcol) as Hi1.
    destruct (IH (pandas.set_column d c (ndarray_column a i)) Ha1
                (eq_trans Hlen (eq_sym Hl1)) Hnodup')
      as [Ha [Hi [Hl [Hin [Hout Hcols]]]]].
    repeat split.
    + exact Ha.
    + now rewrite Hi.
    + now rewrite Hl.
    + intros j c' [[= <- <-]|Hj].
      * rewrite (Hout c Hnotin). now apply set_column_same.
      * now apply Hin.
    + intros c' Hnot. cbn [map snd] in Hnot.
      rewrite Hout by (intros H; apply Hnot; now right).
      apply set_column_other; trivial. intros ->. apply Hnot. now left.
    + intros H. apply Hcols in H. cbn [map snd]. rewrite set_column_columns in H.
      simpl. intuition.
    + intros H. apply Hcols. rewrite set_column_columns. cbn [map snd] in H.
      simpl in H. intuition.
Qed.

Lemma positions_Forall2 (names cols : list string) (ps : list nat) :
  Forall2 (fun c p => pandas.position c cols = Some p) names ps ->
  pandas.positions names cols = Ok ps.
Proof.
  induction 1 as [|c p names ps Hp _ IH]; simpl; [reflexivity|].
  now rewrite Hp, IH.
Qed.

Lemma map_cons_eq {A B C : Type} (f : A -> C) (g : A -> list C) (f' : B -> C)
  (g' : B -> list C) (l : list A) (l' : list B) :
  map f l = map f' l' -> map g l = map g' l' ->
  map (fun x => f x :: g x) l = map (fun y => f' y :: g' y) l'.
Proof.
  revert l'. induction l as [|x l IH]; intros [|y l']; simpl; try discriminate; trivial.
  intros [= H1 H2] [= H3 H4]. rewrite H1, H3. f_equal. now apply IH.
Qed.

(** Rows rebuilt from columns that agree. *)
Lemma rows_from_columns (rs : list (Z * list Q)) (us : list (list Q)) :
  length rs = length us ->
  forall (ps ks : list nat),
    Forall2 (fun p k => map (fun r => nth p (snd r) 0) rs = map (fun u => nth k u 0) us)
      ps ks ->
    map (fun r => map (fun p => nth p (snd r) 0) ps) rs
    = map (fun u => map (fun k => nth k u 0) ks) us.
Proof.
  intros Hlen ps ks H. induction H as [|p k ps ks Hpk _ IH]; cbn [map].
  - revert us Hlen. induction rs as [|r rs IHrs]; intros [|u us] Hlen; simpl in *;
      try discriminate; trivial.
    f_equal. apply IHrs. congruence.
  - now apply map_cons_eq.
Qed.

Lemma six_cells (u : list Q) :
  length u = 6%nat -> map (fun k => nth k u 0) [0; 1; 2; 3; 4; 5]%nat = u.
Proof.
  destruct u as [|a [|b [|c [|e [|f [|g [|h u]]]]]]]; simpl; intros H; try discriminate.
  reflexivity.
Qed.

Lemma column_Ok_position (d : pandas.DataFrame) (c : string) (vals : list Q) :
  pandas.column d c = Ok vals ->
  exists p, pandas.position c (pandas.columns d) = Some p
            /\ map (fun r => nth p (snd r) 0) (pandas.rows d) = vals.
Proof.
  unfold pandas.column. destruct (pandas.position c (pandas.columns d)) as [p|];
    [|discriminate].
  intros [= <-]. now exists p.
Qed.

(** X9.  [set_df_uvs] checks the array before it touches the face table:
    a row count that differs from the number of triangles, or a column count
    that is not 6, raises a ValueError.  Otherwise the six UV columns are
    written: on a face table with at least one triangle [has_triangle_uvs]
    becomes true and [get_triangle_uvs] returns the array that was given, row
    for row; every other column and the index of the face table are
    unchanged, and so are the point cloud, the Open3D mesh and the texture
    path. *)
Theorem set_df_uvs_then_get_triangle_uvs :
  forall (m : Mesh.t) (d : pandas.DataFrame) (uvs : ndarray),
    Mesh.df m = Some d ->
    (length (ndarray_rows uvs) <> length (pandas.rows d) ->
     exists msg, Mesh_set_df_uvs m uvs = Raise (ValueError msg))
    /\ (ndarray_ncols uvs <> 6%nat ->
        exists msg, Mesh_set_df_uvs m uvs = Raise (ValueError msg))
    /\ (length (ndarray_rows uvs) = length (pandas.rows d) ->
        ndarray_ncols uvs = 6%nat ->
        pandas.aligned d -> ndarray_wf uvs ->
        exists m' d',
          Mesh_set_df_uvs m uvs = Ok m'
          /\ Mesh.df m' = Some d'
          /\ Mesh.pcd m' = Mesh.pcd m
          /\ Mesh.o3d_mesh m' = Mesh.o3d_mesh m
          /\ Mesh.image_texture_path m' = Mesh.image_texture_path m
          /\ pandas.index d' = pandas.index d
          /\ (forall c, ~ In c UVS -> pandas.column d' c = pandas.column d c)
          /\ (pandas.rows d <> [] ->
              Mesh.has_triangle_uvs m' = Ok true
              /\ exists out, Mesh.get_triangle_uvs m' = Ok out
                   /\ pandas.to_numpy out = ndarray_rows uvs
                   /\ pandas.index out = pandas.index d)).
Proof.
  intros m d uvs Hdf. unfold Mesh_set_df_uvs. rewrite Hdf.
  unfold ndarray_shape, pandas.shape. cbn [fst snd]. repeat split.
  - intros Hne. apply Nat.eqb_neq in Hne. rewrite Hne. cbn [negb]. eexists; reflexivity.
  - intros Hne. apply Nat.eqb_neq in Hne. rewrite Hne. cbn [negb].
    destruct (negb _); eexists; reflexivity.
  - intros Hrows Hcols Haligned Hwf.
    rewrite Hrows, Hcols, !Nat.eqb_refl. cbn [negb].
    unfold pandas.setitem. rewrite Hrows, Hcols. cbn [length UVS Nat.eqb negb].
    rewrite Nat.eqb_refl. cbn [negb obind].
    set (d' := fold_left _ _ d).
    assert (Hnodup : NoDup (map snd (combine (seq 0 6) UVS))).
    { cbn. repeat constructor; simpl; intuition discriminate. }
    destruct (setitem_fold uvs (combine (seq 0 6) UVS) d Haligned Hrows Hnodup)
      as [Ha [Hi [Hl [Hin [Hout Hcolumns]]]]].
    fold d' in Ha, Hi, Hl, Hin, Hout, Hcolumns.
    exists (Mesh.mk (Mesh.pcd m) (Some d') (Mesh.o3d_mesh m) (Mesh.image_texture_path m)), d'.
    do 6 (split; [trivial|]).
    split; [intros c Hc; apply Hout; exact Hc|].
    intros Hne.
    assert (Hhas : Mesh.has_triangle_uvs
                     (Mesh.mk (Mesh.pcd m) (Some d') (Mesh.o3d_mesh m)
                        (Mesh.image_texture_path m)) = Ok true).
    { unfold Mesh.has_triangle_uvs. cbn [Mesh.df]. f_equal.
      apply andb_true_iff. split.
      - apply all_contains. intros c Hc. apply Hcolumns. right. exact Hc.
      - apply negb_true_iff. apply not_empty_iff.
        + intros Hnil. assert (H : In "uv1_row" (pandas.columns d'))
            by (apply Hcolumns; right; simpl; auto).
          now rewrite Hnil in H.
        + intros Hnil. apply Hne. rewrite Hnil in Hl.
          destruct (pandas.rows d); [reflexivity | discriminate]. }
    split; [exact Hhas|].
    {
      unfold Mesh.get_triangle_uvs. rewrite Hhas. cbn [obind negb Mesh.df].
      assert (Hk : forall k c, In (k, c) (combine (seq 0 6) UVS) ->
                exists p, pandas.position c (pandas.columns d') = Some p
                  /\ map (fun r => nth p (snd r) 0) (pandas.rows d')
                     = map (fun u => nth k u 0) (ndarray_rows uvs)).
      { intros k c Hkc. apply column_Ok_position. now apply Hin. }
      destruct (Hk 0%nat "uv1_row") as [p0 [Hp0 Hc0]]; [simpl; auto|].
      destruct (Hk 1%nat "uv1_col") as [p1 [Hp1 Hc1]]; [simpl; auto|].
      destruct (Hk 2%nat "uv2_row") as [p2 [Hp2 Hc2]]; [simpl; auto|].
      destruct (Hk 3%nat "uv2_col") as [p3 [Hp3 Hc3]]; [simpl; auto 6|].
      destruct (Hk 4%nat "uv3_row") as [p4 [Hp4 Hc4]]; [simpl; auto 7|].
      destruct (Hk 5%nat "uv3_col") as [p5 [Hp5 Hc5]]; [simpl; auto 8|].
      unfold pandas.select.
      rewrite (positions_Forall2 UVS (pandas.columns d') [p0; p1; p2; p3; p4; p5])
        by (repeat constructor; assumption).
      cbn [obind]. eexists. split; [reflexivity|].
      unfold pandas.to_numpy, pandas.index. cbn [pandas.rows]. rewrite !map_map. cbn [fst snd].
      split.
      * rewrite (rows_from_columns (pandas.rows d') (ndarray_rows uvs) (eq_trans Hl (eq_sym Hrows))
                   [p0; p1; p2; p3; p4; p5] [0; 1; 2; 3; 4; 5]%nat)
          by (repeat constructor; assumption).
        rewrite <- (map_id (ndarray_rows uvs)) at 2. apply map_ext_in.
        intros u Hu. apply six_cells. unfold ndarray_wf in Hwf. rewrite Forall_forall in Hwf.
        rewrite (Hwf u Hu). exact Hcols.
      * exact Hi. }
Qed.

(** The texture coordinates of [two_triangles_uvs] come back from a mesh
    over [two_faces]. *)
Lemma set_df_uvs_on_two_faces :
  exists m',
    Mesh_set_df_uvs (Mesh.init (Some Examples.xyz_only) (Some Examples.two_faces) None None)
      Examples.two_triangles_uvs = Ok m'
    /\ Mesh.has_triangle_uvs m' = Ok true
    /\ exists out, Mesh.get_triangle_uvs m' = Ok out
         /\ pandas.to_numpy out = [[0; 0; 1; 0; 0; 1]; [1; 0; 1; 1; 0; 1]].
Proof.
  assert (Haligned : pandas.aligned Examples.two_faces) by (repeat constructor).
  assert (Hwf : ndarray_wf Examples.two_triangles_uvs) by (repeat constructor).
  assert (Hrows : pandas.rows Examples.two_faces <> []) by discriminate.
  destruct (proj2 (proj2 (set_df_uvs_then_get_triangle_uvs
                            (Mesh.init (Some Examples.xyz_only) (Some Examples.two_faces)
                               None None)
                            Examples.two_faces Examples.two_triangles_uvs eq_refl))
              eq_refl eq_refl Haligned Hwf)
    as [m' [d' [Hset [_ [_ [_ [_ [_ [_ Hget]]]]]]]]].
  destruct (Hget Hrows) as [Hhas [out [Hout [Hnumpy _]]]].
  exists m'. split; [exact Hset|]. split; [exact Hhas|]. now exists out.
Defined.

(* ================================================================== *)
(** * Further properties of the filters *)

Lemma loc_rows_spec (rs : list (Z * list Q)) (labels : list Z) (out : list (Z * list Q)) :
  pandas.loc_rows rs labels = Ok out ->
  incl out rs
  /\ (forall r, In r out -> In (fst r) labels)
  /\ (forall l, In l labels -> exists r, In r out /\ fst r = l).
Proof.
  revert out. induction labels as [|l labels IH]; intros out; simpl.
  - intros [= <-]. repeat split; [intros r [] | intros r [] | intros l []].
  - destruct (filter (fun r => (fst r =? l)%Z) rs) as [|h hit] eqn:Hfilter; [discriminate|].
    destruct (pandas.loc_rows rs labels) as [rest|e]; [|discriminate].
    cbn [obind]. intros [= <-]. destruct (IH rest eq_refl) as [Hincl [Hlab Hall]].
    assert (Hhit : forall r, In r (h :: hit) -> In r rs /\ fst r = l).
    { intros r Hr. rewrite <- Hfilter in Hr. apply filter_In in Hr.
      destruct Hr as [Hr Heq]. split; [exact Hr | now apply Z.eqb_eq]. }
    repeat split.
    + intros r Hr. change (In r ((h :: hit) ++ rest)) in Hr.
      apply in_app_or in Hr. destruct Hr as [Hr|Hr].
      * now apply Hhit.
      * now apply Hincl.
    + intros r Hr. change (In r ((h :: hit) ++ rest)) in Hr.
      apply in_app_or in Hr. destruct Hr as [Hr|Hr].
      * left. symmetry. now apply Hhit.
      * right. now apply Hlab.
    + intros l' [<-|Hl'].
      * exists h. split; [now left | apply Hhit; now left].
      * destruct (Hall l' Hl') as [r [Hr Hf]]. exists r. split; [|exact Hf].
        change (In r ((h :: hit) ++ rest)). apply in_or_app. now right.
Qed.

(** What the shared tail of the two Open3D filters returns. *)
Lemma keep_valid_points_spec (E : Env) (df_pcd out : pandas.DataFrame) (ind : list Z)
  (serialize : bool) (dump : string) (w w' : World (Disk E)) :
  filter.keep_valid_points E df_pcd ind serialize dump w = (Ok out, w') ->
  (pandas.columns out = pandas.columns df_pcd
   /\ incl (pandas.rows out) (pandas.rows df_pcd)
   /\ pandas.rows out <> []
   /\ (forall r, In r (pandas.rows out) -> In (fst r) ind)
   /\ (forall l, In l ind -> In l (pandas.index out)))
  /\ (if serialize
      then trace w' = trace w ++ [SerializePointCloud dump (Some out) None]
      else w' = w).
Proof.
  unfold filter.keep_valid_points, filter.debug_serialize, bind, lift, logger, emit,
    raise, ret, on_disk.
  unfold pandas.loc. destruct (pandas.loc_rows (pandas.rows df_pcd) ind) as [rs|e] eqn:Hloc;
    [|discriminate].
  cbn [obind]. destruct (pandas.empty _) eqn:Hempty; [discriminate|].
  destruct (loc_rows_spec _ _ _ Hloc) as [Hincl [Hlab Hall]].
  assert (Hsel : forall o : pandas.DataFrame,
            o = pandas.mkDataFrame (pandas.columns df_pcd) rs ->
            pandas.columns o = pandas.columns df_pcd
            /\ incl (pandas.rows o) (pandas.rows df_pcd)
            /\ pandas.rows o <> []
            /\ (forall r, In r (pandas.rows o) -> In (fst r) ind)
            /\ (forall l, In l ind -> In l (pandas.index o))).
  { intros o ->. cbn [pandas.columns pandas.rows]. repeat split; trivial.
    - now apply (not_empty_rows _ Hempty).
    - intros l Hl. destruct (Hall l Hl) as [r [Hr <-]]. unfold pandas.index.
      cbn [pandas.rows]. now apply in_map. }
  destruct serialize; cbn [disk trace].
  - destruct (serialize_point_cloud E dump _ None (disk w)) as [[[]|e] d'];
      [|discriminate].
    intros [= <- <-]. split; [now apply Hsel | reflexivity].
  - intros [= <- <-]. split; [now apply Hsel | now destruct w].
Qed.

(** X10.  When one of the two Open3D outlier filters returns, the frame it
    returns has the columns of the input (every attribute is kept), at least
    one row, and only rows of the input carrying a label Open3D listed as
    valid, each listed label being present.  Without [serialize] the call
    leaves the log and the disk exactly as they were; with it, the one
    effect is the dump of the returned frame to the fixed path. *)
Theorem outlier_filters_select_rows_of_the_input :
  forall (E : Env) (df_pcd : pandas.DataFrame) (w : World (Disk E)),
    let selected (out : pandas.DataFrame) (ind : list Z) : Prop :=
      pandas.columns out = pandas.columns df_pcd
      /\ incl (pandas.rows out) (pandas.rows df_pcd)
      /\ pandas.rows out <> []
      /\ (forall r, In r (pandas.rows out) -> In (fst r) ind)
      /\ (forall l, In l ind -> In l (pandas.index out)) in
    let effects (serialize : bool) (dump : string) (out : pandas.DataFrame)
                (w' : World (Disk E)) : Prop :=
      if serialize
      then trace w' = trace w ++ [SerializePointCloud dump (Some out) None]
      else w' = w in
    (forall radius nb_points serialize out w',
        filter.radius_filtering_outliers_o3 E df_pcd radius nb_points serialize w
        = (Ok out, w') ->
        exists xyz ind,
          pandas.select df_pcd ["x"; "y"; "z"] = Ok xyz
          /\ remove_radius_outlier E (pandas.to_numpy xyz) nb_points radius = Ok ind
          /\ selected out ind
          /\ effects serialize "/home/data/radiuso3dpyramidedekmin_04.las" out w')
    /\ (forall nb_neighbors std_factor serialize out w',
        filter.statistical_filtering_outliers_o3d E df_pcd nb_neighbors std_factor serialize w
        = (Ok out, w') ->
        exists xyz ind,
          pandas.select df_pcd ["x"; "y"; "z"] = Ok xyz
          /\ remove_statistical_outlier E (pandas.to_numpy xyz) nb_neighbors std_factor
             = Ok ind
          /\ selected out ind
          /\ effects serialize "/home/data/statso3dpyramide.las" out w').
Proof.
  intros E df_pcd w selected effects. split.
  - intros radius nb_points serialize out w'.
    unfold filter.radius_filtering_outliers_o3, bind at 1 2, lift at 1 2.
    destruct (pandas.select df_pcd ["x"; "y"; "z"]) as [xyz|e]; [|discriminate].
    destruct (remove_radius_outlier E _ _ _) as [ind|e] eqn:Hind; [|discriminate].
    intros Hkeep. apply keep_valid_points_spec in Hkeep. destruct Hkeep as [Hsel Heff].
    now exists xyz, ind.
  - intros nb_neighbors std_factor serialize out w'.
    unfold filter.statistical_filtering_outliers_o3d, bind at 1 2, lift at 1 2.
    destruct (pandas.select df_pcd ["x"; "y"; "z"]) as [xyz|e]; [|discriminate].
    destruct (remove_statistical_outlier E _ _ _) as [ind|e] eqn:Hind; [|discriminate].
    intros Hkeep. apply keep_valid_points_spec in Hkeep. destruct Hkeep as [Hsel Heff].
    now exists xyz, ind.
Qed.

(** Keeping the point 1 of [flat_red] keeps its colours. *)
Lemma radius_filter_keeps_colours_of_flat_red :
  exists xyz ind,
    pandas.select Examples.flat_red ["x"; "y"; "z"] = Ok xyz
    /\ remove_radius_outlier (Examples.toy [1%Z]) (pandas.to_numpy xyz) 5 1 = Ok ind
    /\ (pandas.columns (pandas.mkDataFrame ["x"; "y"; "z"; "red"; "green"; "blue"]
                          [(1%Z, [1; 1; 1; 5; 10; 10])])
        = pandas.columns Examples.flat_red
        /\ incl [(1%Z, [1; 1; 1; 5; 10; 10])] (pandas.rows Examples.flat_red)
        /\ [(1%Z, [1; 1; 1; 5; 10; 10])] <> []
        /\ (forall r, In r [(1%Z, [1; 1; 1; 5; 10; 10])] -> In (fst r) ind)
        /\ (forall l, In l ind -> In l [1%Z]))
    /\ Examples.fresh = Examples.fresh.
Proof.
  exact (proj1 (outlier_filters_select_rows_of_the_input (Examples.toy [1%Z])
                  Examples.flat_red Examples.fresh)
           1 5%Z false
           (pandas.mkDataFrame ["x"; "y"; "z"; "red"; "green"; "blue"]
              [(1%Z, [1; 1; 1; 5; 10; 10])])
           Examples.fresh eq_refl).
Defined.

(** X11.  The three filters read the coordinates first: on a frame without
    one of the columns x, y, z each of them raises a KeyError on a missing
    column before Open3D or the KD-tree is consulted, whatever the other
    arguments, and leaves the log and the disk as they were. *)
Theorem filters_need_the_coordinates :
  forall (E : Env) (df_pcd : pandas.DataFrame) (w : World (Disk E)),
    (exists c, In c ["x"; "y"; "z"] /\ ~ In c (pandas.columns df_pcd)) ->
    exists c, In c ["x"; "y"; "z"] /\ ~ In c (pandas.columns df_pcd)
      /\ (forall radius nb_points serialize,
            filter.radius_filtering_outliers_o3 E df_pcd radius nb_points serialize w
            = (Raise (KeyError c), w))
      /\ (forall nb_neighbors std_factor serialize,
            filter.statistical_filtering_outliers_o3d E df_pcd nb_neighbors std_factor
              serialize w
            = (Raise (KeyError c), w))
      /\ (forall nb_neighbors serialize,
            filter.local_density_analysis E df_pcd nb_neighbors serialize w
            = (Raise (KeyError c), w)).
Proof.
  intros E df_pcd w [c0 [Hin0 Hnot0]].
  destruct (select_spec df_pcd ["x"; "y"; "z"]) as [[out [Hout _]]|[c [Hin [Hnot Hraise]]]].
  - exfalso. apply Hnot0. now apply (select_Ok_present df_pcd out ["x"; "y"; "z"]).
  - exists c. repeat split; trivial; intros;
      unfold filter.radius_filtering_outliers_o3, filter.statistical_filtering_outliers_o3d,
        filter.local_density_analysis, bind, lift;
      now rewrite Hraise.
Qed.

(** On [no_z] the radius filter raises a KeyError. *)
Lemma filters_need_the_coordinates_no_z :
  exists c, In c ["x"; "y"; "z"] /\ ~ In c (pandas.columns Examples.no_z)
    /\ (forall radius nb_points serialize,
          filter.radius_filtering_outliers_o3 (Examples.toy []) Examples.no_z radius
            nb_points serialize Examples.fresh
          = (Raise (KeyError c), Examples.fresh))
    /\ (forall nb_neighbors std_factor serialize,
          filter.statistical_filtering_outliers_o3d (Examples.toy []) Examples.no_z
            nb_neighbors std_factor serialize Examples.fresh
          = (Raise (KeyError c), Examples.fresh))
    /\ (forall nb_neighbors serialize,
          filter.local_density_analysis (Examples.toy []) Examples.no_z nb_neighbors
            serialize Examples.fresh
          = (Raise (KeyError c), Examples.fresh)).
Proof.
  apply (filters_need_the_coordinates (Examples.toy []) Examples.no_z Examples.fresh).
  exists "z". split; [simpl; auto|].
  simpl. intros [H|[H|[H|[]]]]; discriminate H.
Defined.

Lemma density_loop_first (E : Env) (cloud_xyz : list (list Q)) (nb_neighbors : Z)
  (acc : filter.density_acc) (idx : nat) (point : list Q) (todo : list (list Q))
  (e : PyError) :
  filter.density_step E cloud_xyz nb_neighbors acc idx point = Raise e ->
  filter.density_loop E cloud_xyz nb_neighbors acc idx (point :: todo) = Raise e.
Proof. intros H. cbn [filter.density_loop]. now rewrite H. Qed.

(** X12.  [local_density_analysis] with [nb_neighbors = 0] never gets past
    its first point: on a cloud with x, y, z and at least one row it raises
    (the KD-tree query may refuse, and otherwise [1 / nb_neighbors] is a
    ZeroDivisionError), before anything is printed or written. *)
Theorem local_density_analysis_needs_a_neighbour :
  forall (E : Env) (df_pcd xyz : pandas.DataFrame) (serialize : bool)
         (w : World (Disk E)),
    pandas.select df_pcd ["x"; "y"; "z"] = Ok xyz ->
    pandas.rows df_pcd <> [] ->
    exists e, filter.local_density_analysis E df_pcd 0 serialize w = (Raise e, w)
      /\ (forall point distances,
            KDTree_query E (pandas.to_numpy xyz) point 0 = Ok distances ->
            nth_error (pandas.to_numpy xyz) 0 = Some point ->
            e = ZeroDivisionError "division by zero").
Proof.
  intros E df_pcd xyz serialize w Hxyz Hrows.
  assert (Hcloud : exists point rest, pandas.to_numpy xyz = point :: rest).
  { destruct (select_spec df_pcd ["x"; "y"; "z"])
      as [[out [Hout [_ [_ [Hlen _]]]]]|[c [_ [_ Hc]]]]; [|congruence].
    rewrite Hxyz in Hout. injection Hout as <-. unfold pandas.to_numpy.
    destruct (pandas.rows xyz) as [|r rs]; [|now exists (snd r), (map snd rs)].
    destruct (pandas.rows df_pcd); [congruence | discriminate]. }
  destruct Hcloud as [point [rest Hcloud]].
  assert (Hstep : exists e,
            filter.density_step E (point :: rest) 0 (filter.mk_acc [] [] []) 0 point = Raise e
            /\ (forall distances, KDTree_query E (point :: rest) point 0 = Ok distances ->
                  e = ZeroDivisionError "division by zero")).
  { unfold filter.density_step.
    destruct (KDTree_query E (point :: rest) point 0) as [distances|e].
    - cbn [obind Z.eqb]. eexists. split; [reflexivity|]. now intros.
    - cbn [obind]. exists e. split; [reflexivity|]. discriminate. }
  destruct Hstep as [e [Hstep Hzero]]. exists e. split.
  - unfold filter.local_density_analysis, bind at 1 2, lift at 1 2. rewrite Hxyz, Hcloud.
    now rewrite (density_loop_first E _ 0 _ 0%nat point rest e Hstep).
  - intros point' distances Hq Hnth. rewrite Hcloud in Hq, Hnth.
    cbn [nth_error] in Hnth. injection Hnth as <-. now apply (Hzero distances).
Qed.

(** On [xyz_only], whose toy KD-tree answers every query, the error is the
    division by zero. *)
Lemma local_density_analysis_without_neighbour_on_xyz_only :
  exists e,
    filter.local_density_analysis (Examples.toy []) Examples.xyz_only 0 true Examples.fresh
    = (Raise e, Examples.fresh)
    /\ (forall point distances,
          KDTree_query (Examples.toy []) (pandas.to_numpy Examples.xyz_only) point 0
          = Ok distances ->
          nth_error (pandas.to_numpy Examples.xyz_only) 0 = Some point ->
          e = ZeroDivisionError "division by zero").
Proof.
  assert (Hrows : pandas.rows Examples.xyz_only <> []) by discriminate.
  exact (local_density_analysis_needs_a_neighbour (Examples.toy []) Examples.xyz_only
           Examples.xyz_only true Examples.fresh eq_refl Hrows).
Defined.

(** X13.  When [local_density_analysis] returns without [serialize], all it
    has done is print two numbers: the disk is untouched, nothing is logged,
    and the frame it computed by dropping the points it rejects is not part
    of what the caller receives. *)
Theorem local_density_analysis_only_prints :
  forall (E : Env) (df_pcd : pandas.DataFrame) (nb_neighbors : Z)
         (w w' : World (Disk E)) (r : option pandas.DataFrame),
    filter.local_density_analysis E df_pcd nb_neighbors false w = (Ok r, w') ->
    r = None
    /\ disk w' = disk w
    /\ exists mean_proba mean_delta,
         trace w' = trace w ++ [Stdout "" mean_proba; Stdout "delta" mean_delta].
Proof.
  intros E df_pcd nb_neighbors w w' r. unfold filter.local_density_analysis.
  intros H.
  apply bind_Ok_inv in H. destruct H as [xyz [w1 [H1 H]]].
  apply bind_Ok_inv in H. destruct H as [acc [w2 [H2 H]]].
  apply bind_Ok_inv in H. destruct H as [labels [w3 [H3 H]]].
  apply bind_Ok_inv in H. destruct H as [mp [w4 [H4 H]]].
  apply bind_Ok_inv in H. destruct H as [[] [w5 [H5 H]]].
  apply bind_Ok_inv in H. destruct H as [md [w6 [H6 H]]].
  apply bind_Ok_inv in H. destruct H as [[] [w7 [H7 H]]].
  apply bind_Ok_inv in H. destruct H as [[] [w8 [H8 H]]].
  unfold lift in H1, H2, H3, H4, H6. unfold print, emit in H5, H7. unfold ret in H, H8.
  injection H1 as _ <-. injection H2 as _ <-. injection H3 as _ <-. injection H4 as _ <-.
  injection H5 as <-. injection H6 as _ <-. injection H7 as <-. injection H8 as <-.
  injection H as <- <-. cbn [trace disk]. repeat split.
  exists mp, md. now rewrite <- app_assoc.
Qed.

(** The run on [xyz_only] with one neighbour prints and returns None. *)
Lemma local_density_analysis_only_prints_xyz_only :
  @None pandas.DataFrame = None
  /\ disk (mkWorld [Stdout "" (numpy.finite (54 # 81));
                    Stdout "delta" (numpy.finite (300 # 3000))] (@nil string))
     = disk Examples.fresh
  /\ exists mean_proba mean_delta,
       trace (mkWorld [Stdout "" (numpy.finite (54 # 81));
                       Stdout "delta" (numpy.finite (300 # 3000))] (@nil string))
       = trace Examples.fresh ++ [Stdout "" mean_proba; Stdout "delta" mean_delta].
Proof.
  exact (local_density_analysis_only_prints (Examples.toy []) Examples.xyz_only 1
           Examples.fresh
           (mkWorld [Stdout "" (numpy.finite (54 # 81));
                     Stdout "delta" (numpy.finite (300 # 3000))] [])
           None eq_refl).
Defined.

(* ================================================================== *)
(** * Further properties of the pipeline *)

(** X14.  When the validation of the transitions raises, [run] raises the
    same error right after the debug line and what the validation logged: no
    step is started, nothing is saved, whatever the steps are. *)
Theorem run_stops_at_invalid_transitions :
  forall (E : Env) (mesh3d_machine : Machine E) (cfg : Cfg) (w : World (Disk E))
         (e : PyError) (checked : list Event) (d1 : Disk E),
    state_machine cfg <> [] ->
    check_transitions E mesh3d_machine cfg (disk w) = (Raise e, checked, d1) ->
    mesh3d_reconstruct.run E mesh3d_machine cfg w
    = (Raise e,
       mkWorld
         (trace w
          ++ [Log DEBUG ("Initial state: " ++ machine_initial_state E mesh3d_machine)]
          ++ checked)
         d1).
Proof.
  intros E mesh3d_machine cfg w e checked d1 Hsteps Hcheck.
  unfold mesh3d_reconstruct.run.
  destruct (state_machine cfg) as [|step steps]; [congruence|].
  unfold bind, logger, emit, ext. cbn [disk trace]. rewrite Hcheck.
  now rewrite <- app_assoc.
Qed.

(** A validation that refuses: the run of one saving step raises at once. *)
Lemma run_stops_at_invalid_transitions_refusing :
  mesh3d_reconstruct.run Examples.refusing Examples.cloud_only
    (Examples.cfg_of [Examples.filter_radius (Some true)]) Examples.fresh
  = (Raise (ValueError "invalid transition"),
     mkWorld [Log DEBUG "Initial state: initial_pcd"; Log ERROR "invalid transition"] []).
Proof.
  assert (Hsteps : state_machine (Examples.cfg_of [Examples.filter_radius (Some true)])
                   <> []) by discriminate.
  exact (run_stops_at_invalid_transitions Examples.refusing Examples.cloud_only
           (Examples.cfg_of [Examples.filter_radius (Some true)]) Examples.fresh
           (ValueError "invalid transition") [Log ERROR "invalid transition"] []
           Hsteps eq_refl).
Defined.

(** The loop over a list of steps is the loop over its first part followed
    by the loop over the rest, the numbering going on. *)
(** X15.  A step whose method raises ends the run: [run] raises that error,
    the steps after it are never started (the result does not depend on
    them), nothing is saved for the failed step, and what the earlier steps
    logged and saved stays in the trace. *)
Theorem run_stops_at_the_first_failing_step :
  forall (E : Env) (mesh3d_machine m1 : Machine E) (cfg : Cfg)
         (pre rest : list Step) (step : Step) (w w1 : World (Disk E))
         (checked events : list Event) (d0 d : Disk E) (e : PyError),
    state_machine cfg = pre ++ step :: rest ->
    check_transitions E mesh3d_machine cfg (disk w) = (Ok tt, checked, d0) ->
    mesh3d_reconstruct.run_steps E cfg 0 pre mesh3d_machine
      (mkWorld
         (trace w
          ++ [Log DEBUG ("Initial state: " ++ machine_initial_state E mesh3d_machine)]
          ++ checked)
         d0)
    = (Ok m1, w1) ->
    machine_run E m1 step cfg (disk w1) = (Raise e, events, d) ->
    mesh3d_reconstruct.run E mesh3d_machine cfg w
    = (Raise e,
       mkWorld
         (trace w1
          ++ [Log INFO ("Step #" ++ str (length pre + 1) ++ ": " ++ action step ++ " with "
                        ++ method step ++ " method")]
          ++ events)
         d).
Proof.
  intros E mesh3d_machine m1 cfg pre rest step w w1 checked events d0 d e
    Hsteps Hcheck Hpre Hstep.
  unfold mesh3d_reconstruct.run. rewrite Hsteps.
  destruct (pre ++ step :: rest) as [|s0 ss] eqn:Hlist;
    [now destruct pre|]. rewrite <- Hlist. clear Hlist.
  unfold bind at 1.
  erewrite bind_Ok_run by reflexivity.
  erewrite bind_Ok_run
    by (unfold ext; cbn [disk trace]; rewrite Hcheck; rewrite <- app_assoc; reflexivity).
  rewrite run_steps_app. unfold bind at 1. rewrite Hpre.
  cbn [mesh3d_reconstruct.run_steps Nat.add]. unfold bind at 1.
  unfold mesh3d_reconstruct.run_step, bind, logger, emit, ext. cbn [disk trace].
  rewrite Hstep. now rewrite <- app_assoc.
Qed.

(** A saving filter, then a meshing method that raises, then a filter that
    is never started: the file of the first step stays, the run raises. *)
Lemma run_stops_at_poisson :
  mesh3d_reconstruct.run Examples.fragile Examples.cloud_only
    (Examples.cfg_of [Examples.filter_radius (Some true);
                      mkStep "mesh" "poisson" [] (Some true);
                      Examples.filter_statistical (Some true)])
    Examples.fresh
  = (Raise (RuntimeError "poisson failed"),
     mkWorld
       [ Log DEBUG "Initial state: initial_pcd";
         Log INFO "Step #1: filter with radius_o3d method";
         Makedirs "/out/intermediate_results";
         SerializePointCloud "/out/intermediate_results/01_filter_radius_o3d.laz"
           (Some Examples.xyz_only) (Some "laz");
         Log DEBUG
           "Step #1: Results saved in '/out/intermediate_results/01_filter_radius_o3d.laz'.";
         Log INFO "Step #2: mesh with poisson method";
         Log ERROR "poisson failed" ]
       ["/out/intermediate_results/01_filter_radius_o3d.laz"]).
Proof.
  exact (run_stops_at_the_first_failing_step Examples.fragile Examples.cloud_only
           Examples.cloud_only
           (Examples.cfg_of [Examples.filter_radius (Some true);
                             mkStep "mesh" "poisson" [] (Some true);
                             Examples.filter_statistical (Some true)])
           [Examples.filter_radius (Some true)]
           [Examples.filter_statistical (Some true)]
           (mkStep "mesh" "poisson" [] (Some true))
           Examples.fresh
           (mkWorld
              [ Log DEBUG "Initial state: initial_pcd";
                Log INFO "Step #1: filter with radius_o3d method";
                Makedirs "/out/intermediate_results";
                SerializePointCloud "/out/intermediate_results/01_filter_radius_o3d.laz"
                  (Some Examples.xyz_only) (Some "laz");
                Log DEBUG
                  "Step #1: Results saved in '/out/intermediate_results/01_filter_radius_o3d.laz'." ]
              ["/out/intermediate_results/01_filter_radius_o3d.laz"])
           [] [Log ERROR "poisson failed"] []
           ["/out/intermediate_results/01_filter_radius_o3d.laz"]
           (RuntimeError "poisson failed")
           eq_refl eq_refl eq_refl eq_refl).
Defined.

(** ** The names of the intermediate files *)

Local Open Scope string_scope.

Definition is_digit (c : ascii) : bool :=
  match uint_of_char c (Some Decimal.Nil) with
  | Some _ => true
  | None => false
  end.

Fixpoint all_digits (s : string) : bool :=
  match s with
  | EmptyString => true
  | String c s' => is_digit c && all_digits s'
  end.

(** The digits a string starts with. *)
Fixpoint leading_digits (s : string) : string :=
  match s with
  | EmptyString => EmptyString
  | String c s' => if is_digit c then String c (leading_digits s') else EmptyString
  end.

(** [int(s)] for a string of digits. *)
Definition number_of (s : string) : option nat :=
  option_map Nat.of_uint (NilEmpty.uint_of_string s).

Lemma string_of_uint_digits (d : Decimal.uint) :
  all_digits (NilEmpty.string_of_uint d) = true.
Proof. induction d; simpl; auto. Qed.

Lemma str_digits (n : nat) : all_digits (str n) = true.
Proof.
  unfold str, NilZero.string_of_uint.
  destruct (Nat.to_uint n) eqn:Hd; try reflexivity;
    rewrite <- Hd; apply string_of_uint_digits.
Qed.

Lemma str_number (n : nat) : number_of (str n) = Some n.
Proof.
  unfold str, NilZero.string_of_uint, number_of.
  pose proof (DecimalNat.Unsigned.of_to n) as Hn.
  destruct (Nat.to_uint n) eqn:Hd;
    [ cbn in *; now subst
    | rewrite NilEmpty.usu; cbn [option_map]; now rewrite Hn .. ].
Qed.

Lemma str_not_empty (n : nat) : str n <> EmptyString.
Proof.
  unfold str, NilZero.string_of_uint. destruct (Nat.to_uint n); discriminate.
Qed.

Lemma zeros_succ (k : nat) :
  String.concat "" (repeat "0" (S k)) = String "0" (String.concat "" (repeat "0" k)).
Proof. destruct k; reflexivity. Qed.

Lemma zfill_spec (s : string) (width : nat) :
  exists k, zfill s width = String.concat "" (repeat "0" k) ++ s.
Proof. now exists (width - String.length s)%nat. Qed.

Lemma zeros_number (k : nat) (s : string) :
  number_of (String.concat "" (repeat "0" k) ++ s) = number_of s.
Proof.
  induction k as [|k IH]; [reflexivity|].
  rewrite zeros_succ. cbn [append]. unfold number_of in *.
  cbn [NilEmpty.uint_of_string].
  destruct (NilEmpty.uint_of_string (String.concat "" (repeat "0" k) ++ s)) as [d|].
  - change (uint_of_char "0" (Some d)) with (Some (Decimal.D0 d)). cbn [option_map] in *.
    change (Nat.of_uint (Decimal.D0 d)) with (Nat.of_uint d). exact IH.
  - exact IH.
Qed.

Lemma zeros_digits (k : nat) (s : string) :
  all_digits s = true -> all_digits (String.concat "" (repeat "0" k) ++ s) = true.
Proof.
  intros Hs. induction k as [|k IH]; [exact Hs|].
  rewrite zeros_succ. cbn [append all_digits]. now rewrite IH.
Qed.

(** The numbered prefix of a file name gives the number back. *)
Lemma zfill_str_number (n width : nat) :
  number_of (zfill (str n) width) = Some n
  /\ all_digits (zfill (str n) width) = true
  /\ zfill (str n) width <> EmptyString.
Proof.
  destruct (zfill_spec (str n) width) as [k ->]. repeat split.
  - rewrite zeros_number. apply str_number.
  - apply zeros_digits, str_digits.
  - destruct k; [apply str_not_empty | now rewrite zeros_succ].
Qed.

Lemma leading_digits_app (a r : string) :
  all_digits a = true -> leading_digits (a ++ String "_" r) = a.
Proof.
  induction a as [|c a IH]; cbn [append leading_digits all_digits]; [reflexivity|].
  intros H. apply andb_true_iff in H. destruct H as [Hc Ha].
  now rewrite Hc, IH.
Qed.

Lemma append_cancel_l (a x y : string) : a ++ x = a ++ y -> x = y.
Proof.
  induction a as [|c a IH]; cbn [append]; [trivial|]. intros [= H]. now apply IH.
Qed.

Lemma append_assoc (a b c : string) : (a ++ b) ++ c = a ++ (b ++ c).
Proof. induction a as [|x a IH]; cbn [append]; [reflexivity | now rewrite IH]. Qed.

Lemma join_relative (a : string) :
  exists a', forall y c rest,
    y = String c rest -> is_digit c = true -> os_path.join a y = a' ++ y.
Proof.
  exists (if (String.length a =? 0)%nat || os_path.ends_with_slash a then a else a ++ "/").
  intros y c rest -> Hc. unfold os_path.join.
  assert (Hp : String.prefix "/" (String c rest) = false).
  { cbn [String.prefix]. destruct (ascii_dec "/" c) as [<-|_]; [discriminate Hc | reflexivity]. }
  rewrite Hp. destruct (_ || _); [reflexivity|]. now rewrite append_assoc.
Qed.

(** X16.  Two steps at different positions of the list never share an
    intermediate file: the path built for step [k] with one extension equals
    the path built for step [k'] with another only if [k = k'], whatever the
    output directory, the actions and the methods. *)
Theorem intermediate_files_of_distinct_steps_differ :
  forall (cfg : Cfg) (k k' : nat) (step step' : Step) (extension extension' : string),
    mesh3d_reconstruct.intermediate_filepath cfg k step ++ "." ++ extension
    = mesh3d_reconstruct.intermediate_filepath cfg k' step' ++ "." ++ extension' ->
    k = k'.
Proof.
  intros cfg k k' step step' extension extension'.
  unfold mesh3d_reconstruct.intermediate_filepath.
  destruct (zfill_str_number (k + 1) 2) as [Hn [Hd Hne]].
  destruct (zfill_str_number (k' + 1) 2) as [Hn' [Hd' Hne']].
  set (N := zfill (str (k + 1)) 2) in *. set (N' := zfill (str (k' + 1)) 2) in *.
  assert (Hshape : forall (n : string) (st : Step), n <> EmptyString -> all_digits n = true ->
            exists c rest, n ++ "_" ++ action st ++ "_" ++ method st = String c rest
                           /\ is_digit c = true).
  { intros n st Hnn Hnd. destruct n as [|c n]; [congruence|].
    exists c. eexists. split; [reflexivity|]. cbn in Hnd.
    now apply andb_true_iff in Hnd. }
  destruct (Hshape N step Hne Hd) as [c [rest [Hx Hc]]].
  destruct (Hshape N' step' Hne' Hd') as [c' [rest' [Hx' Hc']]].
  destruct (join_relative (mesh3d_reconstruct.intermediate_folder cfg)) as [a' Hjoin].
  rewrite (Hjoin _ c rest Hx Hc), (Hjoin _ c' rest' Hx' Hc').
  rewrite !append_assoc. intros Heq. apply append_cancel_l in Heq.
  apply (f_equal leading_digits) in Heq.
  cbn [append] in Heq.
  change (N ++ String "_" ?r) with (N ++ String "_" r) in Heq.
  rewrite (leading_digits_app N _ Hd), (leading_digits_app N' _ Hd') in Heq.
  rewrite Heq in Hn. rewrite Hn in Hn'. injection Hn' as Hn'. lia.
Qed.

Local Open Scope list_scope.

(** The same position gives the same number. *)
Lemma intermediate_files_of_the_same_step :
  (4 = 4)%nat.
Proof.
  exact (intermediate_files_of_distinct_steps_differ (Examples.cfg_of []) 4 4
           (Examples.filter_radius (Some true)) (Examples.filter_radius (Some true))
           "laz" "laz" eq_refl).
Defined.

(** X17.  With an empty step list [main] writes back what it read: once the
    configuration is checked, the output directory (made absolute) created,
    the configuration saved, the log file added and the input read, the
    warning of the empty state machine is logged and the final serialisation
    is that of the mesh as it was read, under the absolute output directory.
    (The machine is taken to hold the mesh it was built with.) *)
Theorem main_without_steps_serializes_the_input :
  forall (E : Env) (cfg_path : string) (w : World (Disk E)) (cfg : Cfg) (mesh : Mesh.t)
         (checked saved added read : list Event) (d0 d1 d2 d3 d4 : Disk E),
    let out_dir := os_path_abspath E (output_dir cfg) in
    let cfg' := mkCfg (input_path cfg) out_dir (output_name cfg) (initial_state cfg)
                  (state_machine cfg) in
    check_config E cfg_path (disk w) = (Ok cfg, checked, d0) ->
    state_machine cfg = [] ->
    os_makedirs E out_dir d0 = (Ok tt, d1) ->
    save_config_file E (os_path.join out_dir (os_path_basename E cfg_path)) cfg' d1
    = (Ok tt, saved, d2) ->
    logger_add E (os_path.join out_dir "{time}_logs.txt") d2 = (Ok tt, added, d3) ->
    read_input_path E (input_path cfg) d3 = (Ok mesh, read, d4) ->
    mesh_data E (Mesh3DMachine E mesh (initial_state cfg)) = mesh ->
    mesh3d_reconstruct.main E cfg_path w
    = mesh3d_reconstruct.serialize_output E cfg' mesh
        (mkWorld
           (trace w ++ checked ++ [Makedirs out_dir] ++ saved ++ added
            ++ [Log INFO "Configuration file checked."] ++ read
            ++ [Log WARNING "State machine is empty. Returning the initial data."])
           d4).
Proof.
  intros E cfg_path w cfg mesh checked saved added read d0 d1 d2 d3 d4 out_dir cfg'
    Hcheck Hsteps Hmk Hsave Hadd Hread Hheld.
  unfold mesh3d_reconstruct.main.
  erewrite bind_Ok_run by (unfold ext; rewrite Hcheck; reflexivity).
  fold out_dir. fold cfg'.
  erewrite bind_Ok_run
    by (unfold makedirs, bind, emit, on_disk; cbn [disk trace output_dir cfg'];
        rewrite Hmk; reflexivity).
  erewrite bind_Ok_run
    by (unfold ext; cbn [disk trace output_dir cfg']; rewrite Hsave; reflexivity).
  erewrite bind_Ok_run
    by (unfold ext; cbn [disk trace output_dir cfg']; rewrite Hadd; reflexivity).
  erewrite bind_Ok_run by reflexivity.
  erewrite bind_Ok_run
    by (unfold ext, logger, emit; cbn [disk trace input_path cfg']; rewrite Hread;
        reflexivity).
  cbn [initial_state cfg'].
  erewrite bind_Ok_run
    by (unfold mesh3d_reconstruct.run, bind, logger, emit, ret;
        cbn [state_machine cfg']; rewrite Hsteps; reflexivity).
  cbn [snd]. rewrite Hheld. cbn [trace disk]. f_equal. f_equal.
  rewrite <- !app_assoc. reflexivity.
Qed.

Lemma main_without_steps_writes_cloud_only :
  mesh3d_reconstruct.main
    (Examples.configured (Examples.cfg_of []) Examples.cloud_only)
    "config.json" Examples.fresh
  = (Ok tt,
     mkWorld
       [Makedirs "/out"; Log INFO "Configuration file checked.";
        Log DEBUG "input read";
        Log WARNING "State machine is empty. Returning the initial data.";
        SerializePointCloud "/out/output_mesh3d.laz" (Some Examples.xyz_only)
          (Some "laz");
        Log INFO "Point cloud serialized as a 'laz' file"]
       ["/out/output_mesh3d.laz"; "/out/config.json"]).
Proof.
  exact (eq_trans
           (main_without_steps_serializes_the_input
              (Examples.configured (Examples.cfg_of []) Examples.cloud_only)
              "config.json" Examples.fresh (Examples.cfg_of []) Examples.cloud_only
              [] [] [] [Log DEBUG "input read"]
              [] [] ["/out/config.json"] ["/out/config.json"] ["/out/config.json"]
              eq_refl eq_refl eq_refl eq_refl eq_refl eq_refl eq_refl)
           eq_refl).
Defined.

(* ================================================================== *)
(** * Properties of mesh_io.py *)

Local Open Scope string_scope.

Lemma length_append (a b : string) :
  String.length (a ++ b) = (String.length a + String.length b)%nat.
Proof. induction a as [|c a IH]; cbn; [reflexivity | now rewrite IH]. Qed.

Lemma substring_prefix (a b : string) :
  String.substring 0 (String.length a) (a ++ b) = a.
Proof.
  induction a as [|c a IH]; cbn.
  - destruct b; reflexivity.
  - now rewrite IH.
Qed.

Lemma substring_head_length (n : nat) (s : string) :
  String.length (String.substring 0 n s) = Nat.min n (String.length s).
Proof.
  revert n. induction s as [|c s IH]; intros [|n]; cbn; trivial.
  now rewrite IH.
Qed.

(** The text after the last separator is the last piece of the split. *)
Lemma split_last (sep : ascii) (tail : string) :
  mesh_io.split sep tail = [tail] ->
  forall stem, exists pre,
    mesh_io.split sep (stem ++ String sep tail) = (pre ++ [tail])%list /\ pre <> [].
Proof.
  intros Htail. induction stem as [|c stem [pre [IH Hpre]]]; cbn [append mesh_io.split].
  - rewrite Ascii.eqb_refl, Htail. exists [EmptyString]. split; [reflexivity | discriminate].
  - rewrite IH. destruct (Ascii.eqb c sep).
    + exists (EmptyString :: pre). split; [reflexivity | discriminate].
    + destruct pre as [|h t]; [contradiction|]. cbn [app].
      exists (String c h :: t). split; [reflexivity | discriminate].
Qed.

Lemma extension_of_ply (stem : string) :
  mesh_io.extension_of (stem ++ ".ply") = "ply".
Proof.
  unfold mesh_io.extension_of.
  destruct (split_last "." "ply" eq_refl stem) as [pre [H _]].
  change (stem ++ ".ply") with (stem ++ String "." "ply").
  rewrite H. apply last_last.
Qed.

Lemma drop_last_ply (stem : string) :
  mesh_io.drop_last 4 (stem ++ ".ply") = stem.
Proof.
  unfold mesh_io.drop_last. rewrite length_append. cbn [String.length].
  replace (String.length stem + 4 - 4)%nat with (String.length stem) by lia.
  apply substring_prefix.
Qed.

Lemma drop_last_differs (filepath : string) :
  mesh_io.drop_last 4 filepath ++ "_mesh.ply" <> filepath.
Proof.
  intros H. apply (f_equal String.length) in H.
  rewrite length_append in H. unfold mesh_io.drop_last in H.
  rewrite substring_head_length in H. cbn [String.length] in H. lia.
Qed.

(** X18.  [serialize_mesh] asked for a "ply" never writes at the path it is
    given: for a path whose last dot-separated piece is "ply" the mesh is
    converted ([mesh2o3d], whose error is the result and leaves the disk as it
    was) and handed to Open3D with the path cut by four characters and
    extended by "_mesh.ply", compressed; that path differs from the one
    given, and for [stem.ply] it is [stem_mesh.ply]. *)
Theorem serialize_mesh_ply_writes_beside_the_path :
  forall (Disk : Type) (io : mesh_io.IO Disk) (filepath : string) (mesh : Mesh.t)
         (d : Disk),
    mesh_io.extension_of filepath = "ply" ->
    let written := mesh_io.drop_last 4 filepath ++ "_mesh.ply" in
    (forall o, mesh_io.mesh2o3d mesh = Ok o ->
       mesh_io.serialize_mesh io filepath mesh "ply" d
       = mesh_io.o3d_io_write_triangle_mesh io written o true d)
    /\ (forall e, mesh_io.mesh2o3d mesh = Raise e ->
          mesh_io.serialize_mesh io filepath mesh "ply" d = (Raise e, d))
    /\ written <> filepath
    /\ (forall stem, filepath = stem ++ ".ply" -> written = stem ++ "_mesh.ply").
Proof.
  intros Disk io filepath mesh d Hext written.
  assert (Hrun : mesh_io.serialize_mesh io filepath mesh "ply" d
                 = mesh_io.write_triangle_mesh_o3d io written mesh true d).
  { unfold mesh_io.serialize_mesh, mesh_io.mesh2ply. rewrite Hext. reflexivity. }
  repeat split.
  - intros o Ho. rewrite Hrun. unfold mesh_io.write_triangle_mesh_o3d, bind, lift.
    rewrite Ho. reflexivity.
  - intros e He. rewrite Hrun. unfold mesh_io.write_triangle_mesh_o3d, bind, lift.
    rewrite He. reflexivity.
  - apply drop_last_differs.
  - intros stem ->. unfold written. now rewrite drop_last_ply.
Qed.

Lemma serialize_mesh_ply_of_two_faces :
  mesh_io.serialize_mesh Examples.recording "/out/mesh.ply"
    (Mesh.init (Some Examples.xyz_only) (Some Examples.two_faces) None None) "ply" []
  = (Ok tt, ["/out/mesh_mesh.ply"]).
Proof.
  destruct (serialize_mesh_ply_writes_beside_the_path (list string) Examples.recording
              "/out/mesh.ply"
              (Mesh.init (Some Examples.xyz_only) (Some Examples.two_faces) None None)
              [] eq_refl) as [H _].
  exact (eq_trans (H _ eq_refl) eq_refl).
Defined.

(** X19.  [serialize_mesh] writes nothing when the last dot-separated piece
    of the path is not the extension asked (a ValueError naming both), nor
    when it is and the extension is neither "ply" nor "csv"
    (NotImplementedError): the disk is as it was. *)
Theorem serialize_mesh_refuses_other_extensions :
  forall (Disk : Type) (io : mesh_io.IO Disk) (filepath : string) (mesh : Mesh.t)
         (extension : string) (d : Disk),
    (mesh_io.extension_of filepath <> extension ->
     mesh_io.serialize_mesh io filepath mesh extension d
     = (Raise (ValueError ("Filepath extension ('" ++ mesh_io.extension_of filepath
                           ++ "') is inconsistent with the extension asked ('"
                           ++ extension ++ "').")), d))
    /\ (mesh_io.extension_of filepath = extension ->
        extension <> "ply" -> extension <> "csv" ->
        mesh_io.serialize_mesh io filepath mesh extension d
        = (Raise NotImplementedError, d)).
Proof.
  intros Disk io filepath mesh extension d. unfold mesh_io.serialize_mesh. split.
  - intros Hne. apply String.eqb_neq in Hne. rewrite Hne. reflexivity.
  - intros Heq Hply Hcsv. apply String.eqb_eq in Heq. rewrite Heq.
    apply String.eqb_neq in Hply, Hcsv. cbn [negb]. rewrite Hply, Hcsv. reflexivity.
Qed.

(** X20.  [deserialize_mesh] never returns a mesh: a path whose last
    dot-separated piece is not "ply" is refused with NotImplementedError, and
    for a "ply" either the reading of the point cloud raises, or the face
    table is built from the three-column array of the triangles with the one
    label "p1, p2, p3", which pandas refuses with a ValueError. *)
Theorem deserialize_mesh_never_returns :
  forall (Disk : Type) (io : mesh_io.IO Disk) (filepath : string) (d : Disk),
    exists e,
      mesh_io.deserialize_mesh io filepath d = Raise e
      /\ (mesh_io.extension_of filepath <> "ply" -> e = NotImplementedError)
      /\ (mesh_io.extension_of filepath = "ply" ->
          match mesh_io.deserialize_point_cloud io filepath d with
          | Ok _ => exists msg, e = ValueError msg
          | Raise e' => e = e'
          end).
Proof.
  intros Disk io filepath d. unfold mesh_io.deserialize_mesh, mesh_io.ply2mesh.
  destruct (String.eqb (mesh_io.extension_of filepath) "ply") eqn:Hext.
  - apply String.eqb_eq in Hext. cbn [negb].
    destruct (mesh_io.deserialize_point_cloud io filepath d) as [pcd|e'].
    + eexists. split; [reflexivity|]. split; [congruence|]. intros _. eexists. reflexivity.
    + exists e'. split; [reflexivity|]. split; [congruence | trivial].
  - apply String.eqb_neq in Hext. exists NotImplementedError.
    split; [reflexivity|]. split; [trivial | congruence].
Qed.

Local Open Scope list_scope.
